(** * SST (Single-Stream Temporal action proposals): training script and model

    A shallow embedding of [code/train.py] (the PyTorch training script) and
    [lasagne/code/sst/model.py] (the Lasagne model class), with the
    properties of the specification stated and settled against it.

    Conventions of the embedding.
    - Python exceptions are values of [exn]; a computation that may raise
      returns a [result].
    - Python integers are [Z]; lengths and positions inside lists are [nat].
    - The numbers of [train.py] (tIoU scores, labels, class weights, losses)
      are exact rationals [Q]: the script only compares, counts, adds and
      divides them.  The numbers of [model.py] are reals [R], because its
      loss takes logarithms.  Rounding of float64 is not modelled.
    - Randomness (numpy's shuffle, the dropout masks) is an explicit
      argument.
    - Library calls whose code is outside the repository (Lasagne's layers
      and update rule, the PyTorch module and optimizer) are fields of an
      interface class; a theorem holds for every implementation, or for
      every implementation that behaves as its hypotheses say. *)

From Stdlib Require Import ZArith QArith Qround List String Bool Lia Permutation.
From Stdlib Require Import DecimalString.
From Stdlib Require Import Reals Lra.
Import ListNotations.

Set Implicit Arguments.

(** ** Python: exceptions, results, [range], slices *)

Module Py.

Inductive exn : Type :=
| AssertionError
| ValueError (msg : string)
| TypeError (msg : string)
| IndexError
| ZeroDivisionError
| NameError (name : string)
| UnboundLocalError (name : string).

Inductive result (A : Type) : Type :=
| Ok (a : A)
| Raise (e : exn).

Arguments Ok {A} a.
Arguments Raise {A} e.

Definition bind {A B} (r : result A) (k : A -> result B) : result B :=
  match r with
  | Ok a => k a
  | Raise e => Raise e
  end.

Definition assert (b : bool) : result unit :=
  if b then Ok tt else Raise AssertionError.

(** [for x in xs: acc = body(acc, x)], leaving the loop at the first
    exception. *)
Fixpoint for_each {A S} (xs : list A) (body : S -> A -> result S) (s : S)
  : result S :=
  match xs with
  | [] => Ok s
  | x :: xs' => bind (body s x) (for_each xs' body)
  end.

(** [[f(x) for x in xs]] where [f] may raise. *)
Fixpoint map_result {A B} (f : A -> result B) (xs : list A)
  : result (list B) :=
  match xs with
  | [] => Ok []
  | x :: xs' =>
      bind (f x) (fun y => bind (map_result f xs') (fun ys => Ok (y :: ys)))
  end.

(** Number of elements of [range(start, stop, step)] for [step <> 0]. *)
Definition range_len (start stop step : Z) : Z :=
  if (0 <? step)%Z then
    if (start <? stop)%Z then ((stop - start - 1) / step + 1)%Z else 0%Z
  else
    if (stop <? start)%Z then ((start - stop - 1) / (- step) + 1)%Z else 0%Z.

Definition range (start stop step : Z) : result (list Z) :=
  if (step =? 0)%Z then Raise (ValueError "range() arg 3 must not be zero")
  else Ok (map (fun i => (start + Z.of_nat i * step)%Z)
               (seq 0 (Z.to_nat (range_len start stop step)))).

(** A slice bound is taken from the end when negative and clamped to the
    length. *)
Definition slice_bound (len i : Z) : Z :=
  if (i <? 0)%Z then Z.max 0 (i + len) else Z.min i len.

(** [l[a:b]] *)
Definition slice {A} (l : list A) (a b : Z) : list A :=
  let len := Z.of_nat (List.length l) in
  let lo := slice_bound len a in
  let hi := slice_bound len b in
  firstn (Z.to_nat (hi - lo)) (skipn (Z.to_nat lo) l).

(** [str(i)] *)
Definition str (i : Z) : string :=
  NilZero.string_of_int (Z.to_int i).

End Py.

Import Py.

Notation "x <- c1 ;; c2" := (Py.bind c1 (fun x => c2))
  (at level 100, c1 at next level, right associativity).
Notation "c1 ;;; c2" := (Py.bind c1 (fun _ => c2))
  (at level 100, right associativity).

(** ** numpy: the array operations used by [train.py] *)

Module Np.

(** [a[idx]] for an integer index array [idx] (fancy indexing along the
    first axis); an index outside the array raises. *)
Definition take {A} (a : list A) (idx : list nat) : result (list A) :=
  map_result (fun i => match nth_error a i with
                       | Some x => Ok x
                       | None => Raise IndexError
                       end) idx.

(** [np.arange(n)] *)
Definition arange (n : nat) : list nat := seq 0 n.

(** Strict comparison on rationals, as a boolean. *)
Definition Qlt_bool (x y : Q) : bool :=
  (Qnum x * QDen y <? Qnum y * QDen x)%Z.

(** [a[mask(a)] = c] applied to every element of a 3-d array. *)
Definition assign_where (mask : Q -> bool) (c : Q) (a : list (list (list Q)))
  : list (list (list Q)) :=
  map (map (map (fun v => if mask v then c else v))) a.

(** [(a == c).sum(1)] for [a] of shape [(N, T, K)]: for every sample and
    every anchor [k < K], the number of timesteps whose entry equals [c]. *)
Definition count_eq_axis1 (K : nat) (c : Q) (a : list (list (list Q)))
  : list (list Z) :=
  map (fun sample =>
         map (fun k =>
                fold_right Z.add 0%Z
                  (map (fun row => if Qeq_bool (nth k row 0%Q) c then 1%Z else 0%Z)
                       sample))
             (seq 0 K))
      a.

(** [np.mean(m, axis=0)] for [m] of shape [(N, K)]. *)
Definition mean_axis0 (K : nat) (m : list (list Q)) : list Q :=
  map (fun k =>
         (fold_right Qplus 0 (map (fun r => nth k r 0) m)
          / inject_Z (Z.of_nat (List.length m)))%Q)
      (seq 0 K).

End Np.

(** ** [code/train.py] *)

(** The PyTorch side of [train.py]: the module [pytorch_sst.model] and
    [torch.optim.SGD] are not part of the sources, so the calls the script
    makes on them are the fields of this interface.  As the specification
    has it (4.2), a forward pass is stateless across calls except for the
    hidden state: it reads the parameters and writes none of them.  A batch
    of features is a list of samples of shape [(T, D)], a batch of labels a
    list of samples of shape [(T, K)]. *)
Class Torch : Type := {
  params : Type;      (* model.state_dict(): the parameter values *)
  grads : Type;       (* the gradient buffers of the parameters *)
  opt_state : Type;   (* optimizer.state_dict(): the momentum buffers *)
  hidden : Type;      (* model.hidden *)
  outputs : Type;     (* the (N, T, K) tensor of scores *)
  noise : Type;       (* the random draws of one forward pass *)
  (* model.init_hidden() *)
  init_hidden : hidden;
  (* model.zero_grad() *)
  zero_grad : grads -> grads;
  (* outputs, states = model(X_t), under model.train(flag) *)
  forward : params -> hidden -> bool -> noise -> list (list (list Q))
            -> outputs * hidden;
  (* criterion(y_t, outputs) with criterion = WeightedCrossEntropy(w0, w1),
     read through loss.data[0] *)
  criterion : list Q -> list Q -> list (list (list Q)) -> outputs -> Q;
  (* loss.backward(): adds the gradient of the loss to the buffers *)
  backward : list Q -> list Q -> params -> hidden -> bool -> noise
             -> list (list (list Q)) -> list (list (list Q)) -> grads -> grads;
  (* optimizer.step() for optim.SGD(model.parameters(), lr=0.01,
     momentum=0.9) *)
  sgd_step : params -> grads -> opt_state -> params * opt_state
}.

Module Train.

Local Open Scope string_scope.

(** The options of [parse_args] that [main] reads. *)
Record args : Type := {
  method_name : string;
  train_dir : string;
  val_dir : string;
  param_dir : string;
  checkpoint : string;
  num_proposals : Z;
  seq_length : Z;
  depth : Z;
  width : Z;
  feat_dim : Z;
  batch_size : Z;
  num_epochs : Z;
  tIoU : Q;
  dropout : Q;
  verbose : bool
}.

(** [iterate_minibatches(inputs, targets, batchsize, shuffle)].  The
    generator is the list of its yields, each of which may raise; what
    happens before the first yield (the assertion, [range]) is the outer
    result.  [shuffled] is the outcome of [np.random.shuffle]. *)
Definition iterate_minibatches {X Y} (shuffled : list nat -> list nat)
    (inputs : list X) (targets : list Y) (batchsize : Z) (shuffle : bool)
  : result (list (result (list X * list Y))) :=
  assert (Nat.eqb (List.length inputs) (List.length targets)) ;;;
  let indices :=
    if shuffle then shuffled (Np.arange (List.length inputs)) else [] in
  starts <- range 0 (Z.of_nat (List.length inputs) - batchsize + 1) batchsize ;;
  Ok (map (fun start_idx =>
             if shuffle then
               let excerpt := slice indices start_idx (start_idx + batchsize) in
               xs <- Np.take inputs excerpt ;;
               ys <- Np.take targets excerpt ;;
               Ok (xs, ys)
             else
               Ok (slice inputs start_idx (start_idx + batchsize),
                   slice targets start_idx (start_idx + batchsize)))
          starts).

(** Lines 117-119: [y[y >= tIoU] = 1; y[y < tIoU] = 0; y.astype(float64)]. *)
Definition binarize (tiou : Q) (y : list (list (list Q)))
  : list (list (list Q)) :=
  let y1 := Np.assign_where (fun v => Qle_bool tiou v) 1%Q y in
  let y2 := Np.assign_where (fun v => Np.Qlt_bool v tiou) 0%Q y1 in
  y2.

(** Lines 121-122, for labels of shape [(N, T, K)]:
    [w0 = np.mean((y == 1).sum(1).astype(float64) / seq_length, axis=0)]
    [w1 = np.mean((y == 0).sum(1).astype(float64) / seq_length, axis=0)] *)
Definition fraction_axis1 (K : nat) (c : Q) (seq_len : Z)
    (y : list (list (list Q))) : list (list Q) :=
  map (map (fun n => (inject_Z n / inject_Z seq_len)%Q))
      (Np.count_eq_axis1 K c y).

Definition class_weight_w0 (K : nat) (seq_len : Z) (y_train : list (list (list Q)))
  : list Q :=
  Np.mean_axis0 K (fraction_axis1 K 1%Q seq_len y_train).

Definition class_weight_w1 (K : nat) (seq_len : Z) (y_train : list (list (list Q)))
  : list Q :=
  Np.mean_axis0 K (fraction_axis1 K 0%Q seq_len y_train).

(** [x / n] for a Python float [x] and a Python int [n]. *)
Definition float_div (x : Q) (n : Z) : result Q :=
  if (n =? 0)%Z then Raise ZeroDivisionError else Ok (x / inject_Z n)%Q.

(** Reading a variable: [NameError] when no assignment binds it. *)
Definition load_name (env : list (string * string)) (x : string)
  : result string :=
  match find (fun b => String.eqb (fst b) x) env with
  | Some b => Ok (snd b)
  | None => Raise (NameError x)
  end.

Section Loop.

Context {T : Torch}.

(** The dictionary handed to [torch.save]. *)
Record checkpoint_dict : Type := {
  ck_epoch : Z;
  ck_arch : string;
  ck_state_dict : params;
  ck_train_loss : Q;
  ck_val_loss : Q;
  ck_optimizer : opt_state
}.

Inductive file : Type :=
| EmptyFile
| Saved (c : checkpoint_dict).

Inductive line : Type :=
| Text (s : string)
| TimeTook (epoch total : Z)
| TrainLoss (q : Q)
| ValLoss (q : Q).

(** What the loop reads and writes: the model object, the optimizer, the
    file system and the standard output. *)
Record state : Type := {
  model_params : params;
  model_grads : grads;
  model_hidden : hidden;
  model_training : bool;
  optimizer : opt_state;
  dirs : list string;
  files : list (string * file);
  stdout : list line
}.

(** A statement: runs from a state, ends in a state, may raise. *)
Definition M (A : Type) : Type := state -> result A * state.

Definition ret {A} (a : A) : M A := fun s => (Ok a, s).

Definition mbind {A B} (m : M A) (k : A -> M B) : M B :=
  fun s => match m s with
           | (Ok a, s') => k a s'
           | (Raise e, s') => (Raise e, s')
           end.

Definition lift {A} (r : result A) : M A := fun s => (r, s).

Definition modify (f : state -> state) : M unit := fun s => (Ok tt, f s).

Definition get {A} (f : state -> A) : M A := fun s => (Ok (f s), s).

Notation "x <-- c1 ;; c2" := (mbind c1 (fun x => c2))
  (at level 100, c1 at next level, right associativity).
Notation "c1 ;; c2" := (mbind c1 (fun _ => c2))
  (at level 100, right associativity).

(** [for x in gen: acc = body(acc, x)] as a statement. *)
Fixpoint for_loop {A S} (xs : list A) (body : S -> A -> M S) (acc : S)
  : M S :=
  match xs with
  | [] => ret acc
  | x :: xs' => acc' <-- body acc x ;; for_loop xs' body acc'
  end.

Definition set_training (b : bool) : M unit :=
  modify (fun s =>
    {| model_params := model_params s; model_grads := model_grads s;
       model_hidden := model_hidden s; model_training := b;
       optimizer := optimizer s; dirs := dirs s; files := files s;
       stdout := stdout s |}).

Definition set_hidden (h : hidden) : M unit :=
  modify (fun s =>
    {| model_params := model_params s; model_grads := model_grads s;
       model_hidden := h; model_training := model_training s;
       optimizer := optimizer s; dirs := dirs s; files := files s;
       stdout := stdout s |}).

Definition set_grads (g : grads) : M unit :=
  modify (fun s =>
    {| model_params := model_params s; model_grads := g;
       model_hidden := model_hidden s; model_training := model_training s;
       optimizer := optimizer s; dirs := dirs s; files := files s;
       stdout := stdout s |}).

Definition set_params_optimizer (po : params * opt_state) : M unit :=
  modify (fun s =>
    {| model_params := fst po; model_grads := model_grads s;
       model_hidden := model_hidden s; model_training := model_training s;
       optimizer := snd po; dirs := dirs s; files := files s;
       stdout := stdout s |}).

Definition print (l : line) : M unit :=
  modify (fun s =>
    {| model_params := model_params s; model_grads := model_grads s;
       model_hidden := model_hidden s; model_training := model_training s;
       optimizer := optimizer s; dirs := dirs s; files := files s;
       stdout := stdout s ++ [l] |}).

(** [os.path.exists(path)] *)
Definition path_exists (path : string) : M bool :=
  get (fun s => existsb (String.eqb path) (dirs s)
                || existsb (fun f => String.eqb path (fst f)) (files s)).

(** [os.mkdir(path)], the parent directory being there (where it is not,
    [os.mkdir] raises [OSError]; that exit of a run is not followed). *)
Definition mkdir (path : string) : M unit :=
  modify (fun s =>
    {| model_params := model_params s; model_grads := model_grads s;
       model_hidden := model_hidden s; model_training := model_training s;
       optimizer := optimizer s; dirs := path :: dirs s; files := files s;
       stdout := stdout s |}).

(** Writing a file, replacing the one of the same name: [open(path, 'w')]
    with [EmptyFile], [torch.save(obj, path)] with [Saved obj]. *)
Definition write_file (path : string) (f : file) : M unit :=
  modify (fun s =>
    {| model_params := model_params s; model_grads := model_grads s;
       model_hidden := model_hidden s; model_training := model_training s;
       optimizer := optimizer s; dirs := dirs s;
       files := (path, f)
                :: filter (fun g => negb (String.eqb path (fst g))) (files s);
       stdout := stdout s |}).

(** The random draws of a run: the outcome of [np.random.shuffle] in each
    epoch, and the draws of each forward pass (epoch, training flag, batch
    number). *)
Record oracle : Type := {
  shuffled : Z -> list nat -> list nat;
  noise_at : Z -> bool -> nat -> noise
}.

Section Main.

Variable a : args.
Variable rnd : oracle.
Variables X_train y_train : list (list (list Q)).
(** [w0] and [w1] as computed on lines 121-122. *)
Variables w0 w1 : list Q.

(** Lines 190-201: the body of the training loop over minibatches.  The
    script binds [model.hidden] anew before every call of the model, so the
    returned [states] stay a local variable. *)
Definition train_batch (i : Z) (acc : Q * Z)
    (nb : nat * result (list (list (list Q)) * list (list (list Q))))
  : M (Q * Z) :=
  let '(train_loss, train_batches) := acc in
  batch <-- lift (snd nb) ;;
  g <-- get model_grads ;;
  set_grads (zero_grad g) ;;
  set_hidden init_hidden ;;
  let '(X_t, y_t) := batch in
  th <-- get model_params ;;
  h <-- get model_hidden ;;
  tr <-- get model_training ;;
  let nz := noise_at rnd i tr (fst nb) in
  let '(outs, states) := forward th h tr nz X_t in
  let loss := criterion w0 w1 y_t outs in
  g <-- get model_grads ;;
  set_grads (backward w0 w1 th h tr nz X_t y_t g) ;;
  g <-- get model_grads ;;
  o <-- get optimizer ;;
  set_params_optimizer (sgd_step th g o) ;;
  ret ((train_loss + loss)%Q, (train_batches + 1)%Z).

(** Lines 208-216: the body of the evaluation loop over minibatches. *)
Definition eval_batch (i : Z) (acc : Q * Z)
    (nb : nat * result (list (list (list Q)) * list (list (list Q))))
  : M (Q * Z) :=
  let '(val_loss, val_batches) := acc in
  batch <-- lift (snd nb) ;;
  set_hidden init_hidden ;;
  let '(X_t, y_t) := batch in
  th <-- get model_params ;;
  h <-- get model_hidden ;;
  tr <-- get model_training ;;
  let nz := noise_at rnd i tr (fst nb) in
  let '(outs, states) := forward th h tr nz X_t in
  let loss := criterion w0 w1 y_t outs in
  ret ((val_loss + loss)%Q, (val_batches + 1)%Z).

Definition enumerate {A} (l : list A) : list (nat * A) :=
  combine (seq 0 (List.length l)) l.

(** Lines 185-201: the training pass of epoch [i]. *)
Definition train_pass (i : Z) : M (Q * Z) :=
  set_training true ;;
  gen <-- lift (iterate_minibatches (shuffled rnd i) X_train y_train
                  (batch_size a) true) ;;
  for_loop (enumerate gen) (train_batch i) (0%Q, 0%Z).

(** Lines 203-216: the evaluation pass of epoch [i]. *)
Definition eval_pass (i : Z) : M (Q * Z) :=
  set_training false ;;
  gen <-- lift (iterate_minibatches (shuffled rnd i) X_train y_train
                  (batch_size a) false) ;;
  for_loop (enumerate gen) (eval_batch i) (0%Q, 0%Z).

(** Lines 222-234: the checkpoint of epoch [i].  The path handed to
    [torch.save] is built from the variable [save_dir]; the only path
    variable assigned in [main] at this point is [ckpt_dir]. *)
Definition save_checkpoint (i : Z) (train_loss : Q) (train_batches : Z)
    (val_loss : Q) (val_batches : Z) : M unit :=
  let ckpt_dir := param_dir a ++ method_name a in
  ex <-- path_exists ckpt_dir ;;
  (if Bool.eqb ex false then mkdir ckpt_dir else ret tt) ;;
  sd <-- get model_params ;;
  tl <-- lift (float_div train_loss train_batches) ;;
  vl <-- lift (float_div val_loss val_batches) ;;
  od <-- get optimizer ;;
  let d := {| ck_epoch := i; ck_arch := method_name a; ck_state_dict := sd;
              ck_train_loss := tl; ck_val_loss := vl; ck_optimizer := od |} in
  save_dir <-- lift (load_name [("ckpt_dir", ckpt_dir)] "save_dir") ;;
  write_file (save_dir ++ "/epoch_" ++ str i ++ ".pth.tar") (Saved d).

(** Lines 184-234: one epoch. *)
Definition epoch (_ : unit) (i : Z) : M unit :=
  tb <-- train_pass i ;;
  let '(train_loss, train_batches) := tb in
  vb <-- eval_pass i ;;
  let '(val_loss, val_batches) := vb in
  print (TimeTook (i + 1) (num_epochs a)) ;;
  tl <-- lift (float_div train_loss train_batches) ;;
  print (TrainLoss tl) ;;
  vl <-- lift (float_div val_loss val_batches) ;;
  print (ValLoss vl) ;;
  if (i mod 10 =? 0)%Z
  then save_checkpoint i train_loss train_batches val_loss val_batches
  else ret tt.

(** Lines 179-237: the training loop of [main]. *)
Definition training_loop : M unit :=
  print (Text "Starting training ...") ;;
  write_file (method_name a ++ "_loss.txt") EmptyFile ;;
  epochs <-- lift (range 0 (num_epochs a) 1) ;;
  for_loop epochs epoch tt ;;
  print (Text "DONE").

End Main.

(** The checkpoints a state holds on disk. *)
Definition checkpoints (s : state) : list (string * checkpoint_dict) :=
  flat_map (fun f => match snd f with
                     | Saved c => [(fst f, c)]
                     | EmptyFile => []
                     end) (files s).

End Loop.

End Train.

(** ** [lasagne/code/sst/model.py] *)

(** A Theano tensor value: its shape and its elements in row-major order
    (the order of [ravel]). *)
Record tensor : Type := {
  shape : list nat;
  data : list R
}.

(** A symbolic Theano variable, such as [T.tensor3('input')], by its
    name. *)
Inductive variable : Type :=
| TensorVariable (name : string).

(** The layers of [_build_network], from the input to the output; every
    layer but the input layer has the previous one as its only incoming
    layer.  The input layer stands for [input_var] when one is given and
    for a variable of its own otherwise. *)
Inductive dim : Type :=
| Fixed (n : Z)           (* an integer *)
| Infer                   (* -1 *)
| InputDim (axis : nat).  (* l_input.input_var.shape[axis] *)

Inductive layer : Type :=
| InputLayer (shape : list (option Z))
| GRULayer (num_units : Z) (grad_clipping : R)
| DropoutLayer (p : R)
| ReshapeLayer (new_shape : list dim)
| DenseLayer (num_units : Z) (nonlinearity : R -> R).

(** The Lasagne and Theano side of [model.py]: what the library's layer
    constructors accept, the forward pass of the recurrent and of the dense
    layer, and the update rule, none of them part of the sources. *)
Class Lasagne : Type := {
  pvalues : Type;    (* the values of the network's parameters *)
  velocity : Type;   (* the shared variables of the update rule *)
  (* the argument checks of a layer constructor *)
  layer_check : layer -> Py.result unit;
  (* the output of the GRU layer at a position of the stack *)
  GRULayer_output : pvalues -> nat -> Z -> tensor -> tensor;
  (* dot(input, W) + b of the dense layer at a position of the stack *)
  DenseLayer_affine : pvalues -> nat -> Z -> tensor -> tensor;
  (* one application of the updates of
     lasagne.updates.nesterov_momentum(loss, params, learning_rate, momentum),
     the loss being a function of the parameter values *)
  nesterov_momentum : (pvalues -> R) -> R -> R -> pvalues * velocity
                      -> pvalues * velocity
}.

Module SST.

Local Open Scope R_scope.
Local Open Scope string_scope.

(** [lasagne.nonlinearities.sigmoid] *)
Definition sigmoid (x : R) : R := 1 / (1 + exp (- x)).

(** [T.clip(x, lo, hi)] on one element. *)
Definition clip (x lo hi : R) : R :=
  if Rlt_dec x lo then lo else if Rgt_dec x hi then hi else x.

Definition tmap (f : R -> R) (t : tensor) : tensor :=
  {| shape := shape t; data := map f (data t) |}.

Definition ndim (t : tensor) : nat := List.length (shape t).

(** Elementwise product or sum of two vectors of one length. *)
Fixpoint zip_with (f : R -> R -> R) (xs ys : list R) : list R :=
  match xs, ys with
  | x :: xs', y :: ys' => f x y :: zip_with f xs' ys'
  | _, _ => []
  end.

Definition rsum (xs : list R) : R := fold_right Rplus 0 xs.

(** [v.mean()] *)
Definition mean (xs : list R) : R := rsum xs / INR (List.length xs).

(** The shape a [ReshapeLayer] gives to a tensor: integers are taken as
    they are, [InputDim] from the shape of the network input, and [-1] is
    what remains of the number of elements.  Theano checks, when the
    compiled function runs, that the new shape holds as many elements as
    the tensor has; [reshape_to] is the tensor returned when it does. *)
Definition known_dim (input_shape : list nat) (d : dim) : nat :=
  match d with
  | Fixed n => Z.to_nat n
  | Infer => 1%nat
  | InputDim axis => nth axis input_shape 0%nat
  end.

Definition reshape_to (input_shape : list nat) (new_shape : list dim)
    (t : tensor) : tensor :=
  let known := fold_right Nat.mul 1%nat (map (known_dim input_shape) new_shape) in
  {| shape := map (fun d => match d with
                            | Infer => Nat.div (List.length (data t)) known
                            | _ => known_dim input_shape d
                            end) new_shape;
     data := data t |}.

(** [DropoutLayer.get_output_for]: the identity when [deterministic] or
    [p = 0]; otherwise the input, rescaled by [1 / (1 - p)], times a mask of
    zeros and ones drawn with probability [1 - p] of a one. *)
Definition dropout_output (p : R) (deterministic : bool) (mask : list R)
    (t : tensor) : tensor :=
  if deterministic then t
  else if Req_dec_T p 0 then t
  else {| shape := shape t;
          data := zip_with Rmult (map (fun x => x / (1 - p)) (data t)) mask |}.

Section WithLasagne.

Context {L : Lasagne}.

(** [lasagne.layers.get_output(network, deterministic=...)] evaluated at
    parameter values [th] and network input [x0]; [masks pos] is the mask
    drawn for a dropout layer at position [pos] of the stack. *)
Definition layer_output (th : pvalues) (deterministic : bool)
    (masks : nat -> list R) (x0 : tensor) (pos : nat) (l : layer) (t : tensor)
  : tensor :=
  match l with
  | InputLayer _ => t
  | GRULayer n _ => GRULayer_output th pos n t
  | DropoutLayer p => dropout_output p deterministic (masks pos) t
  | ReshapeLayer sh => reshape_to (shape x0) sh t
  | DenseLayer n f => tmap f (DenseLayer_affine th pos n t)
  end.

Fixpoint run_layers (th : pvalues) (deterministic : bool)
    (masks : nat -> list R) (x0 : tensor) (pos : nat) (ls : list layer)
    (t : tensor) : tensor :=
  match ls with
  | [] => t
  | l :: ls' =>
      run_layers th deterministic masks x0 (S pos) ls'
        (layer_output th deterministic masks x0 pos l t)
  end.

Definition get_output (network : list layer) (th : pvalues)
    (deterministic : bool) (masks : nat -> list R) (x : tensor) : tensor :=
  run_layers th deterministic masks x 0 network x.

(** What a compiled Theano function returns. *)
Inductive value : Type :=
| Scalar (r : R)
| Array (t : tensor).

(** A compiled Theano function: called on the shared variables, the random
    draws of the call, the input and (when it takes one) the target, it
    returns a value and the shared variables after its updates. *)
Definition theano_function : Type :=
  pvalues * velocity -> (nat -> list R) -> tensor -> option tensor
  -> Py.result (value * (pvalues * velocity)).

Record SSTSequenceEncoder : Type := {
  mode : string;
  input_var : option variable;
  target_var : option variable;
  w0 : option R;
  w1 : option R;
  seq_length : option nat;
  num_proposals : Z;
  depth : Z;
  width : Z;
  input_size : Z;
  grad_clip : R;
  reset_bias : R;
  dropout : R;
  verbose : bool;
  train_fn : option theano_function;
  test_fn : option theano_function;
  _network : list layer
}.

(** Lines 79-106: the layers, in the order of construction. *)
Definition network_layers (seq_length : option nat) (input_size depth width
    num_proposals : Z) (grad_clip dropout : R) : list layer :=
  let input_shape := [None; option_map Z.of_nat seq_length; Some input_size] in
  let dropout_enabled := if Rgt_dec dropout 0 then true else false in
  InputLayer input_shape
  :: List.concat (repeat (GRULayer width grad_clip
                          :: (if dropout_enabled then [DropoutLayer dropout]
                              else []))
                         (Z.to_nat depth))
  ++ [ReshapeLayer [Infer; Fixed width];
      DenseLayer num_proposals sigmoid;
      ReshapeLayer [InputDim 0; InputDim 1; Fixed num_proposals]].

(** [_build_network]: every layer constructor runs its checks, in order. *)
Definition _build_network (seq_length : option nat) (input_size depth width
    num_proposals : Z) (grad_clip dropout : R) : Py.result (list layer) :=
  let ls := network_layers seq_length input_size depth width num_proposals
              grad_clip dropout in
  Py.for_each ls (fun _ l => layer_check l) tt ;;;
  Py.Ok ls.

(** [SSTSequenceEncoder.__init__].  The symbolic [input_var] and
    [target_var] are kept for [compile], which makes them the arguments of
    the compiled functions; the text of the dropout message leaves out the
    formatted value. *)
Definition __init__ (input_var target_var : option variable)
    (seq_length : option nat) (num_proposals depth width
    input_size : Z) (grad_clip reset_bias dropout : R) (mode : string)
    (w0 w1 : option R) (verbose : bool) : Py.result SSTSequenceEncoder :=
  if (num_proposals <? 0)%Z then
    Py.Raise (Py.ValueError
      ("Must provide positive number of proposalanchors. (Provided: "
       ++ Py.str num_proposals ++ ")"))
  else
  if (if Rlt_dec dropout 0 then true else false)
     || (if Rgt_dec dropout 1 then true else false) then
    Py.Raise (Py.ValueError "Invalid value for dropout")
  else
    net <- _build_network seq_length input_size depth width num_proposals
             grad_clip dropout ;;
    Py.Ok {| mode := mode; input_var := input_var; target_var := target_var;
             w0 := w0; w1 := w1; seq_length := seq_length;
             num_proposals := num_proposals; depth := depth; width := width;
             input_size := input_size; grad_clip := grad_clip;
             reset_bias := reset_bias; dropout := dropout; verbose := verbose;
             train_fn := None; test_fn := None; _network := net |}.

(** Lines 127 and 140, [term1] and [term2] being [w1 * target] and
    [w0 * (1.0 - target)]:
    [-(term1.ravel() * T.log(p.ravel())
       + (1.0 - term2.ravel()) * T.log(1.0 - p.ravel()))], then [.mean()]. *)
Definition loss_of (w0 w1 : R) (target prediction : tensor) : R :=
  let term1 := map (fun y => w1 * y) (data target) in
  let term2 := map (fun y => w0 * (1 - y)) (data target) in
  let p := data prediction in
  mean (map Ropp
          (zip_with Rplus
             (zip_with Rmult term1 (map ln p))
             (zip_with Rmult (map (fun t2 => 1 - t2) term2)
                             (map (fun q => ln (1 - q)) p)))).

(** Lines 125 and 135-136. *)
Definition train_prediction (net : list layer) (th : pvalues)
    (masks : nat -> list R) (x : tensor) : tensor :=
  tmap (fun v => clip v 0.001 0.999) (get_output net th false masks x).

Definition test_prediction (net : list layer) (th : pvalues)
    (masks : nat -> list R) (x : tensor) : tensor :=
  tmap (fun v => clip v 0.001 0.999) (get_output net th true masks x).

(** [compile]: lines 120-147.  In train mode the products of lines 123-124
    need both class weights and [target_var]; [theano.function] refuses a
    list of inputs that holds [None] (lines 133, 142 and 146).  Both raise
    [TypeError]; the texts of the messages are shortened. *)
Definition compile (self : SSTSequenceEncoder)
  : Py.result SSTSequenceEncoder :=
  let with_fns (tr te : option theano_function) :=
    {| mode := mode self; input_var := input_var self;
       target_var := target_var self; w0 := w0 self; w1 := w1 self;
       seq_length := seq_length self; num_proposals := num_proposals self;
       depth := depth self; width := width self;
       input_size := input_size self; grad_clip := grad_clip self;
       reset_bias := reset_bias self; dropout := dropout self;
       verbose := verbose self; train_fn := tr; test_fn := te;
       _network := _network self |} in
  match test_fn self with
  | Some _ => Py.Ok self
  | None =>
      if String.eqb (mode self) "train" then
        match w1 self, target_var self, w0 self with
        | Some c1, Some _, Some c0 =>
            let loss th masks x y :=
              loss_of c0 c1 y (train_prediction (_network self) th masks x) in
            let updates masks x y :=
              nesterov_momentum (fun th => loss th masks x y) 0.01 0.9 in
            let train : theano_function := fun sh masks x target =>
              match target with
              | Some y =>
                  Py.Ok (Scalar (loss (fst sh) masks x y), updates masks x y sh)
              | None => Py.Raise (Py.TypeError "Missing required input")
              end in
            let test_loss th masks x y :=
              let _unused := test_prediction (_network self) th masks x in
              loss_of c0 c1 y (train_prediction (_network self) th masks x) in
            let test : theano_function := fun sh masks x target =>
              match target with
              | Some y => Py.Ok (Scalar (test_loss (fst sh) masks x y), sh)
              | None => Py.Raise (Py.TypeError "Missing required input")
              end in
            match input_var self with
            | Some _ => Py.Ok (with_fns (Some train) (Some test))
            | None => Py.Raise (Py.TypeError "Unknown parameter type")
            end
        | _, _, _ =>
            Py.Raise (Py.TypeError "unsupported operand type(s) for *")
        end
      else if String.eqb (mode self) "test" then
        let test : theano_function := fun sh masks x _ =>
          Py.Ok (Array (get_output (_network self) (fst sh) true masks x), sh) in
        match input_var self with
        | Some _ => Py.Ok (with_fns (train_fn self) (Some test))
        | None => Py.Raise (Py.TypeError "Unknown parameter type")
        end
      else Py.Raise (Py.UnboundLocalError "test_fn")
  end.

(** [forward_eval(input_data, input_labels)]; [masks1] and [masks2] are the
    random draws of the first and of the second compiled function called. *)
Definition forward_eval (self : SSTSequenceEncoder) (sh : pvalues * velocity)
    (masks1 masks2 : nat -> list R) (input_data : tensor)
    (input_labels : option tensor)
  : Py.result (value * (pvalues * velocity)) :=
  match test_fn self with
  | None => Py.Raise (Py.ValueError "Model must be compiled.")
  | Some test =>
      if negb (Nat.eqb (ndim input_data) 3) then
        Py.Raise (Py.ValueError "Input ndarray must be three dimensional.")
      else if negb (Z.eqb (Z.of_nat (nth 2 (shape input_data) 0%nat))
                          (input_size self)) then
        Py.Raise (Py.ValueError
          "Mismatch between input visual encoding size and network input size.")
      else if String.eqb (mode self) "train" then
        match train_fn self with
        | Some train =>
            r1 <- train sh masks1 input_data input_labels ;;
            test (snd r1) masks2 input_data input_labels
        | None => Py.Raise (Py.TypeError "'NoneType' object is not callable")
        end
      else if String.eqb (mode self) "test" then
        test sh masks1 input_data None
      else Py.Raise (Py.UnboundLocalError "output")
  end.

End WithLasagne.

End SST.

(** ** More of [code/train.py]: reading the data, resuming a run *)

Module Loader.

Section WithFiles.

(** The file system as the script reads it: [os.listdir(dir)], and
    [sio.loadmat(fname)] read at the keys ['relu6'] and ['label']. *)
Variable listdir : string -> list string.
Variable loadmat : string -> result (list (list Q) * list (list Q)).

(** Lines 86-88 and 90-92. *)
Definition list_files (dir : string) : list string :=
  map (fun fname => (dir ++ fname)%string) (listdir dir).

(** Lines 99-112 and 129-141: the features and the labels of the files,
    in the order of the files ([shape[0]] is the number of rows);
    [read_step] is the body of the loop. *)
Definition read_step
    (acc : list (list (list Q)) * list (list (list Q))) (fname : string)
  : result (list (list (list Q)) * list (list (list Q))) :=
  data <- loadmat fname ;;
  let feat := fst data in
  let gt := snd data in
  assert (Nat.eqb (List.length feat) (List.length gt)) ;;;
  Ok (fst acc ++ [feat], snd acc ++ [gt]).

Definition read_samples (fnames : list string)
  : result (list (list (list Q)) * list (list (list Q))) :=
  for_each fnames read_step ([], []).

End WithFiles.

End Loader.

Module Resume.

Local Open Scope string_scope.

Section WithTorch.

Context {T : Torch}.

(** What [torch.load] raises on a file that [torch.save] did not write. *)
Variable load_error : exn.

Notation "x <-- c1 ;; c2" := (Train.mbind c1 (fun x => c2))
  (at level 100, c1 at next level, right associativity).
Notation "c1 ;; c2" := (Train.mbind c1 (fun _ => c2))
  (at level 100, right associativity).

(** [os.path.isfile(path)] *)
Definition isfile (path : string) : Train.M bool :=
  Train.get (fun s => existsb (fun f => String.eqb path (fst f))
                              (Train.files s)).

(** [torch.load(path)] *)
Definition torch_load (path : string) : Train.M Train.checkpoint_dict :=
  fun s => match find (fun f => String.eqb path (fst f)) (Train.files s) with
           | Some (_, Train.Saved c) => (Ok c, s)
           | _ => (Raise load_error, s)
           end.

(** [model.load_state_dict(sd)] and [optimizer.load_state_dict(od)]. *)
Definition load_state_dict (sd : params) : Train.M unit :=
  od <-- Train.get Train.optimizer ;;
  Train.set_params_optimizer (sd, od).

Definition optimizer_load_state_dict (od : opt_state) : Train.M unit :=
  sd <-- Train.get Train.model_params ;;
  Train.set_params_optimizer (sd, od).

(** Lines 162-177: optionally resume from a checkpoint.  The value is what
    the script stores in [args.start_epoch], when it stores it. *)
Definition resume (a : Train.args) : Train.M (option Z) :=
  start <--
    (if String.eqb (Train.checkpoint a) "" then Train.ret None
     else
       ex <-- isfile (Train.checkpoint a) ;;
       if ex then
         Train.print (Train.Text ("=> loading checkpoint '"
                                  ++ Train.checkpoint a ++ "'")) ;;
         ckpt <-- torch_load (Train.checkpoint a) ;;
         let start_epoch := Train.ck_epoch ckpt in
         load_state_dict (Train.ck_state_dict ckpt) ;;
         optimizer_load_state_dict (Train.ck_optimizer ckpt) ;;
         Train.print (Train.Text ("=> loaded checkpoint '"
                                  ++ Train.checkpoint a ++ "' (epoch "
                                  ++ str (Train.ck_epoch ckpt) ++ ")")) ;;
         Train.ret (Some start_epoch)
       else
         Train.print (Train.Text ("=> no checkpoint found at '"
                                  ++ Train.checkpoint a ++ "'")) ;;
         Train.ret None) ;;
  Train.print (Train.Text "DONE") ;;
  Train.ret start.

(** Lines 162-237: resuming, then the training loop; [start_epoch] is not
    read again. *)
Definition resume_and_train (a : Train.args) (rnd : Train.oracle)
    (X_train y_train : list (list (list Q))) (w0 w1 : list Q)
  : Train.M unit :=
  _start_epoch <-- resume a ;;
  Train.training_loop a rnd X_train y_train w0 w1.

End WithTorch.

End Resume.

(** ** More of [lasagne/code/sst/model.py]: pre-trained parameters *)

Module Pretrained.

Section WithLasagne.

Context {L : Lasagne}.

(** [lasagne.layers.set_all_param_values(network, values)] on the values of
    the network's parameters; [P] is the type of what it is given. *)
Variable P : Type.
Variable set_all_param_values : list layer -> P -> pvalues -> result pvalues.

(** [initialize_pretrained(model_params)]: lines 111-115. *)
Definition initialize_pretrained (self : SST.SSTSequenceEncoder)
    (sh : pvalues * velocity) (model_params : P)
  : result (SST.SSTSequenceEncoder * (pvalues * velocity)) :=
  match SST.test_fn self with
  | None =>
      th <- set_all_param_values (SST._network self) model_params (fst sh) ;;
      Ok (self, (th, snd sh))
  | Some _ => Ok (self, sh)
  end.

End WithLasagne.

End Pretrained.

(** ** Instances of the interfaces

    Two small implementations of the library interfaces, on which the
    theorems below are run at concrete inputs. *)

(** A learner with one parameter that scores every input by the parameter
    itself: the loss is the square of the score, its gradient twice the
    parameter, and the optimizer is gradient descent with momentum. *)
Definition scalar_torch : Torch := {|
  params := Q;
  grads := Q;
  opt_state := Q;
  hidden := unit;
  outputs := Q;
  noise := unit;
  init_hidden := tt;
  zero_grad := fun _ => 0%Q;
  forward := fun th _ _ _ _ => (th, tt);
  criterion := fun _ _ _ out => (out * out)%Q;
  backward := fun _ _ th _ _ _ _ _ g => (g + 2 * th)%Q;
  sgd_step := fun th g v =>
    let v' := ((9 # 10) * v + g)%Q in ((th - (1 # 100) * v')%Q, v')
|}.

(** The argument checks of the constructors of a library that, as Lasagne
    does, refuses with [ValueError] an input layer with a dimension that
    is not positive, a recurrent or dense layer whose parameters would have
    such a dimension, and a reshape to a dimension that is 0 or below -1 or
    with more than one -1. *)
Definition non_positive (d : option Z) : bool :=
  match d with
  | Some n => (n <=? 0)%Z
  | None => false
  end.

Definition bad_reshape_dim (d : dim) : bool :=
  match d with
  | Fixed n => (n =? 0)%Z || (n <? -1)%Z
  | _ => false
  end.

Definition inferred_dim (d : dim) : bool :=
  match d with
  | Fixed n => (n =? -1)%Z
  | Infer => true
  | InputDim _ => false
  end.

Definition positive_dimensions (l : layer) : Py.result unit :=
  match l with
  | InputLayer sh =>
      if existsb non_positive sh then
        Py.Raise (Py.ValueError
          "Cannot create InputLayer with a non-positive shape dimension.")
      else Py.Ok tt
  | GRULayer n _ | DenseLayer n _ =>
      if (n <=? 0)%Z then
        Py.Raise (Py.ValueError
          "Cannot create param with a non-positive shape dimension.")
      else Py.Ok tt
  | DropoutLayer _ => Py.Ok tt
  | ReshapeLayer sh =>
      if existsb bad_reshape_dim sh then
        Py.Raise (Py.ValueError "`shape` integers must be positive or -1")
      else if (1 <? List.length (filter inferred_dim sh))%nat then
        Py.Raise (Py.ValueError "`shape` cannot contain multiple -1")
      else Py.Ok tt
  end.

(** A network with one parameter: the recurrent layer passes its input
    on, the dense layer multiplies by the parameter, the constructors
    check that every dimension they are given is positive, and the update
    rule moves the parameter as for a gradient equal to 1. *)
Definition scalar_lasagne : Lasagne := {|
  pvalues := R;
  velocity := R;
  layer_check := positive_dimensions;
  GRULayer_output := fun _ _ _ t => t;
  DenseLayer_affine := fun th _ _ t => SST.tmap (fun x => (th * x)%R) t;
  nesterov_momentum := fun _ lr mu sh =>
    let v' := (mu * snd sh - lr)%R in ((fst sh + mu * v' - lr)%R, v')
|}.

(** The defaults of [parse_args]. *)
Definition default_args : Train.args := {|
  Train.method_name := "baseline";
  Train.train_dir :=
    "/nfs/bigbang/pratik18v/cse599/sst/data/train_stride_1_seqlen_128_k_32/";
  Train.val_dir :=
    "/nfs/bigbang/pratik18v/cse599/sst/data/val_stride_1_seqlen_128_k_32/";
  Train.param_dir := "/nfs/bigbang/pratik18v/cse599/sst/data/params/";
  Train.checkpoint :=
    "/nfs/bigbang/pratik18v/cse599/sst/data/params/epoch_5.pth.tar";
  Train.num_proposals := 32;
  Train.seq_length := 128;
  Train.depth := 1;
  Train.width := 256;
  Train.feat_dim := 500;
  Train.batch_size := 64;
  Train.num_epochs := 200;
  Train.tIoU := 1 # 2;
  Train.dropout := 1 # 2;
  Train.verbose := false
|}.

(** ** Notions of the specification *)

Module Spec.

(** *** Labels and class weights *)

(** The two masked assignments of [binarize] on one entry. *)
Definition binarize_entry (tau v : Q) : Q :=
  let v1 := if Qle_bool tau v then 1%Q else v in
  if Np.Qlt_bool v1 tau then 0%Q else v1.

(** The number of timesteps of a sample whose label for anchor [k] is
    [c], the fraction they make of the sequence, and a mean over the
    samples of a training set. *)
Definition count_label (c : Q) (k : nat) (sample : list (list Q)) : Z :=
  Z.of_nat
    (List.length (filter (fun row => Qeq_bool (nth k row 0%Q) c) sample)).

Definition label_fraction (c : Q) (k : nat) (sample : list (list Q)) : Q :=
  (inject_Z (count_label c k sample)
   / inject_Z (Z.of_nat (List.length sample)))%Q.

Definition mean_over_samples (f : list (list Q) -> Q)
    (y : list (list (list Q))) : Q :=
  (fold_right Qplus 0 (map f y) / inject_Z (Z.of_nat (List.length y)))%Q.

(** A training set of one sample with one anchor, positive on 16 of its
    128 timesteps. *)
Definition sixteen_of_128 : list (list (list Q)) :=
  [repeat [1%Q] 16 ++ repeat [0%Q] 112].

(** *** Minibatches *)

(** The elements of [a] at the positions [idx] that lie inside [a]. *)
Definition pick {A} (a : list A) (idx : list nat) : list A :=
  flat_map (fun i => match nth_error a i with
                     | Some x => [x]
                     | None => []
                     end) idx.

(** The order in which the samples are visited. *)
Definition visiting_order (shuffled : list nat -> list nat) (n : nat)
    (shuffle : bool) : list nat :=
  if shuffle then shuffled (Np.arange n) else Np.arange n.

(** Positions [j * b] to [j * b + b] of the visiting order. *)
Definition segment (order : list nat) (b j : nat) : list nat :=
  firstn b (skipn (j * b) order).

(** *** Frames of the training loop *)

Section Frames.

Context {T : Torch}.

(** A statement keeps a relation between the state it starts from and the
    state it ends in, whether it raises or not. *)
Definition keeps {A} (R : Train.state -> Train.state -> Prop) (m : Train.M A)
  : Prop :=
  forall s, R s (snd (m s)).

(** Parameters, gradient buffers and optimizer state are the same. *)
Definition same_learner (s s' : Train.state) : Prop :=
  Train.model_params s' = Train.model_params s
  /\ Train.optimizer s' = Train.optimizer s
  /\ Train.model_grads s' = Train.model_grads s.

(** Every checkpoint on disk at the end was on disk at the start. *)
Definition no_new_checkpoint (s s' : Train.state) : Prop :=
  incl (Train.checkpoints s') (Train.checkpoints s).

End Frames.

(** *** The weighted cross-entropy of the specification

    [L = -(w1 * y * log(p) + w0 * (1 - y) * log(1 - p))], averaged over all
    elements. *)
Definition weighted_cross_entropy (w0 w1 : R) (target prediction : tensor)
  : R :=
  SST.mean
    (SST.zip_with
       (fun y p => (- (w1 * y * ln p + w0 * (1 - y) * ln (1 - p)))%R)
       (data target) (data prediction)).

(** *** The constructor

    The layers of a network below its dense layer: the input layer, the
    recurrent layers with their dropout layers, and the first reshape. *)
Definition below_dense (net : list layer) : list layer :=
  firstn (List.length net - 2) net.

(** *** Inputs of the scenarios *)

(** A tensor of one element, of shape [(1, 1, 1)]. *)
Definition single (v : R) : tensor :=
  {| shape := [1; 1; 1]%nat; data := [v] |}.

(** A model of depth 1, width 1, one proposal and dropout 0.5, in train
    mode with [w0 = 0] and [w1 = 1], as [__init__] builds it on the
    one-parameter network. *)
Definition one_unit : @SST.SSTSequenceEncoder scalar_lasagne := {|
  SST.mode := "train";
  SST.input_var := Some (TensorVariable "input");
  SST.target_var := Some (TensorVariable "target");
  SST.w0 := Some 0%R; SST.w1 := Some 1%R;
  SST.seq_length := None; SST.num_proposals := 1; SST.depth := 1;
  SST.width := 1; SST.input_size := 1; SST.grad_clip := 100%R;
  SST.reset_bias := 5%R; SST.dropout := (1 / 2)%R; SST.verbose := false;
  SST.train_fn := None; SST.test_fn := None;
  SST._network := [InputLayer [None; None; Some 1%Z];
                   GRULayer 1 100%R; DropoutLayer (1 / 2)%R;
                   ReshapeLayer [Infer; Fixed 1];
                   DenseLayer 1 SST.sigmoid;
                   ReshapeLayer [InputDim 0; InputDim 1; Fixed 1]]
|}.

(** The same model without dropout and with both class weights 1. *)
Definition plain_unit : @SST.SSTSequenceEncoder scalar_lasagne := {|
  SST.mode := "train";
  SST.input_var := Some (TensorVariable "input");
  SST.target_var := Some (TensorVariable "target");
  SST.w0 := Some 1%R; SST.w1 := Some 1%R;
  SST.seq_length := None; SST.num_proposals := 1; SST.depth := 1;
  SST.width := 1; SST.input_size := 1; SST.grad_clip := 100%R;
  SST.reset_bias := 5%R; SST.dropout := 0%R; SST.verbose := false;
  SST.train_fn := None; SST.test_fn := None;
  SST._network := [InputLayer [None; None; Some 1%Z];
                   GRULayer 1 100%R;
                   ReshapeLayer [Infer; Fixed 1];
                   DenseLayer 1 SST.sigmoid;
                   ReshapeLayer [InputDim 0; InputDim 1; Fixed 1]]
|}.

(** A run of the one-parameter learner: no shuffling, an empty disk. *)
Definition plain_oracle : @Train.oracle scalar_torch :=
  @Train.Build_oracle scalar_torch (fun _ l => l) (fun _ _ _ => tt).

(** Parameter 1, zero gradient and momentum buffers, evaluation mode,
    nothing on disk and nothing printed. *)
Definition fresh_state : @Train.state scalar_torch :=
  @Train.Build_state scalar_torch 1%Q 0%Q tt false 0%Q [] [] [].

(** One epoch with batches of one sample. *)
Definition one_epoch_args : Train.args := {|
  Train.method_name := "baseline";
  Train.train_dir := Train.train_dir default_args;
  Train.val_dir := Train.val_dir default_args;
  Train.param_dir := Train.param_dir default_args;
  Train.checkpoint := Train.checkpoint default_args;
  Train.num_proposals := 32;
  Train.seq_length := 128;
  Train.depth := 1;
  Train.width := 256;
  Train.feat_dim := 500;
  Train.batch_size := 1;
  Train.num_epochs := 1;
  Train.tIoU := 1 # 2;
  Train.dropout := 1 # 2;
  Train.verbose := false
|}.

End Spec.

Import Spec.

(** ** Further notions and inputs *)

Module Notions.

Local Open Scope string_scope.

Section OfTheLoop.

Context {T : Torch}.

(** The files on disk are the same. *)
Definition same_files (s s' : Train.state) : Prop :=
  Train.files s' = Train.files s.

End OfTheLoop.

(** Two files, the second with two rows of features for one row of
    labels. *)
Definition two_files (fname : string)
  : result (list (list Q) * list (list Q)) :=
  if String.eqb fname "a.mat" then Ok ([[1%Q]], [[1 # 2]])
  else if String.eqb fname "b.mat" then Ok ([[1%Q]; [2%Q]], [[1 # 2]])
  else Raise (ValueError "no such file").

(** The default options with no epoch to run. *)
Definition no_epoch_args : Train.args := {|
  Train.method_name := "baseline";
  Train.train_dir := Train.train_dir default_args;
  Train.val_dir := Train.val_dir default_args;
  Train.param_dir := Train.param_dir default_args;
  Train.checkpoint := Train.checkpoint default_args;
  Train.num_proposals := 32;
  Train.seq_length := 128;
  Train.depth := 1;
  Train.width := 256;
  Train.feat_dim := 500;
  Train.batch_size := 64;
  Train.num_epochs := 0;
  Train.tIoU := 1 # 2;
  Train.dropout := 1 # 2;
  Train.verbose := false
|}.

Definition is_dropout (l : layer) : bool :=
  match l with DropoutLayer _ => true | _ => false end.

Definition is_gru (l : layer) : bool :=
  match l with GRULayer _ _ => true | _ => false end.

(** The configuration of a model: everything but its compiled functions. *)
Definition same_config {L : Lasagne} (m m' : SST.SSTSequenceEncoder) : Prop :=
  SST.mode m' = SST.mode m
  /\ SST.input_var m' = SST.input_var m
  /\ SST.target_var m' = SST.target_var m
  /\ SST.w0 m' = SST.w0 m /\ SST.w1 m' = SST.w1 m
  /\ SST.seq_length m' = SST.seq_length m
  /\ SST.num_proposals m' = SST.num_proposals m
  /\ SST.depth m' = SST.depth m /\ SST.width m' = SST.width m
  /\ SST.input_size m' = SST.input_size m
  /\ SST.grad_clip m' = SST.grad_clip m
  /\ SST.reset_bias m' = SST.reset_bias m
  /\ SST.dropout m' = SST.dropout m /\ SST.verbose m' = SST.verbose m
  /\ SST._network m' = SST._network m.

(** The one-unit model in test mode, without class weights. *)
Definition test_unit : @SST.SSTSequenceEncoder scalar_lasagne := {|
  SST.mode := "test";
  SST.input_var := Some (TensorVariable "input"); SST.target_var := None;
  SST.w0 := None; SST.w1 := None;
  SST.seq_length := None; SST.num_proposals := 1; SST.depth := 1;
  SST.width := 1; SST.input_size := 1; SST.grad_clip := 100%R;
  SST.reset_bias := 5%R; SST.dropout := (1 / 2)%R; SST.verbose := false;
  SST.train_fn := None; SST.test_fn := None;
  SST._network := [InputLayer [None; None; Some 1%Z];
                   GRULayer 1 100%R; DropoutLayer (1 / 2)%R;
                   ReshapeLayer [Infer; Fixed 1];
                   DenseLayer 1 SST.sigmoid;
                   ReshapeLayer [InputDim 0; InputDim 1; Fixed 1]]
|}.

(** A tensor of a given shape that holds as many elements as the shape
    says. *)
Definition well_shaped (t : tensor) (sh : list nat) : Prop :=
  shape t = sh /\ List.length (data t) = fold_right Nat.mul 1%nat sh.

(** The loss of the code on one element. *)
Definition loss_element (c0 c1 y p : R) : R :=
  (- (c1 * y * ln p + (1 - c0 * (1 - y)) * ln (1 - p)))%R.

End Notions.

Import Notions.

(** * Properties of [train.py]: labels and class weights *)


Section Binarize.

Local Open Scope Q_scope.

Lemma Qlt_bool_iff (x y : Q) : Np.Qlt_bool x y = true <-> x < y.
Proof. unfold Np.Qlt_bool, Qlt. apply Z.ltb_lt. Qed.

Lemma binarize_map (tau : Q) (y : list (list (list Q))) :
  Train.binarize tau y = map (map (map (binarize_entry tau))) y.
Proof.
  unfold Train.binarize, Np.assign_where.
  rewrite map_map. apply map_ext; intros sample.
  rewrite map_map. apply map_ext; intros row.
  rewrite map_map. apply map_ext; intros v. reflexivity.
Qed.

Lemma binarize_entry_spec (tau v : Q) :
  v <= 1 -> binarize_entry tau v = if Qlt_le_dec v tau then 0 else 1.
Proof.
  intros Hv. unfold binarize_entry.
  destruct (Qlt_le_dec v tau) as [Hlt | Hle].
  - destruct (Qle_bool tau v) eqn:E.
    + apply Qle_bool_iff in E. exfalso. apply (Qlt_not_le _ _ Hlt E).
    + apply Qlt_bool_iff in Hlt. rewrite Hlt. reflexivity.
  - assert (E : Qle_bool tau v = true) by (apply Qle_bool_iff; exact Hle).
    rewrite E.
    destruct (Np.Qlt_bool 1 tau) eqn:F; [ | reflexivity ].
    apply Qlt_bool_iff in F. exfalso.
    apply (Qlt_not_le _ _ F). apply Qle_trans with v; assumption.
Qed.

(** C6.  Binarization of a ground-truth matrix of raw tIoU scores (scores
    of at most 1) at a threshold [tau] gives, entry by entry, the label 1
    when the score is at least [tau] and the label 0 when it is below. *)
Theorem binarize_threshold (tau : Q) (y : list (list (list Q)))
    (Hy : Forall (Forall (Forall (fun v => v <= 1))) y) :
  Train.binarize tau y
  = map (map (map (fun v => if Qlt_le_dec v tau then 0 else 1))) y.
Proof.
  rewrite binarize_map.
  induction Hy as [ | sample y' Hs _ IH ]; [ reflexivity | ].
  cbn [map]. f_equal; [ | exact IH ].
  clear IH. induction Hs as [ | row s' Hr _ IH ]; [ reflexivity | ].
  cbn [map]. f_equal; [ | exact IH ].
  clear IH. induction Hr as [ | v r' Hv _ IH ]; [ reflexivity | ].
  cbn [map]. f_equal; [ | exact IH ].
  apply binarize_entry_spec, Hv.
Qed.

(** The scenario of the specification: threshold 0.5 on [0.3, 0.5, 0.7]. *)
Lemma binarize_threshold_scenario :
  Forall (Forall (Forall (fun v => v <= 1))) [[[3#10; 1#2; 7#10]]]
  /\ Train.binarize (1#2) [[[3#10; 1#2; 7#10]]] = [[[0; 1; 1]]].
Proof.
  assert (H : Forall (Forall (Forall (fun v => v <= 1))) [[[3#10; 1#2; 7#10]]]).
  { repeat constructor; unfold Qle; simpl; lia. }
  split; [ exact H | ].
  rewrite (binarize_threshold (1#2) H). reflexivity.
Defined.

(** Outside the range of tIoU scores the second assignment overwrites the
    first: with a threshold above 1 every label is 0. *)
Lemma binarize_above_one : Train.binarize (3#2) [[[2#1]]] = [[[0]]].
Proof. reflexivity. Qed.

End Binarize.

Section ClassWeights.

Local Open Scope Q_scope.

Lemma nth_map_seq {A} (f : nat -> A) (K k : nat) (d : A) :
  (k < K)%nat -> nth k (map f (seq 0 K)) d = f k.
Proof.
  intros Hk. rewrite (nth_indep _ d (f 0%nat)) by (rewrite length_map, length_seq; exact Hk).
  rewrite map_nth. rewrite seq_nth by exact Hk. reflexivity.
Qed.

Lemma count_sum (c : Q) (k : nat) (sample : list (list Q)) :
  fold_right Z.add 0%Z
    (map (fun row => if Qeq_bool (nth k row 0) c then 1%Z else 0%Z) sample)
  = count_label c k sample.
Proof.
  unfold count_label.
  induction sample as [ | row sample IH ]; [ reflexivity | ].
  cbn [map fold_right filter]. rewrite IH.
  destruct (Qeq_bool (nth k row 0) c); cbn [List.length]; lia.
Qed.

(** Entry [k] of the array of line 121 or 122. *)
Lemma class_weight_nth (K k : nat) (c : Q) (seq_len : Z)
    (y : list (list (list Q))) :
  (k < K)%nat ->
  nth k (Np.mean_axis0 K (Train.fraction_axis1 K c seq_len y)) 0
  = mean_over_samples
      (fun sample => inject_Z (count_label c k sample) / inject_Z seq_len) y.
Proof.
  intros Hk. unfold Np.mean_axis0, mean_over_samples.
  rewrite nth_map_seq by exact Hk.
  unfold Train.fraction_axis1, Np.count_eq_axis1.
  rewrite !length_map, !map_map. f_equal. f_equal.
  apply map_ext; intros sample.
  rewrite map_map, nth_map_seq by exact Hk.
  rewrite count_sum. reflexivity.
Qed.

Lemma mean_over_samples_ext (f g : list (list Q) -> Q) (y : list (list (list Q))) :
  Forall (fun sample => f sample = g sample) y ->
  mean_over_samples f y = mean_over_samples g y.
Proof.
  intros H. unfold mean_over_samples. f_equal. f_equal.
  induction H as [ | s y' Hs _ IH ]; [ reflexivity | ].
  cbn [map]. rewrite Hs, IH. reflexivity.
Qed.

Lemma sum_constant (f : list (list Q) -> Q) (c : Q) (y : list (list (list Q))) :
  Forall (fun sample => f sample == c) y ->
  fold_right Qplus 0 (map f y) == inject_Z (Z.of_nat (List.length y)) * c.
Proof.
  induction 1 as [ | s y' Hs _ IH ].
  - cbn. ring.
  - cbn [map fold_right List.length]. rewrite IH, Hs.
    rewrite Nat2Z.inj_succ, <- Z.add_1_r, inject_Z_plus. ring.
Qed.

Lemma mean_constant (f : list (list Q) -> Q) (c : Q) (y : list (list (list Q))) :
  y <> [] ->
  Forall (fun sample => f sample == c) y ->
  mean_over_samples f y == c.
Proof.
  intros Hne H. unfold mean_over_samples. rewrite sum_constant by exact H.
  field. intros E.
  assert (Z.of_nat (List.length y) = 0%Z) as E0.
  { change 0 with (inject_Z 0) in E. apply (proj1 (inject_Z_injective _ _)) in E. exact E. }
  destruct y; [ congruence | cbn in E0; lia ].
Qed.

(** Among binary labels, the timesteps that are not positive are
    negative. *)
Lemma count_binary (k : nat) (sample : list (list Q)) :
  Forall (fun row => nth k row 0 == 0 \/ nth k row 0 == 1) sample ->
  (count_label 0 k sample + count_label 1 k sample
   = Z.of_nat (List.length sample))%Z.
Proof.
  unfold count_label.
  induction 1 as [ | row s' Hr _ IH ]; [ reflexivity | ].
  cbn [filter List.length].
  destruct Hr as [Hr | Hr].
  - assert (E0 : Qeq_bool (nth k row 0) 0 = true) by (apply Qeq_bool_iff; exact Hr).
    assert (E1 : Qeq_bool (nth k row 0) 1 = false).
    { destruct (Qeq_bool (nth k row 0) 1) eqn:E; [ | reflexivity ].
      apply Qeq_bool_iff in E. rewrite Hr in E. discriminate E. }
    rewrite E0, E1. cbn [List.length]. lia.
  - assert (E1 : Qeq_bool (nth k row 0) 1 = true) by (apply Qeq_bool_iff; exact Hr).
    assert (E0 : Qeq_bool (nth k row 0) 0 = false).
    { destruct (Qeq_bool (nth k row 0) 0) eqn:E; [ | reflexivity ].
      apply Qeq_bool_iff in E. rewrite Hr in E. discriminate E. }
    rewrite E0, E1. cbn [List.length]. lia.
Qed.

(** C2, as the code has it.  For a non-empty training set of binarized
    labels whose sequences all have [seq_length] timesteps, [w0] is, for
    every anchor, the mean over the samples of the fraction of positive
    labels of the sequence, and [w1] the mean fraction of negative labels;
    when every sample has exactly 16 of 128 timesteps positive for an
    anchor, [w0] is 0.125 and [w1] is 0.875 for that anchor. *)
Theorem class_weights_positive_negative (K T k : nat)
    (y : list (list (list Q)))
    (Hk : (k < K)%nat) (Hne : y <> [])
    (HT : Forall (fun sample => List.length sample = T) y) :
  let w0 := Train.class_weight_w0 K (Z.of_nat T) y in
  let w1 := Train.class_weight_w1 K (Z.of_nat T) y in
  nth k w0 0 == mean_over_samples (label_fraction 1 k) y
  /\ nth k w1 0 == mean_over_samples (label_fraction 0 k) y
  /\ (T = 128%nat ->
      Forall (fun sample =>
                count_label 1 k sample = 16%Z
                /\ Forall (fun row => nth k row 0 == 0 \/ nth k row 0 == 1)
                          sample) y ->
      nth k w0 0 == 1 # 8 /\ nth k w1 0 == 7 # 8).
Proof.
  intros w0 w1. subst w0 w1.
  unfold Train.class_weight_w0, Train.class_weight_w1.
  rewrite !class_weight_nth by exact Hk.
  assert (Hfrac : forall c,
    mean_over_samples
      (fun sample => inject_Z (count_label c k sample) / inject_Z (Z.of_nat T)) y
    = mean_over_samples (label_fraction c k) y).
  { intros c. apply mean_over_samples_ext.
    eapply Forall_impl; [ | exact HT ].
    intros sample Hl. unfold label_fraction. rewrite Hl. reflexivity. }
  rewrite !Hfrac.
  split; [ reflexivity | split; [ reflexivity | ] ].
  intros HT128 Hscen. subst T. split.
  - apply mean_constant; [ exact Hne | ].
    rewrite Forall_forall in *. intros sample Hin.
    destruct (Hscen _ Hin) as [H16 _].
    unfold label_fraction. rewrite H16, (HT _ Hin). reflexivity.
  - apply mean_constant; [ exact Hne | ].
    rewrite Forall_forall in *. intros sample Hin.
    destruct (Hscen _ Hin) as [H16 Hbin].
    pose proof (@count_binary k sample Hbin) as Hc.
    rewrite H16, (HT _ Hin) in Hc.
    assert (H112 : count_label 0 k sample = 112%Z) by lia.
    unfold label_fraction. rewrite H112, (HT _ Hin). reflexivity.
Qed.

Lemma class_weights_positive_negative_witness :
  (0 < 1)%nat /\ sixteen_of_128 <> []
  /\ Forall (fun sample => List.length sample = 128%nat) sixteen_of_128
  /\ nth 0 (Train.class_weight_w0 1 128 sixteen_of_128) 0 == 1 # 8
  /\ nth 0 (Train.class_weight_w1 1 128 sixteen_of_128) 0 == 7 # 8.
Proof.
  assert (Hk : (0 < 1)%nat) by lia.
  assert (Hne : sixteen_of_128 <> []) by discriminate.
  assert (HT : Forall (fun sample => List.length sample = 128%nat) sixteen_of_128).
  { constructor; [ reflexivity | constructor ]. }
  split; [ exact Hk | split; [ exact Hne | split; [ exact HT | ] ] ].
  destruct (class_weights_positive_negative (K:=1) Hk Hne HT) as (_ & _ & H).
  apply H; [ reflexivity | ].
  constructor; [ | constructor ].
  split; [ reflexivity | ].
  unfold sixteen_of_128.
  apply Forall_app; split; apply Forall_forall; intros row Hin;
    apply repeat_spec in Hin; subst row; cbn; [ right | left ]; reflexivity.
Defined.

(** C2 as stated fails: on that training set [w1] is not 0.125 and [w0]
    is not 0.875. *)
Lemma class_weights_swapped_counterexample :
  ~ (nth 0 (Train.class_weight_w1 1 128 sixteen_of_128) 0 == 1 # 8
     /\ nth 0 (Train.class_weight_w0 1 128 sixteen_of_128) 0 == 7 # 8).
Proof.
  intros [H _]. vm_compute in H. discriminate H.
Qed.

End ClassWeights.

(** * Properties of [train.py]: minibatches *)

Section Minibatches.

Variables X Y : Type.

Lemma take_pick {A} (a : list A) (idx : list nat) :
  Forall (fun i => (i < List.length a)%nat) idx ->
  Np.take a idx = Ok (pick a idx)
  /\ map Some (pick a idx) = map (nth_error a) idx.
Proof.
  unfold Np.take.
  induction 1 as [ | i idx' Hi _ [IH1 IH2] ]; [ split; reflexivity | ].
  cbn [map_result pick flat_map map].
  destruct (nth_error a i) as [x | ] eqn:E.
  - cbn [bind]. rewrite IH1. cbn [bind app map]. split; [ reflexivity | ].
    f_equal. exact IH2.
  - apply nth_error_None in E. lia.
Qed.

Lemma pick_cons_S {A} (x : A) (a : list A) (idx : list nat) :
  pick (x :: a) (map S idx) = pick a idx.
Proof.
  unfold pick. induction idx as [ | i idx IH ]; [ reflexivity | ].
  cbn [map flat_map nth_error]. rewrite IH. reflexivity.
Qed.

Lemma pick_seq {A} (a : list A) (lo len : nat) :
  (lo + len <= List.length a)%nat ->
  pick a (seq lo len) = firstn len (skipn lo a).
Proof.
  revert lo len. induction a as [ | x a IH ]; intros lo len Hle.
  - cbn [List.length] in Hle.
    assert (lo = 0%nat) by lia. assert (len = 0%nat) by lia. subst. reflexivity.
  - cbn [List.length] in Hle. destruct lo as [ | lo ].
    + destruct len as [ | len ]; [ reflexivity | ].
      cbn [seq]. rewrite <- seq_shift.
      change (pick (x :: a) (0%nat :: map S (seq 0 len)))
        with (x :: pick (x :: a) (map S (seq 0 len))).
      rewrite pick_cons_S, IH by lia. reflexivity.
    + rewrite <- seq_shift, pick_cons_S, IH by lia. reflexivity.
Qed.

Lemma firstn_skipn_seq (lo len n : nat) :
  (lo + len <= n)%nat -> firstn len (skipn lo (seq 0 n)) = seq lo len.
Proof.
  intros Hle.
  replace n with (lo + (n - lo))%nat by lia.
  rewrite seq_app, skipn_app, length_seq, Nat.sub_diag.
  rewrite skipn_all2 by (rewrite length_seq; lia).
  cbn [skipn app].
  replace (n - lo)%nat with (len + (n - lo - len))%nat by lia.
  rewrite seq_app, firstn_app, length_seq, Nat.sub_diag.
  rewrite firstn_all2 by (rewrite length_seq; lia).
  cbn [firstn]. rewrite app_nil_r. reflexivity.
Qed.

Lemma in_firstn {A} (x : A) (n : nat) (l : list A) :
  In x (firstn n l) -> In x l.
Proof.
  intros H. rewrite <- (firstn_skipn n l). apply in_or_app. left. exact H.
Qed.

Lemma in_skipn {A} (x : A) (n : nat) (l : list A) :
  In x (skipn n l) -> In x l.
Proof.
  intros H. rewrite <- (firstn_skipn n l). apply in_or_app. right. exact H.
Qed.

Lemma firstn_add {A} (n m : nat) (l : list A) :
  firstn (n + m) l = firstn n l ++ firstn m (skipn n l).
Proof.
  revert l. induction n as [ | n IH ]; intros l; [ reflexivity | ].
  destruct l as [ | x l ]; cbn [Nat.add firstn skipn app].
  - rewrite firstn_nil. reflexivity.
  - rewrite IH. reflexivity.
Qed.

(** Consecutive segments of length [b] make up a prefix. *)
Lemma concat_segments {A} (b m : nat) (l : list A) :
  List.concat (map (fun j => firstn b (skipn (j * b) l)) (seq 0 m))
  = firstn (m * b) l.
Proof.
  induction m as [ | m IH ]; [ reflexivity | ].
  rewrite seq_S, map_app, concat_app, IH. cbn [map List.concat Nat.add].
  rewrite app_nil_r.
  replace (S m * b)%nat with (m * b + b)%nat by lia.
  rewrite firstn_add. reflexivity.
Qed.

Lemma range_len_batches (n B : Z) :
  (0 <= n)%Z -> (0 < B)%Z -> range_len 0 (n - B + 1) B = (n / B)%Z.
Proof.
  intros Hn HB. unfold range_len.
  destruct (Z.ltb_spec 0 B) as [ _ | ]; [ | lia ].
  destruct (Z.ltb_spec 0 (n - B + 1)) as [Hge | Hlt].
  - replace (n - B + 1 - 0 - 1)%Z with (n + (-1) * B)%Z by lia.
    rewrite Z.div_add by lia. lia.
  - symmetry. apply Z.div_small. lia.
Qed.

Lemma slice_segment {A} (l : list A) (j b : nat) :
  (j * b + b <= List.length l)%nat ->
  slice l (0 + Z.of_nat j * Z.of_nat b)
          (0 + Z.of_nat j * Z.of_nat b + Z.of_nat b)
  = firstn b (skipn (j * b) l).
Proof.
  intros Hle. unfold slice, slice_bound.
  destruct (Z.ltb_spec (0 + Z.of_nat j * Z.of_nat b) 0) as [ | _ ]; [ lia | ].
  destruct (Z.ltb_spec (0 + Z.of_nat j * Z.of_nat b + Z.of_nat b) 0) as [ | _ ]; [ lia | ].
  rewrite !Z.min_l by lia.
  f_equal; [ lia | f_equal; lia ].
Qed.

(** What the generator yields, in closed form. *)
Lemma iterate_minibatches_yields (shuffled : list nat -> list nat)
    (inputs : list X) (targets : list Y) (B : Z) (shuffle : bool) :
  let n := List.length inputs in
  let order := visiting_order shuffled n shuffle in
  (0 < B)%Z ->
  List.length targets = n ->
  Permutation (shuffled (Np.arange n)) (Np.arange n) ->
  Train.iterate_minibatches shuffled inputs targets B shuffle
  = Ok (map (fun j => Ok (pick inputs (segment order (Z.to_nat B) j),
                          pick targets (segment order (Z.to_nat B) j)))
            (seq 0 (Z.to_nat (Z.of_nat n / B)))).
Proof.
  intros n order HB Hlen Hperm.
  unfold Train.iterate_minibatches.
  fold n. rewrite Hlen, Nat.eqb_refl. cbn [assert bind].
  unfold range. destruct (Z.eqb_spec B 0) as [ | _ ]; [ lia | ].
  cbn [bind]. f_equal.
  rewrite range_len_batches by lia.
  rewrite map_map. apply map_ext_in. intros j Hj.
  apply in_seq in Hj.
  set (b := Z.to_nat B).
  assert (Eb : B = Z.of_nat b) by (subst b; lia).
  assert (Hq : (Z.of_nat j * B + B <= Z.of_nat n)%Z).
  { pose proof (Z.mul_div_le (Z.of_nat n) B HB). nia. }
  assert (Hseg : (j * b + b <= n)%nat) by nia.
  rewrite Eb.
  destruct shuffle; cbn [visiting_order] in order; subst order.
  - assert (Hl : List.length (shuffled (Np.arange n)) = n).
    { rewrite (Permutation_length Hperm). apply length_seq. }
    rewrite slice_segment by (rewrite Hl; exact Hseg).
    fold (segment (shuffled (Np.arange n)) b j).
    assert (Hall : Forall (fun i => (i < n)%nat)
                          (segment (shuffled (Np.arange n)) b j)).
    { apply Forall_forall. intros i Hi.
      unfold segment in Hi. apply in_firstn, in_skipn in Hi.
      apply (Permutation_in _ Hperm) in Hi. apply in_seq in Hi. lia. }
    destruct (@take_pick X inputs _ Hall) as [E1 _].
    destruct (@take_pick Y targets (segment (shuffled (Np.arange n)) b j)) as [E2 _].
    { rewrite Hlen. exact Hall. }
    rewrite E1. cbn [bind]. rewrite E2. reflexivity.
  - rewrite !slice_segment by lia.
    unfold segment, Np.arange. rewrite firstn_skipn_seq by exact Hseg.
    rewrite !pick_seq by lia. reflexivity.
Qed.

Lemma visiting_order_perm (shuffled : list nat -> list nat) (n : nat)
    (shuffle : bool) :
  Permutation (shuffled (Np.arange n)) (Np.arange n) ->
  Permutation (visiting_order shuffled n shuffle) (Np.arange n).
Proof.
  intros H. destruct shuffle; [ exact H | apply Permutation_refl ].
Qed.

Lemma segment_in_range (order : list nat) (n b j : nat) :
  Permutation order (Np.arange n) ->
  Forall (fun i => (i < n)%nat) (segment order b j).
Proof.
  intros Hperm. apply Forall_forall. intros i Hi.
  unfold segment in Hi. apply in_firstn, in_skipn in Hi.
  apply (Permutation_in _ Hperm) in Hi. apply in_seq in Hi. lia.
Qed.

Lemma segment_length (order : list nat) (b j : nat) :
  (j * b + b <= List.length order)%nat ->
  List.length (segment order b j) = b.
Proof.
  intros H. unfold segment. rewrite length_firstn, length_skipn. lia.
Qed.

Lemma concat_map_segments {A} (g : nat -> option A) (order : list nat)
    (b m : nat) :
  List.concat (map (fun j => map g (segment order b j)) (seq 0 m))
  = map g (firstn (m * b) order).
Proof.
  rewrite <- concat_segments, concat_map, map_map. reflexivity.
Qed.

(** C7.  For a positive batch size [B] and [n] samples, the minibatch
    iterator yields exactly [floor(n / B)] batches, each of exactly [B]
    samples; the batches are, in order, the first [B * floor(n / B)]
    samples of the visiting order (shuffled or not), and the [n mod B]
    samples that remain are in no batch. *)
Theorem iterate_minibatches_full_batches (shuffled : list nat -> list nat)
    (inputs : list X) (targets : list Y) (B : Z) (shuffle : bool)
    (HB : (0 < B)%Z)
    (Hlen : List.length targets = List.length inputs)
    (Hperm : Permutation (shuffled (Np.arange (List.length inputs)))
                         (Np.arange (List.length inputs))) :
  let n := List.length inputs in
  let order := visiting_order shuffled n shuffle in
  let kept := (Z.to_nat (Z.of_nat n / B) * Z.to_nat B)%nat in
  exists batches : list (list X * list Y),
    Train.iterate_minibatches shuffled inputs targets B shuffle
    = Ok (map Ok batches)
    /\ Z.of_nat (List.length batches) = (Z.of_nat n / B)%Z
    /\ Forall (fun b => Z.of_nat (List.length (fst b)) = B
                        /\ Z.of_nat (List.length (snd b)) = B) batches
    /\ map Some (List.concat (map fst batches))
       = map (nth_error inputs) (firstn kept order)
    /\ map Some (List.concat (map snd batches))
       = map (nth_error targets) (firstn kept order)
    /\ Z.of_nat (List.length (skipn kept order)) = (Z.of_nat n mod B)%Z.
Proof.
  intros n order kept. subst kept.
  set (b := Z.to_nat B). set (m := Z.to_nat (Z.of_nat n / B)).
  assert (Hm : (0 <= Z.of_nat n / B)%Z) by (apply Z.div_pos; lia).
  assert (Hmb : (m * b <= n)%nat).
  { pose proof (Z.mul_div_le (Z.of_nat n) B HB). subst m b. nia. }
  pose proof (@visiting_order_perm shuffled n shuffle Hperm) as Hord. fold n order in Hord.
  assert (Hol : List.length order = n).
  { rewrite (Permutation_length Hord). apply length_seq. }
  exists (map (fun j => (pick inputs (segment order b j),
                         pick targets (segment order b j))) (seq 0 m)).
  split; [ | split; [ | split; [ | split; [ | split ] ] ] ].
  - rewrite map_map. apply iterate_minibatches_yields; assumption.
  - rewrite length_map, length_seq. subst m. lia.
  - apply Forall_forall. intros bt Hin. apply in_map_iff in Hin.
    destruct Hin as (j & <- & Hj). apply in_seq in Hj. cbn [fst snd].
    pose proof (@segment_in_range order n b j Hord) as Hall.
    assert (Hseg : List.length (segment order b j) = b).
    { apply segment_length. rewrite Hol. nia. }
    destruct (@take_pick X inputs _ Hall) as [_ E1].
    destruct (@take_pick Y targets (segment order b j)) as [_ E2].
    { rewrite Hlen. exact Hall. }
    apply (f_equal (@List.length _)) in E1, E2.
    rewrite !length_map in E1, E2. rewrite E1, E2, Hseg. subst b. lia.
  - rewrite concat_map, !map_map. cbn [fst].
    rewrite <- concat_map_segments. f_equal.
    apply map_ext. intros j.
    apply take_pick. eapply segment_in_range. exact Hord.
  - rewrite concat_map, !map_map. cbn [snd].
    rewrite <- concat_map_segments. f_equal.
    apply map_ext. intros j.
    apply take_pick. rewrite Hlen. eapply segment_in_range. exact Hord.
  - rewrite length_skipn, Hol.
    rewrite (Z.mod_eq (Z.of_nat n) B) by lia. subst m b. nia.
Qed.

End Minibatches.

(** The scenario of the specification: 64 samples give one batch of 64
    with batch size 64, and one batch of 50 with batch size 50, the 14
    samples left over being dropped. *)
Lemma iterate_minibatches_64_samples :
  forall shuffle,
    (exists b, Train.iterate_minibatches (@rev nat) (seq 0 64) (seq 0 64) 64 shuffle
               = Ok [Ok b] /\ List.length (fst b) = 64%nat)
    /\ (exists b, Train.iterate_minibatches (@rev nat) (seq 0 64) (seq 0 64) 50 shuffle
                  = Ok [Ok b] /\ List.length (fst b) = 50%nat
                  /\ (64 - List.length (fst b) = 14)%nat).
Proof.
  intros [ | ]; split; eexists; (split; [ vm_compute; reflexivity | ]);
    try split; reflexivity.
Qed.

Lemma iterate_minibatches_full_batches_witness :
  (0 < 50)%Z
  /\ List.length (seq 100 64) = List.length (seq 0 64)
  /\ Permutation (rev (Np.arange 64)) (Np.arange 64)
  /\ exists batches : list (list nat * list nat),
       Train.iterate_minibatches (@rev nat) (seq 0 64) (seq 100 64) 50 true
       = Ok (map Ok batches)
       /\ Z.of_nat (List.length batches) = 1%Z
       /\ Forall (fun b => Z.of_nat (List.length (fst b)) = 50%Z
                           /\ Z.of_nat (List.length (snd b)) = 50%Z) batches
       /\ Z.of_nat (List.length
            (skipn 50 (visiting_order (@rev nat) 64 true))) = 14%Z.
Proof.
  assert (HB : (0 < 50)%Z) by lia.
  assert (Hlen : List.length (seq 100 64) = List.length (seq 0 64)) by reflexivity.
  assert (Hperm : Permutation (rev (Np.arange (List.length (seq 0 64))))
                              (Np.arange (List.length (seq 0 64)))).
  { apply Permutation_sym, Permutation_rev. }
  split; [ exact HB | split; [ exact Hlen | split; [ exact Hperm | ] ] ].
  destruct (iterate_minibatches_full_batches (@rev nat) (seq 0 64) (seq 100 64) true
              HB Hlen Hperm) as (batches & H1 & H2 & H3 & _ & _ & H6).
  exists batches.
  split; [ exact H1 | split; [ exact H2 | split; [ exact H3 | exact H6 ] ] ].
Defined.

(** * Properties of [train.py]: the training loop *)

Section LoopFrames.

Context {T : Torch}.

Section Frame.

Variable R : Train.state -> Train.state -> Prop.
Hypothesis R_refl : forall s, R s s.
Hypothesis R_trans : forall s1 s2 s3, R s1 s2 -> R s2 s3 -> R s1 s3.

Lemma keeps_ret {A} (x : A) : keeps R (Train.ret x).
Proof. intros s. apply R_refl. Qed.

Lemma keeps_lift {A} (r : result A) : keeps R (Train.lift r).
Proof. intros s. apply R_refl. Qed.

Lemma keeps_get {A} (f : Train.state -> A) : keeps R (Train.get f).
Proof. intros s. apply R_refl. Qed.

Lemma keeps_bind {A B} (m : Train.M A) (k : A -> Train.M B) :
  keeps R m -> (forall x, keeps R (k x)) -> keeps R (Train.mbind m k).
Proof.
  intros Hm Hk s. unfold Train.mbind.
  specialize (Hm s). destruct (m s) as [[x | e] s1]; cbn [snd] in *.
  - eapply R_trans; [ exact Hm | apply Hk ].
  - exact Hm.
Qed.

Lemma keeps_for_loop {A S} (xs : list A) (body : S -> A -> Train.M S) :
  (forall acc x, keeps R (body acc x)) ->
  forall acc, keeps R (Train.for_loop xs body acc).
Proof.
  intros Hbody. induction xs as [ | x xs IH ]; intros acc.
  - apply keeps_ret.
  - cbn [Train.for_loop]. apply keeps_bind; [ apply Hbody | exact IH ].
Qed.

Lemma keeps_bind_raise {A B} (e : exn) (k : A -> Train.M B) :
  keeps R (Train.mbind (Train.lift (Raise e)) k).
Proof. intros s. apply R_refl. Qed.

Lemma keeps_modify (f : Train.state -> Train.state) :
  (forall s, R s (f s)) -> keeps R (Train.modify f).
Proof. intros H s. apply H. Qed.

End Frame.

Lemma same_learner_refl s : same_learner s s.
Proof. repeat split. Qed.

Lemma same_learner_trans s1 s2 s3 :
  same_learner s1 s2 -> same_learner s2 s3 -> same_learner s1 s3.
Proof.
  intros (A1 & A2 & A3) (B1 & B2 & B3).
  repeat split; congruence.
Qed.

Lemma no_new_checkpoint_refl s : no_new_checkpoint s s.
Proof. apply incl_refl. Qed.

Lemma no_new_checkpoint_trans s1 s2 s3 :
  no_new_checkpoint s1 s2 -> no_new_checkpoint s2 s3 -> no_new_checkpoint s1 s3.
Proof. intros H12 H23. eapply incl_tran; eassumption. Qed.

Lemma checkpoints_filter (p : string * Train.file -> bool) (fs : list (string * Train.file)) :
  incl
    (flat_map (fun f => match snd f with
                        | Train.Saved c => [(fst f, c)]
                        | Train.EmptyFile => []
                        end) (filter p fs))
    (flat_map (fun f => match snd f with
                        | Train.Saved c => [(fst f, c)]
                        | Train.EmptyFile => []
                        end) fs).
Proof.
  intros x Hx. apply in_flat_map in Hx. destruct Hx as (f & Hf & Hin).
  apply filter_In in Hf. apply in_flat_map. exists f. tauto.
Qed.

Variable a : Train.args.
Variable rnd : Train.oracle.
Variables X_train y_train : list (list (list Q)).
Variables w0 w1 : list Q.

Lemma keeps_same_set_training b : keeps same_learner (Train.set_training b).
Proof. intros s. repeat split. Qed.

Lemma keeps_same_set_hidden h : keeps same_learner (Train.set_hidden h).
Proof. intros s. repeat split. Qed.

Lemma keeps_same_print l : keeps same_learner (Train.print l).
Proof. intros s. repeat split. Qed.

Create HintDb frame.
#[local] Hint Resolve keeps_same_set_training keeps_same_set_hidden keeps_same_print
  : frame.

(** Walks through a statement, one bind at a time. *)
Ltac frame :=
  repeat first
    [ assumption
    | match goal with
      | |- forall _, _ => intro
      | |- keeps _ (let '(_, _) := ?p in _) => destruct p
      | |- keeps _ (if ?b then _ else _) => destruct b
      end
    | apply keeps_bind_raise
    | apply keeps_bind
    | apply keeps_for_loop
    | apply keeps_ret
    | apply keeps_lift
    | apply keeps_get
    | solve [ auto with frame ] ].

Lemma keeps_same_eval_batch i acc nb :
  keeps same_learner (Train.eval_batch rnd w0 w1 i acc nb).
Proof.
  pose proof same_learner_refl. pose proof same_learner_trans.
  unfold Train.eval_batch. frame.
Qed.

(** C8.  The evaluation pass of an epoch applies no gradient update: the
    model parameters, the optimizer state and the gradient buffers after
    the whole pass are those before it, whatever the data, the batch size
    and the outcome of the pass. *)
Theorem eval_pass_no_update (i : Z) (s : Train.state) :
  let s' := snd (Train.eval_pass a rnd X_train y_train w0 w1 i s) in
  Train.model_params s' = Train.model_params s
  /\ Train.optimizer s' = Train.optimizer s
  /\ Train.model_grads s' = Train.model_grads s.
Proof.
  pose proof same_learner_refl. pose proof same_learner_trans.
  pose proof keeps_same_eval_batch.
  revert s.
  change (keeps same_learner (Train.eval_pass a rnd X_train y_train w0 w1 i)).
  unfold Train.eval_pass. frame.
Qed.


(** *** No checkpoint is ever written *)

Lemma keeps_ckpt_set_training b : keeps no_new_checkpoint (Train.set_training b).
Proof. intros s. apply incl_refl. Qed.

Lemma keeps_ckpt_set_hidden h : keeps no_new_checkpoint (Train.set_hidden h).
Proof. intros s. apply incl_refl. Qed.

Lemma keeps_ckpt_set_grads g : keeps no_new_checkpoint (Train.set_grads g).
Proof. intros s. apply incl_refl. Qed.

Lemma keeps_ckpt_set_params_optimizer po :
  keeps no_new_checkpoint (Train.set_params_optimizer po).
Proof. intros s. apply incl_refl. Qed.

Lemma keeps_ckpt_print l : keeps no_new_checkpoint (Train.print l).
Proof. intros s. apply incl_refl. Qed.

Lemma keeps_ckpt_mkdir p : keeps no_new_checkpoint (Train.mkdir p).
Proof. intros s. apply incl_refl. Qed.

Lemma keeps_ckpt_path_exists p : keeps no_new_checkpoint (Train.path_exists p).
Proof. intros s. apply incl_refl. Qed.

Lemma keeps_ckpt_open p : keeps no_new_checkpoint (Train.write_file p Train.EmptyFile).
Proof.
  intros s. unfold no_new_checkpoint, Train.checkpoints, Train.write_file,
    Train.modify. cbn [snd Train.files flat_map app].
  apply checkpoints_filter.
Qed.

#[local] Hint Resolve keeps_ckpt_set_training keeps_ckpt_set_hidden keeps_ckpt_set_grads
  keeps_ckpt_set_params_optimizer keeps_ckpt_print keeps_ckpt_mkdir
  keeps_ckpt_path_exists keeps_ckpt_open : frame.

(** No assignment binds [save_dir]. *)
Lemma load_save_dir (ckpt_dir : string) :
  Train.load_name [("ckpt_dir"%string, ckpt_dir)] "save_dir"
  = Raise (NameError "save_dir").
Proof. reflexivity. Qed.

Lemma keeps_ckpt_save_checkpoint i tl tb vl vb :
  keeps no_new_checkpoint (Train.save_checkpoint a i tl tb vl vb).
Proof.
  pose proof no_new_checkpoint_refl. pose proof no_new_checkpoint_trans.
  unfold Train.save_checkpoint. rewrite load_save_dir. frame.
Qed.

Lemma keeps_ckpt_train_batch i acc nb :
  keeps no_new_checkpoint (Train.train_batch rnd w0 w1 i acc nb).
Proof.
  pose proof no_new_checkpoint_refl. pose proof no_new_checkpoint_trans.
  unfold Train.train_batch. frame.
Qed.

Lemma keeps_ckpt_eval_batch i acc nb :
  keeps no_new_checkpoint (Train.eval_batch rnd w0 w1 i acc nb).
Proof.
  pose proof no_new_checkpoint_refl. pose proof no_new_checkpoint_trans.
  unfold Train.eval_batch. frame.
Qed.

Lemma keeps_ckpt_epoch u i :
  keeps no_new_checkpoint (Train.epoch a rnd X_train y_train w0 w1 u i).
Proof.
  pose proof no_new_checkpoint_refl. pose proof no_new_checkpoint_trans.
  pose proof keeps_ckpt_train_batch. pose proof keeps_ckpt_eval_batch.
  pose proof keeps_ckpt_save_checkpoint.
  unfold Train.epoch, Train.train_pass, Train.eval_pass. frame.
Qed.

Lemma keeps_ckpt_training_loop :
  keeps no_new_checkpoint (Train.training_loop a rnd X_train y_train w0 w1).
Proof.
  pose proof no_new_checkpoint_refl. pose proof no_new_checkpoint_trans.
  pose proof keeps_ckpt_epoch.
  unfold Train.training_loop. frame.
Qed.


(** *** Running the loop *)

Lemma mbind_ok {A B} (m : Train.M A) (k : A -> Train.M B) s x s1 :
  m s = (Ok x, s1) -> Train.mbind m k s = k x s1.
Proof. intros E. unfold Train.mbind. rewrite E. reflexivity. Qed.

Lemma mbind_raise {A B} (m : Train.M A) (k : A -> Train.M B) s e s1 :
  m s = (Raise e, s1) -> Train.mbind m k s = (Raise e, s1).
Proof. intros E. unfold Train.mbind. rewrite E. reflexivity. Qed.

(** [range(num_epochs)] starts at epoch 0 when there is an epoch at all. *)
Lemma range_epochs (N : Z) :
  (0 < N)%Z -> exists rest, range 0 N 1 = Ok (0%Z :: rest).
Proof.
  intros HN. unfold range, range_len. cbn [Z.eqb Z.ltb Z.compare].
  destruct (Z.ltb_spec 0 N) as [ _ | ]; [ | lia ].
  replace ((N - 0 - 1) / 1 + 1)%Z with N by (rewrite Z.div_1_r; lia).
  destruct (Z.to_nat N) as [ | k ] eqn:E; [ lia | ].
  cbn [seq map]. eexists. reflexivity.
Qed.

(** Fewer samples than a batch: the generator yields nothing. *)
Lemma iterate_minibatches_none {X Y} (sh : list nat -> list nat)
    (inputs : list X) (targets : list Y) (B : Z) (shuffle : bool) :
  List.length targets = List.length inputs ->
  (Z.of_nat (List.length inputs) < B)%Z ->
  Train.iterate_minibatches sh inputs targets B shuffle = Ok [].
Proof.
  intros Hlen Hlt. unfold Train.iterate_minibatches.
  rewrite Hlen, Nat.eqb_refl. cbn [assert bind].
  unfold range, range_len.
  destruct (Z.eqb_spec B 0) as [ | _ ]; [ lia | ].
  destruct (Z.ltb_spec 0 B) as [ _ | ]; [ | lia ].
  destruct (Z.ltb_spec 0 (Z.of_nat (List.length inputs) - B + 1)) as [ | _ ];
    [ lia | ].
  reflexivity.
Qed.

(** C9.  With fewer training samples than the batch size (and at least
    one epoch to run), the training pass and the evaluation pass of every
    epoch go through zero minibatches, so that [train_batches] and
    [val_batches] are 0, and the loss report of the first epoch divides by
    zero: the run ends with a [ZeroDivisionError] and no checkpoint has
    been written, no directory made and no parameter changed. *)
Theorem small_dataset_division_by_zero (s : Train.state)
    (Hn : (0 < List.length X_train)%nat)
    (HB : (Z.of_nat (List.length X_train) < Train.batch_size a)%Z)
    (Hlen : List.length y_train = List.length X_train)
    (Hep : (0 < Train.num_epochs a)%Z) :
  (forall i s0,
      fst (Train.train_pass a rnd X_train y_train w0 w1 i s0) = Ok (0%Q, 0%Z)
      /\ fst (Train.eval_pass a rnd X_train y_train w0 w1 i s0) = Ok (0%Q, 0%Z))
  /\ exists s',
       Train.training_loop a rnd X_train y_train w0 w1 s
       = (Raise ZeroDivisionError, s')
       /\ no_new_checkpoint s s'
       /\ Train.dirs s' = Train.dirs s
       /\ Train.model_params s' = Train.model_params s
       /\ Train.optimizer s' = Train.optimizer s.
Proof.
  assert (Htr : forall i s0,
    Train.train_pass a rnd X_train y_train w0 w1 i s0
    = (Ok (0%Q, 0%Z), snd (Train.set_training true s0))).
  { intros i s0. unfold Train.train_pass.
    rewrite (iterate_minibatches_none _ _ _ _ Hlen HB). reflexivity. }
  assert (Hev : forall i s0,
    Train.eval_pass a rnd X_train y_train w0 w1 i s0
    = (Ok (0%Q, 0%Z), snd (Train.set_training false s0))).
  { intros i s0. unfold Train.eval_pass.
    rewrite (iterate_minibatches_none _ _ _ _ Hlen HB). reflexivity. }
  split.
  { intros i s0. rewrite Htr, Hev. split; reflexivity. }
  destruct (range_epochs Hep) as [rest Hr].
  unfold Train.training_loop. rewrite Hr.
  eexists. split.
  { unfold Train.mbind at 1. cbn [Train.print Train.modify].
    unfold Train.mbind at 1. cbn [Train.write_file Train.modify].
    unfold Train.mbind at 1. cbn [Train.lift].
    apply mbind_raise. cbn [Train.for_loop].
    apply mbind_raise. unfold Train.epoch.
    rewrite (@mbind_ok _ _ _ _ _ _ _ (Htr _ _)).
    rewrite (@mbind_ok _ _ _ _ _ _ _ (Hev _ _)).
    reflexivity. }
  cbn. repeat split. 
  unfold no_new_checkpoint, Train.checkpoints. cbn.
  apply checkpoints_filter.
Qed.


Lemma float_div_ok (x : Q) (n : Z) :
  n <> 0%Z -> Train.float_div x n = Ok (x / inject_Z n)%Q.
Proof.
  intros Hn. unfold Train.float_div.
  destruct (Z.eqb_spec n 0); [ contradiction | reflexivity ].
Qed.

(** A loop whose body counts one batch per round counts them all. *)
Lemma for_loop_counts {A} (xs : list A) (body : Q * Z -> A -> Train.M (Q * Z)) :
  (forall acc x s, In x xs ->
     exists l s', body acc x s = (Ok (l, (snd acc + 1)%Z), s')) ->
  forall acc s,
    exists l s', Train.for_loop xs body acc s
                 = (Ok (l, (snd acc + Z.of_nat (List.length xs))%Z), s').
Proof.
  induction xs as [ | x xs IH ]; intros Hbody acc s.
  - destruct acc as [l c]. exists l, s. cbn. rewrite Z.add_0_r. reflexivity.
  - destruct (Hbody acc x s (or_introl eq_refl)) as (l1 & s1 & E1).
    destruct (IH (fun acc x s H => Hbody acc x s (or_intror H))
                 (l1, (snd acc + 1)%Z) s1) as (l2 & s2 & E2).
    exists l2, s2. cbn [Train.for_loop].
    rewrite (@mbind_ok _ _ _ _ _ _ _ E1), E2. cbn [snd List.length].
    do 3 f_equal. lia.
Qed.

Lemma enumerate_ok {A} (bs : list A) x :
  In x (Train.enumerate (map Ok bs)) -> exists b, snd x = Ok b.
Proof.
  unfold Train.enumerate. intros Hin. destruct x as [j r].
  apply in_combine_r in Hin. apply in_map_iff in Hin.
  destruct Hin as (b & <- & _). exists b. reflexivity.
Qed.

Lemma enumerate_length {A} (l : list A) :
  List.length (Train.enumerate l) = List.length l.
Proof.
  unfold Train.enumerate. rewrite length_combine, length_seq. lia.
Qed.

Lemma train_batch_counts i acc nb b s :
  snd nb = Ok b ->
  exists l s', Train.train_batch rnd w0 w1 i acc nb s
               = (Ok (l, (snd acc + 1)%Z), s').
Proof.
  intros E. unfold Train.train_batch. destruct acc as [tl tb].
  rewrite E. destruct b as [X_t y_t].
  unfold Train.mbind, Train.lift, Train.get, Train.set_grads,
    Train.set_hidden, Train.set_params_optimizer, Train.modify, Train.ret.
  cbn. destruct (forward _ _ _ _ _) as [outs states]. cbn.
  eexists. eexists. reflexivity.
Qed.

Lemma eval_batch_counts i acc nb b s :
  snd nb = Ok b ->
  exists l s', Train.eval_batch rnd w0 w1 i acc nb s
               = (Ok (l, (snd acc + 1)%Z), s').
Proof.
  intros E. unfold Train.eval_batch. destruct acc as [vl vb].
  rewrite E. destruct b as [X_t y_t].
  unfold Train.mbind, Train.lift, Train.get, Train.set_hidden, Train.modify,
    Train.ret.
  cbn. destruct (forward _ _ _ _ _) as [outs states]. cbn.
  eexists. eexists. reflexivity.
Qed.

(** The checkpoint of an epoch with batches ends at the unbound name,
    after the directory has been made. *)
Lemma save_checkpoint_name_error i tl tb vl vb s :
  tb <> 0%Z -> vb <> 0%Z ->
  exists s',
    Train.save_checkpoint a i tl tb vl vb s = (Raise (NameError "save_dir"), s')
    /\ fst (Train.path_exists (Train.param_dir a ++ Train.method_name a) s')
       = Ok true.
Proof.
  intros Htb Hvb. unfold Train.save_checkpoint.
  rewrite load_save_dir, !float_div_ok by assumption.
  unfold Train.mbind at 1.
  destruct (Train.path_exists (Train.param_dir a ++ Train.method_name a) s)
    as [[ex | e] s1] eqn:E; [ | discriminate E ].
  unfold Train.path_exists, Train.get in E. injection E as Eex <-.
  destruct ex; cbn [Bool.eqb].
  - eexists. split; [ reflexivity | ]. cbn. rewrite Eex. reflexivity.
  - eexists. split; [ reflexivity | ]. cbn.
    rewrite String.eqb_refl. reflexivity.
Qed.


Section WithBatches.

Hypothesis HB : (0 < Train.batch_size a)%Z.
Hypothesis Hn : (Train.batch_size a <= Z.of_nat (List.length X_train))%Z.
Hypothesis Hlen : List.length y_train = List.length X_train.
Hypothesis Hperm : forall i,
  Permutation (Train.shuffled rnd i (Np.arange (List.length X_train)))
              (Np.arange (List.length X_train)).

Lemma batches_positive :
  (Z.of_nat (List.length X_train) / Train.batch_size a <> 0)%Z.
Proof.
  pose proof (Z.div_le_lower_bound (Z.of_nat (List.length X_train))
                (Train.batch_size a) 1 HB). lia.
Qed.

Lemma generator_ok (i : Z) (shuffle : bool) :
  exists bs,
    Train.iterate_minibatches (Train.shuffled rnd i) X_train y_train
      (Train.batch_size a) shuffle = Ok (map Ok bs)
    /\ Z.of_nat (List.length bs)
       = (Z.of_nat (List.length X_train) / Train.batch_size a)%Z.
Proof.
  eexists. split.
  - rewrite iterate_minibatches_yields by (try apply Hperm; assumption).
    rewrite <- map_map. reflexivity.
  - rewrite length_map, length_seq.
    apply Z2Nat.id, Z.div_pos; lia.
Qed.

Lemma train_pass_ok (i : Z) (s : Train.state) :
  exists l s',
    Train.train_pass a rnd X_train y_train w0 w1 i s
    = (Ok (l, (Z.of_nat (List.length X_train) / Train.batch_size a)%Z), s').
Proof.
  destruct (generator_ok i true) as (bs & E & Hl).
  unfold Train.train_pass. rewrite E.
  unfold Train.mbind at 1. cbn [Train.set_training Train.modify].
  unfold Train.mbind at 1. cbn [Train.lift].
  match goal with
  | |- context [ Train.for_loop ?xs ?body ?acc0 ?s1 ] =>
      assert (Hbody : forall acc x s, In x xs ->
                exists l s', body acc x s = (Ok (l, (snd acc + 1)%Z), s'));
      [ | destruct (@for_loop_counts _ xs body Hbody acc0 s1) as (l & s' & Ef) ]
  end.
  { intros acc x s0 Hin. destruct (enumerate_ok _ _ Hin) as [b Eb].
    eapply train_batch_counts. exact Eb. }
  exists l, s'. rewrite Ef. cbn [snd].
  rewrite enumerate_length, length_map, Hl. reflexivity.
Qed.

Lemma eval_pass_ok (i : Z) (s : Train.state) :
  exists l s',
    Train.eval_pass a rnd X_train y_train w0 w1 i s
    = (Ok (l, (Z.of_nat (List.length X_train) / Train.batch_size a)%Z), s').
Proof.
  destruct (generator_ok i false) as (bs & E & Hl).
  unfold Train.eval_pass. rewrite E.
  unfold Train.mbind at 1. cbn [Train.set_training Train.modify].
  unfold Train.mbind at 1. cbn [Train.lift].
  match goal with
  | |- context [ Train.for_loop ?xs ?body ?acc0 ?s1 ] =>
      assert (Hbody : forall acc x s, In x xs ->
                exists l s', body acc x s = (Ok (l, (snd acc + 1)%Z), s'));
      [ | destruct (@for_loop_counts _ xs body Hbody acc0 s1) as (l & s' & Ef) ]
  end.
  { intros acc x s0 Hin. destruct (enumerate_ok _ _ Hin) as [b Eb].
    eapply eval_batch_counts. exact Eb. }
  exists l, s'. rewrite Ef. cbn [snd].
  rewrite enumerate_length, length_map, Hl. reflexivity.
Qed.

Lemma first_epoch_name_error (s : Train.state) :
  exists s',
    Train.epoch a rnd X_train y_train w0 w1 tt 0 s
    = (Raise (NameError "save_dir"), s')
    /\ fst (Train.path_exists (Train.param_dir a ++ Train.method_name a) s')
       = Ok true.
Proof.
  pose proof batches_positive as Hq.
  destruct (train_pass_ok 0 s) as (tl & s1 & E1).
  destruct (eval_pass_ok 0 s1) as (vl & s2 & E2).
  unfold Train.epoch.
  rewrite (@mbind_ok _ _ _ _ _ _ _ E1), (@mbind_ok _ _ _ _ _ _ _ E2).
  rewrite !float_div_ok by exact Hq.
  unfold Train.mbind at 1. cbn [Train.print Train.modify].
  unfold Train.mbind at 1. cbn [Train.lift].
  unfold Train.mbind at 1. cbn [Train.print Train.modify].
  unfold Train.mbind at 1. cbn [Train.lift].
  unfold Train.mbind at 1. cbn [Train.print Train.modify].
  change (0 mod 10 =? 0)%Z with true. cbn iota.
  apply save_checkpoint_name_error; exact Hq.
Qed.

End WithBatches.

(** C3, as the code runs.  When the data fill at least one batch and
    there is at least one epoch, the run ends in epoch 0: the per-method
    directory is there, the path of the checkpoint, built from the unbound
    name [save_dir], raises [NameError] before [torch.save] is reached, and
    no checkpoint has been added to the disk (as in every run of the loop,
    [keeps_ckpt_training_loop]). *)
Theorem checkpoint_never_written (s : Train.state)
    (HB : (0 < Train.batch_size a)%Z)
    (Hn : (Train.batch_size a <= Z.of_nat (List.length X_train))%Z)
    (Hlen : List.length y_train = List.length X_train)
    (Hperm : forall i,
        Permutation (Train.shuffled rnd i (Np.arange (List.length X_train)))
                    (Np.arange (List.length X_train)))
    (Hep : (0 < Train.num_epochs a)%Z) :
  exists s',
    Train.training_loop a rnd X_train y_train w0 w1 s
    = (Raise (NameError "save_dir"), s')
    /\ fst (Train.path_exists (Train.param_dir a ++ Train.method_name a) s')
       = Ok true
    /\ no_new_checkpoint s s'.
Proof.
  destruct (range_epochs Hep) as [rest Hr].
  pose proof (keeps_ckpt_training_loop s) as Hkeep.
  unfold Train.training_loop in *. rewrite Hr in *.
  unfold Train.mbind at 1 in Hkeep. unfold Train.mbind at 1.
  cbn [Train.print Train.modify] in *.
  unfold Train.mbind at 1 in Hkeep. unfold Train.mbind at 1.
  cbn [Train.write_file Train.modify] in *.
  unfold Train.mbind at 1 in Hkeep. unfold Train.mbind at 1.
  cbn [Train.lift] in *.
  match goal with
  | |- context [ Train.mbind (Train.for_loop _ _ _) _ ?s1 ] =>
      destruct (first_epoch_name_error HB Hn Hlen Hperm s1) as (s' & E & Hdir)
  end.
  exists s'.
  assert (Erun : forall s1 k,
    Train.epoch a rnd X_train y_train w0 w1 tt 0 s1
    = (Raise (NameError "save_dir"), s') ->
    Train.mbind (Train.for_loop (0%Z :: rest)
                   (Train.epoch a rnd X_train y_train w0 w1) tt) k s1
    = ((Raise (NameError "save_dir") : result unit), s')).
  { intros s1 k E1. apply mbind_raise. cbn [Train.for_loop].
    apply mbind_raise. exact E1. }
  rewrite (Erun _ _ E) in *.
  split; [ reflexivity | split; [ exact Hdir | exact Hkeep ] ].
Qed.

End LoopFrames.

(** The training step, for contrast with the evaluation pass: on a batch
    that the generator yields, the parameters and the optimizer state
    become those of [optimizer.step()]. *)
Lemma train_batch_steps {T : Torch} (rnd : Train.oracle) (w0 w1 : list Q)
    (i : Z) (acc : Q * Z) (j : nat)
    (X_t y_t : list (list (list Q))) (s : Train.state) :
  let s' := snd (Train.train_batch rnd w0 w1 i acc (j, Ok (X_t, y_t)) s) in
  let nz := Train.noise_at rnd i (Train.model_training s) j in
  let g := backward w0 w1 (Train.model_params s) init_hidden
             (Train.model_training s) nz X_t y_t
             (zero_grad (Train.model_grads s)) in
  (Train.model_params s', Train.optimizer s')
  = sgd_step (Train.model_params s) g (Train.optimizer s).
Proof.
  unfold Train.train_batch. destruct acc as [tl tb].
  unfold Train.mbind, Train.lift, Train.get, Train.set_grads,
    Train.set_hidden, Train.set_params_optimizer, Train.modify, Train.ret.
  cbn. destruct (forward _ _ _ _ _) as [outs states]. cbn.
  destruct (sgd_step _ _ _) as [th o]. reflexivity.
Qed.

(** The loop run on the one-parameter learner: one sample and batches of
    one sample end in the unbound name after the directory has been made;
    one sample and the default batches of 64 end in the division by zero.
    In both runs the only file on disk is the empty loss log. *)
Lemma run_one_epoch :
  let r := Train.training_loop one_epoch_args plain_oracle [[[1 # 2]]]
             [[[1%Q]]] [1 # 8] [7 # 8] fresh_state in
  fst r = Raise (NameError "save_dir")
  /\ Train.dirs (snd r)
     = ["/nfs/bigbang/pratik18v/cse599/sst/data/params/baseline"%string]
  /\ Train.files (snd r) = [("baseline_loss.txt"%string, Train.EmptyFile)].
Proof. vm_compute. repeat split. Qed.

Lemma run_small_dataset :
  let r := Train.training_loop default_args plain_oracle [[[1 # 2]]]
             [[[1%Q]]] [1 # 8] [7 # 8] fresh_state in
  fst r = Raise ZeroDivisionError
  /\ Train.dirs (snd r) = []
  /\ Train.files (snd r) = [("baseline_loss.txt"%string, Train.EmptyFile)].
Proof. vm_compute. repeat split. Qed.

Lemma small_dataset_division_by_zero_witness :
  (0 < List.length [[[1 # 2]]])%nat
  /\ (Z.of_nat (List.length [[[1 # 2]]]) < Train.batch_size default_args)%Z
  /\ List.length [[[1%Q]]] = List.length [[[1 # 2]]]
  /\ (0 < Train.num_epochs default_args)%Z
  /\ exists s',
       Train.training_loop default_args plain_oracle [[[1 # 2]]] [[[1%Q]]]
         [1 # 8] [7 # 8] fresh_state
       = (Raise ZeroDivisionError, s')
       /\ no_new_checkpoint fresh_state s'.
Proof.
  assert (Hn : (0 < List.length [[[1 # 2]]])%nat) by (cbn; lia).
  assert (HB : (Z.of_nat (List.length [[[1 # 2]]])
                < Train.batch_size default_args)%Z) by (cbn; lia).
  assert (Hlen : List.length [[[1%Q]]] = List.length [[[1 # 2]]])
    by reflexivity.
  assert (Hep : (0 < Train.num_epochs default_args)%Z) by (cbn; lia).
  split; [ exact Hn | split; [ exact HB | split; [ exact Hlen | split;
    [ exact Hep | ] ] ] ].
  destruct (@small_dataset_division_by_zero scalar_torch default_args
              plain_oracle [[[1 # 2]]] [[[1%Q]]] [1 # 8] [7 # 8] fresh_state
              Hn HB Hlen Hep) as (_ & s' & Hrun & Hck & _).
  exists s'. split; assumption.
Defined.

Lemma checkpoint_never_written_witness :
  (0 < Train.batch_size one_epoch_args)%Z
  /\ (Train.batch_size one_epoch_args <= Z.of_nat (List.length [[[1 # 2]]]))%Z
  /\ List.length [[[1%Q]]] = List.length [[[1 # 2]]]
  /\ (0 < Train.num_epochs one_epoch_args)%Z
  /\ exists s',
       Train.training_loop one_epoch_args plain_oracle [[[1 # 2]]] [[[1%Q]]]
         [1 # 8] [7 # 8] fresh_state
       = (Raise (NameError "save_dir"), s')
       /\ Train.checkpoints s' = [].
Proof.
  assert (HB : (0 < Train.batch_size one_epoch_args)%Z) by (cbn; lia).
  assert (Hn : (Train.batch_size one_epoch_args
                <= Z.of_nat (List.length [[[1 # 2]]]))%Z) by (cbn; lia).
  assert (Hlen : List.length [[[1%Q]]] = List.length [[[1 # 2]]])
    by reflexivity.
  assert (Hperm : forall i,
    Permutation (Train.shuffled plain_oracle i
                   (Np.arange (List.length [[[1 # 2]]])))
                (Np.arange (List.length [[[1 # 2]]])))
    by (intros i; apply Permutation_refl).
  assert (Hep : (0 < Train.num_epochs one_epoch_args)%Z) by (cbn; lia).
  split; [ exact HB | split; [ exact Hn | split; [ exact Hlen | split;
    [ exact Hep | ] ] ] ].
  destruct (@checkpoint_never_written scalar_torch one_epoch_args plain_oracle
              [[[1 # 2]]] [[[1%Q]]] [1 # 8] [7 # 8] fresh_state
              HB Hn Hlen Hperm Hep) as (s' & Hrun & _ & Hck).
  exists s'. split; [ exact Hrun | ].
  unfold no_new_checkpoint in Hck. cbn in Hck.
  destruct (Train.checkpoints s') as [ | c cs ]; [ reflexivity | ].
  destruct (Hck c (or_introl eq_refl)).
Defined.

(** * Properties of [model.py] *)

Section ModelProps.

Local Open Scope R_scope.

Lemma mean_single (v : R) : SST.mean [v] = v.
Proof. unfold SST.mean, SST.rsum. cbn. field. Qed.

Lemma ln_half : ln (1 / 2) = - ln 2.
Proof. unfold Rdiv. rewrite Rmult_1_l. apply ln_Rinv. lra. Qed.

Lemma loss_of_single (c0 c1 y p : R) :
  SST.loss_of c0 c1 (single y) (single p)
  = - (c1 * y * ln p + (1 - c0 * (1 - y)) * ln (1 - p)).
Proof. unfold SST.loss_of. cbn. rewrite mean_single. reflexivity. Qed.

Lemma weighted_cross_entropy_single (c0 c1 y p : R) :
  Spec.weighted_cross_entropy c0 c1 (single y) (single p)
  = - (c1 * y * ln p + c0 * (1 - y) * ln (1 - p)).
Proof.
  unfold Spec.weighted_cross_entropy. cbn. rewrite mean_single. reflexivity.
Qed.

Lemma given {A} (x : A) : Some x <> None.
Proof. discriminate. Qed.

Section Compiled.

Context {L : Lasagne}.

(** A model that [compile] has compiled has its symbolic variables: the
    input variable, and in train mode the target variable too. *)
Lemma compile_ok_variables (m0 m : SST.SSTSequenceEncoder) :
  SST.test_fn m0 = None ->
  SST.compile m0 = Ok m ->
  SST.input_var m0 <> None
  /\ (SST.mode m0 = "train"%string -> SST.target_var m0 <> None).
Proof.
  intros Hte. unfold SST.compile. rewrite Hte.
  destruct (String.eqb_spec (SST.mode m0) "train") as [Htr | Htr].
  - destruct (SST.w1 m0); [ | discriminate ].
    destruct (SST.target_var m0); [ | discriminate ].
    destruct (SST.w0 m0); [ | discriminate ].
    destruct (SST.input_var m0); [ | discriminate ].
    intros _. split; [ | intros _ ]; discriminate.
  - destruct (String.eqb (SST.mode m0) "test"); [ | discriminate ].
    destruct (SST.input_var m0); [ | discriminate ].
    intros _. split; [ discriminate | intros H; contradiction ].
Qed.

(** What [compile] builds in train mode. *)
Lemma compile_train (m0 : SST.SSTSequenceEncoder) (c0 c1 : R) :
  SST.test_fn m0 = None ->
  SST.mode m0 = "train"%string ->
  SST.w0 m0 = Some c0 ->
  SST.w1 m0 = Some c1 ->
  SST.input_var m0 <> None ->
  SST.target_var m0 <> None ->
  exists m train test,
    SST.compile m0 = Ok m
    /\ SST.train_fn m = Some train
    /\ SST.test_fn m = Some test
    /\ SST.mode m = SST.mode m0
    /\ SST.input_size m = SST.input_size m0
    /\ (forall sh masks x y,
          train sh masks x (Some y)
          = Ok (SST.Scalar
                  (SST.loss_of c0 c1 y
                     (SST.train_prediction (SST._network m0) (fst sh) masks x)),
                nesterov_momentum
                  (fun th => SST.loss_of c0 c1 y
                     (SST.train_prediction (SST._network m0) th masks x))
                  0.01 0.9 sh))
    /\ (forall sh masks x y,
          test sh masks x (Some y)
          = Ok (SST.Scalar
                  (SST.loss_of c0 c1 y
                     (SST.train_prediction (SST._network m0) (fst sh) masks x)),
                sh)).
Proof.
  intros Hte Hmode Hw0 Hw1 Hiv Htv. unfold SST.compile.
  rewrite Hte, Hmode, Hw0, Hw1. cbn [String.eqb Ascii.eqb Bool.eqb].
  destruct (SST.target_var m0) as [tv | ]; [ | contradiction ].
  destruct (SST.input_var m0) as [iv | ]; [ | contradiction ].
  eexists. eexists. eexists.
  split; [ reflexivity | ].
  cbn [SST.train_fn SST.test_fn SST.mode SST.input_size].
  repeat split; reflexivity.
Qed.

(** What [compile] builds in test mode. *)
Lemma compile_test (m0 : SST.SSTSequenceEncoder) :
  SST.test_fn m0 = None ->
  SST.mode m0 = "test"%string ->
  SST.input_var m0 <> None ->
  exists m test,
    SST.compile m0 = Ok m
    /\ SST.test_fn m = Some test
    /\ SST.mode m = SST.mode m0
    /\ SST.input_size m = SST.input_size m0
    /\ (forall sh masks x y,
          test sh masks x y
          = Ok (SST.Array (SST.get_output (SST._network m0) (fst sh) true masks x),
                sh)).
Proof.
  intros Hte Hmode Hiv. unfold SST.compile.
  rewrite Hte, Hmode. cbn [String.eqb Ascii.eqb Bool.eqb].
  destruct (SST.input_var m0) as [iv | ]; [ | contradiction ].
  eexists. eexists.
  split; [ reflexivity | ].
  cbn [SST.test_fn SST.mode SST.input_size].
  repeat split; reflexivity.
Qed.

(** C10.  On a model compiled in train mode and a well-formed input, one
    call of [forward_eval] applies the Nesterov-momentum updates of the
    train function once to the shared variables, and returns the scalar
    loss of the test function, evaluated after the update; on a model
    compiled in test mode it leaves the shared variables as they are and
    returns the array of scores of the deterministic pass. *)
Theorem forward_eval_train_updates_test_scores
    (m0 m : SST.SSTSequenceEncoder) (sh : pvalues * velocity)
    (masks1 masks2 : nat -> list R) (x y : tensor)
    (Hun : SST.test_fn m0 = None)
    (Hc : SST.compile m0 = Ok m)
    (Hnd : SST.ndim x = 3%nat)
    (Hsz : Z.of_nat (nth 2 (shape x) 0%nat) = SST.input_size m0) :
  (SST.mode m0 = "train"%string ->
   exists c0 c1,
     SST.w0 m0 = Some c0 /\ SST.w1 m0 = Some c1
     /\ let loss th masks :=
          SST.loss_of c0 c1 y
            (SST.train_prediction (SST._network m0) th masks x) in
        let sh' := nesterov_momentum (fun th => loss th masks1) 0.01 0.9 sh in
        SST.forward_eval m sh masks1 masks2 x (Some y)
        = Ok (SST.Scalar (loss (fst sh') masks2), sh'))
  /\ (SST.mode m0 = "test"%string ->
      forall labels,
        SST.forward_eval m sh masks1 masks2 x labels
        = Ok (SST.Array
                (SST.get_output (SST._network m0) (fst sh) true masks1 x),
              sh)).
Proof.
  destruct (compile_ok_variables m0 Hun Hc) as [Hiv Htv].
  split.
  - intros Hmode.
    destruct (SST.w1 m0) as [c1 | ] eqn:Hw1;
      [ | unfold SST.compile in Hc; rewrite Hun, Hmode, Hw1 in Hc;
          cbn in Hc; discriminate Hc ].
    destruct (SST.w0 m0) as [c0 | ] eqn:Hw0;
      [ | unfold SST.compile in Hc; rewrite Hun, Hmode, Hw1, Hw0 in Hc;
          cbn in Hc; destruct (SST.target_var m0); discriminate Hc ].
    exists c0, c1. split; [ reflexivity | split; [ reflexivity | ] ].
    destruct (compile_train m0 Hun Hmode Hw0 Hw1 Hiv (Htv Hmode))
      as (m' & train & test & Hc' & Htr & Hte & Hm & Hi & Htrain & Htest).
    rewrite Hc in Hc'. injection Hc' as <-.
    intros loss sh'. unfold SST.forward_eval.
    rewrite Hte, Htr, Hm, Hi, Hmode, Hnd, Hsz, Z.eqb_refl.
    cbn [Nat.eqb negb String.eqb Ascii.eqb Bool.eqb].
    rewrite Htrain. cbn [bind snd]. rewrite Htest. reflexivity.
  - intros Hmode labels.
    destruct (compile_test m0 Hun Hmode Hiv)
      as (m' & test & Hc' & Hte & Hm & Hi & Htest).
    rewrite Hc in Hc'. injection Hc' as <-.
    unfold SST.forward_eval.
    rewrite Hte, Hm, Hi, Hmode, Hnd, Hsz, Z.eqb_refl.
    cbn [Nat.eqb negb String.eqb Ascii.eqb Bool.eqb].
    apply Htest.
Qed.


(** The deterministic pass does not read the dropout masks: a loss
    computed from it is a function of the parameters and the input. *)
Lemma deterministic_pass_ignores_masks (net : list layer) (th : pvalues)
    (masks masks' : nat -> list R) (x : tensor) :
  SST.get_output net th true masks x = SST.get_output net th true masks' x.
Proof.
  unfold SST.get_output. generalize 0%nat. generalize x at 2 4.
  induction net as [ | l net IH ]; intros t pos; [ reflexivity | ].
  cbn [SST.run_layers].
  replace (SST.layer_output th true masks' x pos l t)
    with (SST.layer_output th true masks x pos l t)
    by (destruct l; reflexivity).
  apply IH.
Qed.

(** C4, on the code.  The evaluation-loss function compiled in train mode
    computes its loss from the pass with [deterministic = False], in which
    dropout is applied with the masks drawn for the call; the prediction
    of the deterministic pass, built on lines 135-136, is not used. *)
Theorem test_fn_uses_dropout_pass (m0 m : SST.SSTSequenceEncoder)
    (c0 c1 : R) (test : SST.theano_function)
    (Hun : SST.test_fn m0 = None)
    (Hmode : SST.mode m0 = "train"%string)
    (Hw0 : SST.w0 m0 = Some c0)
    (Hw1 : SST.w1 m0 = Some c1)
    (Hc : SST.compile m0 = Ok m)
    (Hte : SST.test_fn m = Some test) :
  forall sh masks x y,
    test sh masks x (Some y)
    = Ok (SST.Scalar
            (SST.loss_of c0 c1 y
               (SST.tmap (fun v => SST.clip v 0.001 0.999)
                  (SST.get_output (SST._network m0) (fst sh) false masks x))),
          sh).
Proof.
  destruct (compile_ok_variables m0 Hun Hc) as [Hiv Htv].
  destruct (compile_train m0 Hun Hmode Hw0 Hw1 Hiv (Htv Hmode))
    as (m' & train' & test' & Hc' & _ & Hte' & _ & _ & _ & Htest).
  rewrite Hc in Hc'. injection Hc' as <-.
  rewrite Hte in Hte'. injection Hte' as <-.
  exact Htest.
Qed.

End Compiled.

(** *** The one-unit network *)

Lemma Rlt_dec_false (x y : R) (A : Type) (u v : A) :
  ~ x < y -> (if Rlt_dec x y then u else v) = v.
Proof. intros H. destruct (Rlt_dec x y); [ contradiction | reflexivity ]. Qed.

Lemma Rgt_dec_false (x y : R) (A : Type) (u v : A) :
  ~ x > y -> (if Rgt_dec x y then u else v) = v.
Proof. intros H. destruct (Rgt_dec x y); [ contradiction | reflexivity ]. Qed.

Lemma Rgt_dec_true (x y : R) (A : Type) (u v : A) :
  x > y -> (if Rgt_dec x y then u else v) = u.
Proof. intros H. destruct (Rgt_dec x y); [ reflexivity | contradiction ]. Qed.

Lemma init_one_unit :
  SST.__init__ (L := scalar_lasagne) (Some (TensorVariable "input"))
    (Some (TensorVariable "target")) None 1 1 1 1 100 5 (1 / 2) "train"
    (Some 0) (Some 1) false = Ok one_unit.
Proof.
  unfold SST.__init__, SST._build_network, SST.network_layers.
  cbn [Z.ltb Z.compare].
  rewrite (@Rlt_dec_false (1 / 2) 0) by lra.
  rewrite (@Rgt_dec_false (1 / 2) 1) by lra.
  rewrite (@Rgt_dec_true (1 / 2) 0) by lra.
  reflexivity.
Qed.

Lemma init_plain_unit :
  SST.__init__ (L := scalar_lasagne) (Some (TensorVariable "input"))
    (Some (TensorVariable "target")) None 1 1 1 1 100 5 0 "train"
    (Some 1) (Some 1) false = Ok plain_unit.
Proof.
  unfold SST.__init__, SST._build_network, SST.network_layers.
  cbn [Z.ltb Z.compare].
  rewrite (@Rlt_dec_false 0 0) by lra.
  rewrite (@Rgt_dec_false 0 1) by lra.
  rewrite (@Rgt_dec_false 0 0) by lra.
  reflexivity.
Qed.

Lemma sigmoid_0 : SST.sigmoid 0 = 1 / 2.
Proof. unfold SST.sigmoid. rewrite Ropp_0, exp_0. lra. Qed.

Lemma sigmoid_gt_half (t : R) : 0 < t -> 1 / 2 < SST.sigmoid t.
Proof.
  intros Ht. unfold SST.sigmoid.
  pose proof (exp_pos (- t)) as Hpos.
  assert (Hlt : exp (- t) < 1).
  { rewrite <- exp_0. apply exp_increasing. lra. }
  unfold Rdiv. rewrite !Rmult_1_l.
  apply Rinv_lt_contravar; nra.
Qed.

Lemma clip_above_half (v : R) :
  1 / 2 < v -> 1 / 2 < SST.clip v 0.001 0.999 <= 0.999.
Proof.
  intros Hv. unfold SST.clip.
  destruct (Rlt_dec v 0.001); [ lra | ].
  destruct (Rgt_dec v 0.999); lra.
Qed.

Lemma clip_half : SST.clip (1 / 2) 0.001 0.999 = 1 / 2.
Proof.
  unfold SST.clip.
  destruct (Rlt_dec (1 / 2) 0.001); [ lra | ].
  destruct (Rgt_dec (1 / 2) 0.999); [ lra | reflexivity ].
Qed.

Lemma loss_of_data (c0 c1 : R) (y p p' : tensor) :
  data p = data p' -> SST.loss_of c0 c1 y p = SST.loss_of c0 c1 y p'.
Proof. intros E. unfold SST.loss_of. rewrite E. reflexivity. Qed.

(** The clipped prediction of the network without dropout on the input 0
    with parameter 1 is 0.5, whatever the draws. *)
Lemma plain_unit_prediction (masks : nat -> list R) :
  data (SST.train_prediction (L := scalar_lasagne) (SST._network plain_unit)
          1 masks (single 0))
  = [1 / 2].
Proof.
  unfold SST.train_prediction, SST.get_output.
  cbn [plain_unit SST._network SST.run_layers SST.layer_output SST.tmap
       SST.reshape_to GRULayer_output DenseLayer_affine scalar_lasagne
       data map single].
  replace (1 * 0) with 0 by lra.
  rewrite sigmoid_0, clip_half. reflexivity.
Qed.

(** C1, on the code.  With both class weights 1, the target 1 and the
    prediction 0.5 (inside the clipping range), the loss of lines 123-128
    is [2 * ln 2], whereas the weighted cross-entropy of the specification
    is [ln 2]: the second term of the code is weighted by
    [1 - w0 * (1 - y)] where the specification has [w0 * (1 - y)].  The
    train function compiled for the network without dropout returns that
    loss on an input whose prediction is 0.5. *)
Theorem loss_of_differs_from_weighted_cross_entropy :
  SST.loss_of 1 1 (single 1) (single (1 / 2)) = 2 * ln 2
  /\ Spec.weighted_cross_entropy 1 1 (single 1) (single (1 / 2)) = ln 2
  /\ SST.loss_of 1 1 (single 1) (single (1 / 2))
     <> Spec.weighted_cross_entropy 1 1 (single 1) (single (1 / 2))
  /\ exists m train,
       SST.compile plain_unit = Ok m
       /\ SST.train_fn m = Some train
       /\ forall masks, exists sh',
            train (1, 0) masks (single 0) (Some (single 1))
            = Ok (SST.Scalar (2 * ln 2), sh').
Proof.
  assert (Hcode : SST.loss_of 1 1 (single 1) (single (1 / 2)) = 2 * ln 2).
  { rewrite loss_of_single. replace (1 - 1 / 2) with (1 / 2) by lra.
    rewrite ln_half. lra. }
  assert (Hspec : Spec.weighted_cross_entropy 1 1 (single 1) (single (1 / 2))
                  = ln 2).
  { rewrite weighted_cross_entropy_single.
    replace (1 - 1 / 2) with (1 / 2) by lra. rewrite ln_half. lra. }
  split; [ exact Hcode | split; [ exact Hspec | split ] ].
  - rewrite Hcode, Hspec. pose proof ln_lt_2. lra.
  - destruct (@compile_train scalar_lasagne plain_unit 1 1
                eq_refl eq_refl eq_refl eq_refl (@given _ _) (@given _ _))
      as (m & train & test & Hc & Htr & _ & _ & _ & Htrain & _).
    exists m, train. split; [ exact Hc | split; [ exact Htr | ] ].
    intros masks. eexists. rewrite Htrain. cbn [fst].
    rewrite (@loss_of_data 1 1 (single 1) _ (single (1 / 2)))
      by apply plain_unit_prediction.
    rewrite Hcode. reflexivity.
Qed.


(** The clipped prediction of the one-unit network on the input 1 with
    parameter 1, under dropout with the mask [m]. *)
Lemma one_unit_prediction (m : R) :
  data (SST.tmap (fun u => SST.clip u 0.001 0.999)
          (SST.get_output (L := scalar_lasagne) (SST._network one_unit) 1
             false (fun _ => [m]) (single 1)))
  = [SST.clip (SST.sigmoid (1 * (1 / (1 - 1 / 2) * m))) 0.001 0.999].
Proof.
  unfold SST.get_output. cbn [one_unit SST._network SST.run_layers].
  unfold SST.layer_output at 4. cbn [GRULayer_output scalar_lasagne].
  unfold SST.layer_output at 4. unfold SST.dropout_output.
  destruct (Req_dec_T (1 / 2) 0) as [E | _]; [ lra | ].
  reflexivity.
Qed.

(** On the one-unit model the loss returned by the evaluation function
    changes with the dropout mask drawn for the call: [ln 2] when the unit
    is dropped, more than [ln 2] when it is kept, for one input and one
    setting of the parameters. *)
Lemma evaluation_loss_depends_on_mask :
  exists m test,
    SST.compile one_unit = Ok m
    /\ SST.test_fn m = Some test
    /\ test (1, 0) (fun _ => [0]) (single 1) (Some (single 0))
       = Ok (SST.Scalar (ln 2), (1, 0))
    /\ exists r,
         test (1, 0) (fun _ => [1]) (single 1) (Some (single 0))
         = Ok (SST.Scalar r, (1, 0))
         /\ ln 2 < r.
Proof.
  destruct (@compile_train scalar_lasagne one_unit 0 1)
    as (m & train & test & Hc & _ & Hte & _ & _ & _ & Htest);
    try reflexivity; try apply (@given _ _).
  exists m, test. split; [ exact Hc | split; [ exact Hte | ] ].
  rewrite !Htest. cbn [fst].
  unfold SST.train_prediction.
  split.
  - rewrite (@loss_of_data 0 1 (single 0) _ (single (1 / 2))).
    + rewrite loss_of_single.
      replace (1 - 1 / 2) with (1 / 2) by lra. rewrite ln_half.
      do 3 f_equal. lra.
    + rewrite one_unit_prediction.
      replace (1 * (1 / (1 - 1 / 2) * 0)) with 0 by lra.
      rewrite sigmoid_0, clip_half. reflexivity.
  - eexists. split; [ reflexivity | ].
    set (q := SST.clip (SST.sigmoid (1 * (1 / (1 - 1 / 2) * 1))) 0.001 0.999).
    rewrite (@loss_of_data 0 1 (single 0) _ (single q))
      by (rewrite one_unit_prediction; reflexivity).
    rewrite loss_of_single.
    assert (Hq : 1 / 2 < q <= 0.999).
    { apply clip_above_half, sigmoid_gt_half. lra. }
    assert (Hln : ln (1 - q) < ln (1 / 2)) by (apply ln_increasing; lra).
    rewrite ln_half in Hln. lra.
Qed.


(** *** The constructor *)

Section Constructor.

Context {L : Lasagne}.

Lemma layer_checks_outcome (ls : list layer) :
  (forall e, Py.for_each ls (fun _ l => layer_check l) tt = Raise e ->
             exists l, In l ls /\ layer_check l = Raise e)
  /\ ((forall l, In l ls -> layer_check l = Ok tt) ->
      Py.for_each ls (fun _ l => layer_check l) tt = Ok tt).
Proof.
  induction ls as [ | l ls [IH1 IH2] ]; cbn [Py.for_each]; split.
  - intros e H. discriminate H.
  - reflexivity.
  - intros e H. destruct (layer_check l) as [[] | e'] eqn:E; cbn [bind] in H.
    + destruct (IH1 e H) as (l' & Hin & Hl'). exists l'. split; [ right | ]; assumption.
    + injection H as <-. exists l. split; [ left; reflexivity | exact E ].
  - intros Hall. rewrite (Hall l (or_introl eq_refl)). cbn [bind].
    apply IH2. intros l' Hin. apply Hall. right. exact Hin.
Qed.

(** When the checks of all the layers have run, each layer was accepted. *)
Lemma layer_checks_all (ls : list layer) (u : unit) :
  Py.for_each ls (fun _ l => layer_check l) tt = Ok u ->
  forall l, In l ls -> layer_check l = Ok tt.
Proof.
  induction ls as [ | l0 ls IH ]; cbn [Py.for_each]; intros H l Hin.
  - destruct Hin.
  - destruct (layer_check l0) as [[] | e] eqn:E; cbn [bind] in H;
      [ | discriminate H ].
    destruct Hin as [<- | Hin]; [ exact E | apply (IH H l Hin) ].
Qed.

(** The guard of lines 57-59 rejects the negative numbers of proposals. *)
Lemma init_rejects_negative (iv tv : option variable) (sl : option nat)
    (k depth width isz : Z)
    (gc rb dropout : R) (mode : string) (w0 w1 : option R) (verbose : bool) :
  (k < 0)%Z ->
  SST.__init__ iv tv sl k depth width isz gc rb dropout mode w0 w1 verbose
  = Raise (ValueError
      ("Must provide positive number of proposalanchors. (Provided: "
       ++ Py.str k ++ ")")).
Proof.
  intros Hk. unfold SST.__init__.
  destruct (Z.ltb_spec k 0); [ reflexivity | lia ].
Qed.

(** Past the two guards, construction is the construction of the layers. *)
Lemma init_builds (iv tv : option variable) (sl : option nat)
    (k depth width isz : Z)
    (gc rb dropout : R) (mode : string) (w0 w1 : option R) (verbose : bool) :
  (0 <= k)%Z -> 0 <= dropout <= 1 ->
  SST.__init__ iv tv sl k depth width isz gc rb dropout mode w0 w1 verbose
  = (net <- SST._build_network sl isz depth width k gc dropout ;;
     Ok {| SST.mode := mode; SST.input_var := iv; SST.target_var := tv;
           SST.w0 := w0; SST.w1 := w1;
           SST.seq_length := sl; SST.num_proposals := k;
           SST.depth := depth; SST.width := width; SST.input_size := isz;
           SST.grad_clip := gc; SST.reset_bias := rb;
           SST.dropout := dropout; SST.verbose := verbose;
           SST.train_fn := None; SST.test_fn := None;
           SST._network := net |}).
Proof.
  intros Hk Hd. unfold SST.__init__.
  destruct (Z.ltb_spec k 0); [ lia | ].
  rewrite (@Rlt_dec_false dropout 0) by lra.
  rewrite (@Rgt_dec_false dropout 1) by lra.
  reflexivity.
Qed.

Lemma below_dense_app (front : list layer) (a b c : layer) :
  below_dense (front ++ [a; b; c]) = front ++ [a].
Proof.
  unfold below_dense. rewrite length_app. cbn [List.length].
  replace (List.length front + 3 - 2)%nat with (List.length front + 1)%nat
    by lia.
  rewrite firstn_app, firstn_all2 by lia.
  replace (List.length front + 1 - List.length front)%nat with 1%nat by lia.
  reflexivity.
Qed.

(** The network is its layers below the dense layer, the dense layer and
    the reshape to the shape of the output. *)
Lemma network_layers_split (sl : option nat) (isz depth width k : Z)
    (gc dropout : R) :
  SST.network_layers sl isz depth width k gc dropout
  = below_dense (SST.network_layers sl isz depth width k gc dropout)
    ++ [DenseLayer k SST.sigmoid;
        ReshapeLayer [InputDim 0; InputDim 1; Fixed k]].
Proof.
  unfold SST.network_layers. rewrite app_comm_cons, below_dense_app.
  rewrite <- app_assoc. reflexivity.
Qed.

Section ArgumentChecks.

(** What the constructors of Lasagne's layers do with their arguments: one
    that refuses them raises [ValueError]; the parameters of the dense
    layer, of shape [(num_inputs, num_units)], are created exactly for a
    positive number of units; a reshape to the dimensions of the input and
    a positive integer is accepted. *)
Hypothesis checks_raise_ValueError :
  forall l e, layer_check l = Raise e -> exists msg, e = ValueError msg.
Hypothesis dense_units_positive :
  forall n f, layer_check (DenseLayer n f) = Ok tt <-> (0 < n)%Z.
Hypothesis output_shape_positive :
  forall n, (0 < n)%Z ->
    layer_check (ReshapeLayer [InputDim 0; InputDim 1; Fixed n]) = Ok tt.

(** C5.  For every [num_proposals > 0], a dropout probability in [0, 1]
    and other arguments with which the library builds the layers below
    the dense layer, construction succeeds and gives a model of that many
    proposals.  For every [num_proposals <= 0] construction raises
    [ValueError], whatever the other arguments: below 0 by the guard of
    line 57; at 0, which that guard lets through, by the dropout guard or
    by a layer constructor, at the latest that of the dense layer, whose
    parameters would have a dimension of 0. *)
Theorem init_positive_proposals_only (iv tv : option variable)
    (sl : option nat) (k depth width isz : Z) (gc rb dropout : R)
    (mode : string) (w0 w1 : option R) (verbose : bool) :
  let built :=
    SST.__init__ iv tv sl k depth width isz gc rb dropout mode w0 w1 verbose in
  ((0 < k)%Z -> 0 <= dropout <= 1 ->
   (forall l,
      In l (below_dense (SST.network_layers sl isz depth width k gc dropout)) ->
      layer_check l = Ok tt) ->
   exists m,
     built = Ok m /\ SST.num_proposals m = k
     /\ SST._network m = SST.network_layers sl isz depth width k gc dropout)
  /\ ((k <= 0)%Z -> exists msg, built = Raise (ValueError msg)).
Proof.
  intros built. subst built. split.
  - intros Hk Hd Hbelow. rewrite init_builds by (lia || exact Hd).
    unfold SST._build_network.
    destruct (layer_checks_outcome
                (SST.network_layers sl isz depth width k gc dropout))
      as [_ Hpass].
    rewrite Hpass.
    + cbn [bind]. eexists. split; [ reflexivity | split; reflexivity ].
    + intros l Hin. rewrite network_layers_split in Hin.
      apply in_app_or in Hin. destruct Hin as [Hin | [<- | [<- | []]]].
      * apply Hbelow, Hin.
      * apply dense_units_positive, Hk.
      * apply output_shape_positive, Hk.
  - intros Hk. destruct (Z.ltb_spec k 0) as [Hneg | Hzero].
    + rewrite init_rejects_negative by exact Hneg. eexists. reflexivity.
    + assert (k = 0%Z) by lia. subst k.
      destruct (Rlt_dec dropout 0) as [Hlo | Hlo].
      { unfold SST.__init__. cbn [Z.ltb Z.compare].
        destruct (Rlt_dec dropout 0); [ | contradiction ].
        eexists. reflexivity. }
      destruct (Rgt_dec dropout 1) as [Hhi | Hhi].
      { unfold SST.__init__. cbn [Z.ltb Z.compare].
        destruct (Rlt_dec dropout 0); [ contradiction | ].
        destruct (Rgt_dec dropout 1); [ | contradiction ].
        eexists. reflexivity. }
      rewrite init_builds by (lia || lra).
      unfold SST._build_network.
      destruct (Py.for_each _ _ tt) as [u | e] eqn:E; cbn [bind].
      * exfalso.
        assert (Hd : layer_check (DenseLayer 0 SST.sigmoid) = Ok tt).
        { apply (layer_checks_all _ E). rewrite network_layers_split.
          apply in_or_app. right. left. reflexivity. }
        apply dense_units_positive in Hd. lia.
      * destruct (layer_checks_outcome
                    (SST.network_layers sl isz depth width 0 gc dropout))
          as [Hfail _].
        destruct (Hfail e E) as (l & _ & Hl).
        destruct (checks_raise_ValueError _ Hl) as [msg ->].
        exists msg. reflexivity.
Qed.

End ArgumentChecks.

End Constructor.

(** The argument checks of the one-parameter library are of that kind. *)
Lemma positive_dimensions_errors (l : layer) (e : exn) :
  positive_dimensions l = Raise e -> exists msg, e = ValueError msg.
Proof.
  destruct l as [ sh | n g | p | sh | n f ]; cbn [positive_dimensions].
  - destruct (existsb non_positive sh); [ | discriminate ].
    intros H. injection H as <-. eexists. reflexivity.
  - destruct (n <=? 0)%Z; [ | discriminate ].
    intros H. injection H as <-. eexists. reflexivity.
  - discriminate.
  - destruct (existsb bad_reshape_dim sh).
    + intros H. injection H as <-. eexists. reflexivity.
    + destruct (1 <? _)%nat; [ | discriminate ].
      intros H. injection H as <-. eexists. reflexivity.
  - destruct (n <=? 0)%Z; [ | discriminate ].
    intros H. injection H as <-. eexists. reflexivity.
Qed.

Lemma positive_dimensions_dense (n : Z) (f : R -> R) :
  positive_dimensions (DenseLayer n f) = Ok tt <-> (0 < n)%Z.
Proof.
  cbn [positive_dimensions]. destruct (Z.leb_spec n 0); split.
  - discriminate.
  - lia.
  - intros _. assumption.
  - reflexivity.
Qed.

Lemma positive_dimensions_output (n : Z) :
  (0 < n)%Z ->
  positive_dimensions (ReshapeLayer [InputDim 0; InputDim 1; Fixed n]) = Ok tt.
Proof.
  intros Hn. cbn [positive_dimensions existsb bad_reshape_dim orb filter
                  inferred_dim].
  destruct (Z.eqb_spec n 0); [ lia | ].
  destruct (Z.ltb_spec n (-1)); [ lia | ].
  destruct (Z.eqb_spec n (-1)); [ lia | ].
  reflexivity.
Qed.

Lemma init_positive_proposals_only_witness :
  (forall l e, layer_check (Lasagne := scalar_lasagne) l = Raise e ->
               exists msg, e = ValueError msg)
  /\ (forall n f, layer_check (Lasagne := scalar_lasagne) (DenseLayer n f)
                  = Ok tt <-> (0 < n)%Z)
  /\ (exists m,
        SST.__init__ (L := scalar_lasagne) None None None 16 1 256 500 100 5 0
          "train" None None false = Ok m
        /\ SST.num_proposals m = 16%Z)
  /\ (exists msg,
        SST.__init__ (L := scalar_lasagne) None None None 0 1 256 500 100 5 0
          "train" None None false = Raise (ValueError msg)).
Proof.
  pose proof (@init_positive_proposals_only scalar_lasagne
                positive_dimensions_errors positive_dimensions_dense
                positive_dimensions_output) as H.
  split; [ exact positive_dimensions_errors | ].
  split; [ exact positive_dimensions_dense | ].
  split.
  - destruct (H None None None 16%Z 1%Z 256%Z 500%Z 100 5 0 "train"%string
                None None false) as [Hpos _].
    destruct Hpos as (m & Hm & Hk & _).
    + lia.
    + lra.
    + intros l Hin. unfold SST.network_layers in Hin.
      destruct (Rgt_dec 0 0) as [ Hgt | _ ]; [ lra | ].
      cbn in Hin.
      destruct Hin as [<- | [<- | [<- | []]]]; reflexivity.
    + exists m. split; assumption.
  - destruct (H None None None 0%Z 1%Z 256%Z 500%Z 100 5 0 "train"%string
                None None false) as [_ Hzero].
    apply Hzero. lia.
Defined.

End ModelProps.

Lemma test_fn_uses_dropout_pass_witness :
  exists m test,
    SST.test_fn one_unit = None
    /\ SST.mode one_unit = "train"%string
    /\ SST.w0 one_unit = Some 0%R
    /\ SST.w1 one_unit = Some 1%R
    /\ SST.compile one_unit = Ok m
    /\ SST.test_fn m = Some test
    /\ test (1%R, 0%R) (fun _ => [1%R]) (single 1) (Some (single 0))
       = Ok (SST.Scalar
               (SST.loss_of 0 1 (single 0)
                  (SST.tmap (fun v => SST.clip v 0.001 0.999)
                     (SST.get_output (L := scalar_lasagne)
                        (SST._network one_unit) 1%R false
                        (fun _ => [1%R]) (single 1)))),
             (1%R, 0%R)).
Proof.
  destruct (@compile_train scalar_lasagne one_unit 0%R 1%R
              eq_refl eq_refl eq_refl eq_refl (@given _ _) (@given _ _))
    as (m & train & test & Hc & _ & Hte & _).
  exists m, test.
  repeat (split; [ reflexivity | ]).
  split; [ exact Hc | split; [ exact Hte | ] ].
  apply (@test_fn_uses_dropout_pass scalar_lasagne one_unit m 0%R 1%R test
           eq_refl eq_refl eq_refl eq_refl Hc Hte).
Defined.

Lemma forward_eval_train_updates_test_scores_witness :
  exists m,
    SST.test_fn one_unit = None
    /\ SST.compile one_unit = Ok m
    /\ SST.ndim (single 1) = 3%nat
    /\ Z.of_nat (nth 2 (shape (single 1)) 0%nat) = SST.input_size one_unit
    /\ exists r,
         SST.forward_eval m (1%R, 0%R) (fun _ => [1%R]) (fun _ => [0%R])
           (single 1) (Some (single 0))
         = Ok (SST.Scalar r,
               @nesterov_momentum scalar_lasagne
                 (fun th => SST.loss_of 0 1 (single 0)
                    (SST.train_prediction (SST._network one_unit) th
                       (fun _ => [1%R]) (single 1)))
                 0.01%R 0.9%R (1%R, 0%R)).
Proof.
  destruct (@compile_train scalar_lasagne one_unit 0%R 1%R
              eq_refl eq_refl eq_refl eq_refl (@given _ _) (@given _ _))
    as (m & train & test & Hc & _).
  exists m.
  split; [ reflexivity | split; [ exact Hc | split; [ reflexivity | split;
    [ reflexivity | ] ] ] ].
  destruct (@forward_eval_train_updates_test_scores scalar_lasagne one_unit m
              (1%R, 0%R) (fun _ => [1%R]) (fun _ => [0%R]) (single 1)
              (single 0) eq_refl Hc eq_refl eq_refl) as [Htrain _].
  destruct (Htrain eq_refl) as (c0 & c1 & E0 & E1 & Hrun).
  injection E0 as <-. injection E1 as <-.
  eexists. exact Hrun.
Defined.


(** * Further properties of [train.py]: minibatches *)

Section MinibatchEdges.

Variables X Y : Type.

(** X1.  What the minibatch iterator does outside its intended use: with
    inputs and targets of different lengths it fails its assertion
    whatever the batch size; with equal lengths, a batch size of 0 raises
    the [ValueError] of [range] and a negative batch size yields no batch
    at all. *)
Theorem iterate_minibatches_degenerate (shuffled : list nat -> list nat)
    (inputs : list X) (targets : list Y) (B : Z) (shuffle : bool) :
  (List.length inputs <> List.length targets ->
   Train.iterate_minibatches shuffled inputs targets B shuffle
   = Raise AssertionError)
  /\ (List.length inputs = List.length targets -> B = 0%Z ->
      Train.iterate_minibatches shuffled inputs targets B shuffle
      = Raise (ValueError "range() arg 3 must not be zero"))
  /\ (List.length inputs = List.length targets -> (B < 0)%Z ->
      Train.iterate_minibatches shuffled inputs targets B shuffle = Ok []).
Proof.
  unfold Train.iterate_minibatches. split; [ | split ].
  - intros Hne. apply Nat.eqb_neq in Hne. rewrite Hne. reflexivity.
  - intros He ->. rewrite He, Nat.eqb_refl. reflexivity.
  - intros He HB. rewrite He, Nat.eqb_refl. cbn [assert bind].
    unfold range, range_len.
    destruct (Z.eqb_spec B 0) as [ | _ ]; [ lia | ].
    destruct (Z.ltb_spec 0 B) as [ | _ ]; [ lia | ].
    destruct (Z.ltb_spec (Z.of_nat (List.length targets) - B + 1) 0) as [ | _ ];
      [ lia | ].
    reflexivity.
Qed.


Lemma nth_error_combine {A B} (a : list A) (b : list B) (i : nat) :
  nth_error (combine a b) i
  = match nth_error a i, nth_error b i with
    | Some x, Some y => Some (x, y)
    | _, _ => None
    end.
Proof.
  revert b i. induction a as [ | x a IH ]; intros b i.
  - destruct i; reflexivity.
  - destruct b as [ | y b ].
    + destruct i; cbn; [ reflexivity | ].
      destruct (nth_error a i); reflexivity.
    + destruct i; cbn; [ reflexivity | apply IH ].
Qed.

Lemma pick_combine {A B} (a : list A) (b : list B) (idx : list nat) :
  List.length a = List.length b ->
  pick (combine a b) idx = combine (pick a idx) (pick b idx).
Proof.
  intros Hlen. unfold pick.
  induction idx as [ | i idx IH ]; [ reflexivity | ].
  cbn [flat_map]. rewrite IH, nth_error_combine.
  destruct (nth_error a i) as [x | ] eqn:Ea;
    destruct (nth_error b i) as [y | ] eqn:Eb; cbn; try reflexivity.
  - apply nth_error_None in Eb.
    assert (nth_error a i <> None) as Hs by congruence.
    apply nth_error_Some in Hs. lia.
  - apply nth_error_None in Ea.
    assert (nth_error b i <> None) as Hs by congruence.
    apply nth_error_Some in Hs. lia.
Qed.

Lemma NoDup_firstn {A} (n : nat) (l : list A) : NoDup l -> NoDup (firstn n l).
Proof.
  intros H. rewrite <- (firstn_skipn n l) in H.
  apply NoDup_app_remove_r in H. exact H.
Qed.

(** X2.  For a positive batch size, every batch pairs each input with the
    target of the same position, shuffled or not, and no position of the
    data is used in two batches: the batches are the inputs and the
    targets picked at lists of positions whose concatenation has no
    duplicate. *)
Theorem iterate_minibatches_pairs_positions (shuffled : list nat -> list nat)
    (inputs : list X) (targets : list Y) (B : Z) (shuffle : bool)
    (HB : (0 < B)%Z)
    (Hlen : List.length targets = List.length inputs)
    (Hperm : Permutation (shuffled (Np.arange (List.length inputs)))
                         (Np.arange (List.length inputs))) :
  exists segs : list (list nat),
    Train.iterate_minibatches shuffled inputs targets B shuffle
    = Ok (map (fun seg => Ok (pick inputs seg, pick targets seg)) segs)
    /\ NoDup (List.concat segs)
    /\ Forall (fun seg =>
                 combine (pick inputs seg) (pick targets seg)
                 = pick (combine inputs targets) seg) segs.
Proof.
  set (n := List.length inputs).
  set (order := visiting_order shuffled n shuffle).
  exists (map (segment order (Z.to_nat B))
              (seq 0 (Z.to_nat (Z.of_nat n / B)))).
  split; [ | split ].
  - rewrite map_map. apply iterate_minibatches_yields; assumption.
  - unfold segment. rewrite concat_segments. apply NoDup_firstn.
    apply (Permutation_NoDup
             (Permutation_sym (@visiting_order_perm shuffled n shuffle Hperm))).
    apply seq_NoDup.
  - apply Forall_forall. intros seg _. symmetry. apply pick_combine.
    symmetry. exact Hlen.
Qed.


End MinibatchEdges.

Lemma iterate_minibatches_degenerate_witness :
  List.length [1%nat; 2%nat] <> List.length [3%nat]
  /\ Train.iterate_minibatches (fun l => l) [1%nat; 2%nat] [3%nat] 1 false
     = Raise AssertionError.
Proof.
  assert (H : List.length [1%nat; 2%nat] <> List.length [3%nat])
    by (cbn; lia).
  split; [ exact H | ].
  apply (proj1 (@iterate_minibatches_degenerate nat nat (fun l => l)
                  [1%nat; 2%nat] [3%nat] 1 false) H).
Defined.

Lemma iterate_minibatches_pairs_positions_witness :
  (0 < 2)%Z
  /\ List.length [10%nat; 11%nat; 12%nat] = List.length [0%nat; 1%nat; 2%nat]
  /\ Permutation (rev (Np.arange 3)) (Np.arange 3)
  /\ exists segs : list (list nat),
       Train.iterate_minibatches (@rev nat) [0%nat; 1%nat; 2%nat]
         [10%nat; 11%nat; 12%nat] 2 true
       = Ok (map (fun seg => Ok (pick [0%nat; 1%nat; 2%nat] seg,
                                 pick [10%nat; 11%nat; 12%nat] seg)) segs)
       /\ NoDup (List.concat segs).
Proof.
  assert (HB : (0 < 2)%Z) by lia.
  assert (Hlen : List.length [10%nat; 11%nat; 12%nat]
                 = List.length [0%nat; 1%nat; 2%nat]) by reflexivity.
  assert (Hperm : Permutation
            (rev (Np.arange (List.length [0%nat; 1%nat; 2%nat])))
            (Np.arange (List.length [0%nat; 1%nat; 2%nat])))
    by apply Permutation_sym, Permutation_rev.
  split; [ exact HB | split; [ exact Hlen | split; [ exact Hperm | ] ] ].
  destruct (@iterate_minibatches_pairs_positions nat nat (@rev nat)
              [0%nat; 1%nat; 2%nat] [10%nat; 11%nat; 12%nat] 2 true
              HB Hlen Hperm) as (segs & H1 & H2 & _).
  exists segs. split; assumption.
Defined.

(** * Further properties of [train.py]: labels, class weights, loading *)

Section Labels.

Local Open Scope Q_scope.

Lemma Qlt_bool_true (x y : Q) : x < y -> Np.Qlt_bool x y = true.
Proof. unfold Np.Qlt_bool, Qlt. apply Z.ltb_lt. Qed.

Lemma Qlt_bool_false (x y : Q) : y <= x -> Np.Qlt_bool x y = false.
Proof. unfold Np.Qlt_bool, Qle. intros H. apply Z.ltb_ge. exact H. Qed.

Lemma Qle_bool_false (x y : Q) : y < x -> Qle_bool x y = false.
Proof.
  intros H. destruct (Qle_bool x y) eqn:E; [ | reflexivity ].
  apply Qle_bool_iff in E. exfalso. apply (Qlt_not_le _ _ H E).
Qed.

Lemma binarize_entry_binary (tau v : Q) :
  binarize_entry tau v = 0 \/ binarize_entry tau v = 1.
Proof.
  unfold binarize_entry. destruct (Qle_bool tau v) eqn:E.
  - destruct (Np.Qlt_bool 1 tau); [ left | right ]; reflexivity.
  - assert (Hlt : v < tau).
    { apply Qnot_le_lt. intros H. apply Qle_bool_iff in H. congruence. }
    rewrite (Qlt_bool_true Hlt). left. reflexivity.
Qed.

Lemma binarize_entries_binary (tau : Q) (y : list (list (list Q))) :
  Forall (Forall (Forall (fun v => v = 0 \/ v = 1))) (Train.binarize tau y).
Proof.
  rewrite binarize_map.
  apply Forall_map, Forall_forall; intros sample _.
  apply Forall_map, Forall_forall; intros row _.
  apply Forall_map, Forall_forall; intros v _.
  apply binarize_entry_binary.
Qed.

(** X3.  Whatever the threshold and whatever the raw values, every entry
    of a binarized label matrix is exactly 0 or exactly 1. *)
Theorem binarize_binary (tau : Q) (y : list (list (list Q))) :
  Forall (Forall (Forall (fun v => v = 0 \/ v = 1))) (Train.binarize tau y).
Proof. apply binarize_entries_binary. Qed.

(** X4.  With a threshold above 1 the second assignment undoes the first:
    every label is 0, also where the raw value reaches the threshold. *)
Theorem binarize_threshold_above_one (tau : Q) (y : list (list (list Q)))
    (Htau : 1 < tau) :
  Train.binarize tau y = map (map (map (fun _ => 0))) y.
Proof.
  rewrite binarize_map.
  apply map_ext; intros sample. apply map_ext; intros row.
  apply map_ext; intros v.
  unfold binarize_entry. destruct (Qle_bool tau v) eqn:E.
  - rewrite (Qlt_bool_true Htau). reflexivity.
  - assert (Hlt : v < tau).
    { apply Qnot_le_lt. intros H. apply Qle_bool_iff in H. congruence. }
    rewrite (Qlt_bool_true Hlt). reflexivity.
Qed.

Lemma binarize_threshold_above_one_witness :
  1 < 3 # 2 /\ Train.binarize (3 # 2) [[[2; 1 # 2]]] = [[[0; 0]]].
Proof.
  assert (H : 1 < 3 # 2) by (unfold Qlt; simpl; lia).
  split; [ exact H | ].
  rewrite (@binarize_threshold_above_one (3 # 2) [[[2; 1 # 2]]] H).
  reflexivity.
Defined.

(** X5.  For a threshold in (0, 1], binarizing labels that are already
    binarized changes nothing. *)
Theorem binarize_idempotent (tau : Q) (y : list (list (list Q)))
    (Hpos : 0 < tau) (Hle : tau <= 1) :
  Train.binarize tau (Train.binarize tau y) = Train.binarize tau y.
Proof.
  rewrite !binarize_map, !map_map.
  apply map_ext; intros sample. rewrite map_map.
  apply map_ext; intros row. rewrite map_map.
  apply map_ext; intros v.
  destruct (binarize_entry_binary tau v) as [E | E]; rewrite E.
  - unfold binarize_entry.
    rewrite (Qle_bool_false Hpos), (Qlt_bool_true Hpos). reflexivity.
  - unfold binarize_entry.
    assert (E1 : Qle_bool tau 1 = true) by (apply Qle_bool_iff; exact Hle).
    rewrite E1, (Qlt_bool_false Hle). reflexivity.
Qed.

Lemma binarize_idempotent_witness :
  0 < 1 # 2 /\ 1 # 2 <= 1
  /\ Train.binarize (1 # 2) (Train.binarize (1 # 2) [[[3 # 10; 1 # 2; 7 # 10]]])
     = Train.binarize (1 # 2) [[[3 # 10; 1 # 2; 7 # 10]]].
Proof.
  assert (H0 : 0 < 1 # 2) by (unfold Qlt; simpl; lia).
  assert (H1 : 1 # 2 <= 1) by (unfold Qle; simpl; lia).
  split; [ exact H0 | split; [ exact H1 | ] ].
  apply (@binarize_idempotent (1 # 2) [[[3 # 10; 1 # 2; 7 # 10]]] H0 H1).
Defined.

(** *** Class weights of binarized labels *)

Lemma sum_plus (f g : list (list Q) -> Q) (y : list (list (list Q))) :
  fold_right Qplus 0 (map f y) + fold_right Qplus 0 (map g y)
  == fold_right Qplus 0 (map (fun s => f s + g s) y).
Proof.
  induction y as [ | s y IH ]; cbn [map fold_right]; [ ring | ].
  rewrite <- IH. ring.
Qed.

Lemma sum_nonneg (f : list (list Q) -> Q) (y : list (list (list Q))) :
  (forall s, 0 <= f s) -> 0 <= fold_right Qplus 0 (map f y).
Proof.
  intros Hf. induction y as [ | s y IH ]; cbn [map fold_right].
  - apply Qle_refl.
  - replace 0 with (0 + 0) by reflexivity. apply Qplus_le_compat; [ apply Hf | exact IH ].
Qed.

Lemma inject_Z_pos (n : Z) : (0 < n)%Z -> 0 < inject_Z n.
Proof. intros H. unfold Qlt, inject_Z. simpl. lia. Qed.

Lemma inject_Z_nonneg (n : Z) : (0 <= n)%Z -> 0 <= inject_Z n.
Proof. intros H. unfold Qle, inject_Z. simpl. lia. Qed.

Lemma mean_nonneg (f : list (list Q) -> Q) (y : list (list (list Q))) :
  y <> [] -> (forall s, 0 <= f s) -> 0 <= mean_over_samples f y.
Proof.
  intros Hne Hf. unfold mean_over_samples.
  apply Qle_shift_div_l.
  - apply inject_Z_pos. destruct y; [ congruence | cbn [List.length]; lia ].
  - rewrite Qmult_0_l. apply sum_nonneg, Hf.
Qed.

Lemma mean_plus (f g : list (list Q) -> Q) (y : list (list (list Q))) :
  mean_over_samples f y + mean_over_samples g y
  == mean_over_samples (fun s => f s + g s) y.
Proof.
  unfold mean_over_samples. rewrite <- sum_plus.
  unfold Qdiv. ring.
Qed.

Lemma binarize_samples_length (tau : Q) (T : nat) (raw : list (list (list Q))) :
  Forall (fun sample => List.length sample = T) raw ->
  Forall (fun sample => List.length sample = T) (Train.binarize tau raw).
Proof.
  intros H. rewrite binarize_map. apply Forall_map.
  eapply Forall_impl; [ | exact H ]. intros s Hs. rewrite length_map. exact Hs.
Qed.

Lemma binarize_anchor_binary (tau : Q) (k : nat) (raw : list (list (list Q))) :
  Forall (Forall (fun row => nth k row 0 == 0 \/ nth k row 0 == 1))
         (Train.binarize tau raw).
Proof.
  pose proof (binarize_entries_binary tau raw) as H.
  eapply Forall_impl; [ | exact H ]. intros sample Hs.
  eapply Forall_impl; [ | exact Hs ]. intros row Hr.
  destruct (nth_in_or_default k row 0) as [Hin | Hd].
  - rewrite Forall_forall in Hr. destruct (Hr _ Hin) as [E | E]; rewrite E;
      [ left | right ]; reflexivity.
  - rewrite Hd. left. reflexivity.
Qed.

(** X6.  On binarized labels the two class weights of an anchor are
    fractions that add up to 1: for a non-empty training set whose
    sequences have [seq_length > 0] timesteps, [w0[k] + w1[k] = 1] with
    both between 0 and 1, whatever the threshold. *)
Theorem class_weights_sum_to_one (K T k : nat) (tau : Q)
    (raw : list (list (list Q)))
    (Hk : (k < K)%nat) (HT : (0 < T)%nat) (Hne : raw <> [])
    (Hlen : Forall (fun sample => List.length sample = T) raw) :
  let y := Train.binarize tau raw in
  let w0 := nth k (Train.class_weight_w0 K (Z.of_nat T) y) 0 in
  let w1 := nth k (Train.class_weight_w1 K (Z.of_nat T) y) 0 in
  w0 + w1 == 1 /\ 0 <= w0 /\ w0 <= 1 /\ 0 <= w1 /\ w1 <= 1.
Proof.
  intros y w0 w1. subst w0 w1.
  unfold Train.class_weight_w0, Train.class_weight_w1.
  rewrite !class_weight_nth by exact Hk.
  set (f1 := fun sample : list (list Q) =>
               inject_Z (count_label 1 k sample) / inject_Z (Z.of_nat T)).
  set (f0 := fun sample : list (list Q) =>
               inject_Z (count_label 0 k sample) / inject_Z (Z.of_nat T)).
  assert (Hy : y <> []).
  { subst y. rewrite binarize_map. destruct raw; [ congruence | discriminate ]. }
  assert (HTq : 0 < inject_Z (Z.of_nat T)) by (apply inject_Z_pos; lia).
  assert (Hf1 : forall s, 0 <= f1 s).
  { intros s. unfold f1. apply Qle_shift_div_l; [ exact HTq | ].
    rewrite Qmult_0_l. apply inject_Z_nonneg. unfold count_label. lia. }
  assert (Hf0 : forall s, 0 <= f0 s).
  { intros s. unfold f0. apply Qle_shift_div_l; [ exact HTq | ].
    rewrite Qmult_0_l. apply inject_Z_nonneg. unfold count_label. lia. }
  assert (Hsum : mean_over_samples f1 y + mean_over_samples f0 y == 1).
  { rewrite mean_plus. apply mean_constant; [ exact Hy | ].
    pose proof (@binarize_samples_length tau T raw Hlen) as HL.
    pose proof (binarize_anchor_binary tau k raw) as HB.
    fold y in HL, HB. rewrite Forall_forall in *. intros s Hin.
    pose proof (@count_binary k s (HB _ Hin)) as Hc. rewrite (HL _ Hin) in Hc.
    unfold f1, f0. rewrite <- Hc, inject_Z_plus.
    field. rewrite <- inject_Z_plus, Hc. intros E.
    rewrite E in HTq. apply (Qlt_irrefl _ HTq). }
  pose proof (@mean_nonneg f1 y Hy Hf1) as H1.
  pose proof (@mean_nonneg f0 y Hy Hf0) as H0.
  split; [ exact Hsum | ].
  split; [ exact H1 | split; [ | split; [ exact H0 | ] ] ].
  - rewrite <- Hsum. rewrite <- (Qplus_0_r (mean_over_samples f1 y)) at 1.
    apply Qplus_le_compat; [ apply Qle_refl | exact H0 ].
  - rewrite <- Hsum. rewrite <- (Qplus_0_l (mean_over_samples f0 y)) at 1.
    apply Qplus_le_compat; [ exact H1 | apply Qle_refl ].
Qed.

Lemma class_weights_sum_to_one_witness :
  (0 < 1)%nat /\ (0 < 3)%nat /\ [[[3 # 10]; [1 # 2]; [7 # 10]]] <> []
  /\ Forall (fun sample : list (list Q) => List.length sample = 3%nat)
            [[[3 # 10]; [1 # 2]; [7 # 10]]]
  /\ nth 0 (Train.class_weight_w0 1 3
              (Train.binarize (1 # 2) [[[3 # 10]; [1 # 2]; [7 # 10]]])) 0
     + nth 0 (Train.class_weight_w1 1 3
                (Train.binarize (1 # 2) [[[3 # 10]; [1 # 2]; [7 # 10]]])) 0
     == 1.
Proof.
  assert (Hk : (0 < 1)%nat) by lia.
  assert (HT : (0 < 3)%nat) by lia.
  assert (Hne : [[[3 # 10]; [1 # 2]; [7 # 10]]] <> []) by discriminate.
  assert (Hlen : Forall (fun sample : list (list Q) =>
                           List.length sample = 3%nat)
                        [[[3 # 10]; [1 # 2]; [7 # 10]]])
    by (constructor; [ reflexivity | constructor ]).
  split; [ exact Hk | split; [ exact HT | split; [ exact Hne | split;
    [ exact Hlen | ] ] ] ].
  apply (@class_weights_sum_to_one 1 3 0 (1 # 2)
           [[[3 # 10]; [1 # 2]; [7 # 10]]] Hk HT Hne Hlen).
Defined.

End Labels.

(** * Further properties of [train.py]: reading the samples *)

Section Reading.

Variable loadmat : string -> result (list (list Q) * list (list Q)).

Lemma read_samples_unfold (fnames : list string) :
  Loader.read_samples loadmat fnames = for_each fnames (Loader.read_step loadmat) ([], []).
Proof. reflexivity. Qed.

Lemma read_from_sound (fnames : list string) :
  forall acc X1 y1,
    for_each fnames (Loader.read_step loadmat) acc = Ok (X1, y1) ->
    exists X y,
      X1 = fst acc ++ X /\ y1 = snd acc ++ y
      /\ map loadmat fnames = map Ok (combine X y)
      /\ Forall2 (fun feat gt => List.length feat = List.length gt) X y.
Proof.
  induction fnames as [ | f fs IH ]; intros acc X1 y1 H.
  - cbn in H. injection H as H. subst acc. exists [], [].
    cbn. rewrite !app_nil_r. repeat split. constructor.
  - cbn [for_each] in H. unfold Loader.read_step at 1 in H.
    destruct (loadmat f) as [[feat gt] | e] eqn:E; cbn [bind fst snd] in H;
      [ | discriminate H ].
    destruct (Nat.eqb_spec (List.length feat) (List.length gt)) as [Hr | Hr];
      cbn [assert bind] in H; [ | discriminate H ].
    destruct (IH _ _ _ H) as (X & y & -> & -> & Hm & HF).
    exists (feat :: X), (gt :: y). cbn [fst snd].
    rewrite <- !app_assoc. cbn [app combine map].
    rewrite E, Hm. repeat split. constructor; assumption.
Qed.

Lemma read_from_complete (X y : list (list (list Q))) :
  Forall2 (fun feat gt => List.length feat = List.length gt) X y ->
  forall fnames acc,
    map loadmat fnames = map Ok (combine X y) ->
    for_each fnames (Loader.read_step loadmat) acc = Ok (fst acc ++ X, snd acc ++ y).
Proof.
  induction 1 as [ | feat gt X y Hr HF IH ]; intros fnames acc Hm.
  - destruct fnames; [ | discriminate Hm ].
    destruct acc. cbn. rewrite !app_nil_r. reflexivity.
  - destruct fnames as [ | f fs ]; [ discriminate Hm | ].
    cbn [combine map] in Hm. injection Hm as E Hm.
    cbn [for_each]. unfold Loader.read_step at 1. rewrite E. cbn [bind fst snd].
    rewrite Hr, Nat.eqb_refl. cbn [assert bind].
    rewrite (IH fs _ Hm). cbn [fst snd]. rewrite <- !app_assoc. reflexivity.
Qed.

(** X7.  Reading a list of files succeeds exactly when every file loads
    and has as many rows of features as rows of labels; the features and
    the labels are then those of the files, in the order of the files, so
    that there are as many of the ones as of the others. *)
Theorem read_samples_ok_iff (fnames : list string)
    (X y : list (list (list Q))) :
  Loader.read_samples loadmat fnames = Ok (X, y)
  <-> (map loadmat fnames = map Ok (combine X y)
       /\ Forall2 (fun feat gt => List.length feat = List.length gt) X y).
Proof.
  rewrite read_samples_unfold. split.
  - intros H. destruct (read_from_sound _ _ H) as (X' & y' & -> & -> & Hm & HF).
    cbn [fst snd app]. split; assumption.
  - intros [Hm HF]. apply (read_from_complete HF fnames ([], []) Hm).
Qed.

Lemma for_each_app {A S} (xs ys : list A) (body : S -> A -> result S) (s : S) :
  for_each (xs ++ ys) body s = bind (for_each xs body s) (for_each ys body).
Proof.
  revert s. induction xs as [ | x xs IH ]; intros s; [ reflexivity | ].
  cbn [app for_each]. destruct (body s x) as [s' | e]; cbn [bind];
    [ apply IH | reflexivity ].
Qed.

(** X8.  Reading fails fast: when the files before [f] are read and [f]
    has a number of feature rows different from its number of label rows,
    reading raises [AssertionError], whatever files follow. *)
Theorem read_samples_mismatch (pre post : list string) (f : string)
    (X y : list (list (list Q))) (feat gt : list (list Q))
    (Hpre : Loader.read_samples loadmat pre = Ok (X, y))
    (Hf : loadmat f = Ok (feat, gt))
    (Hrows : List.length feat <> List.length gt) :
  Loader.read_samples loadmat (pre ++ f :: post) = Raise AssertionError.
Proof.
  rewrite read_samples_unfold in *. rewrite for_each_app, Hpre. cbn [bind for_each].
  unfold Loader.read_step at 1. rewrite Hf. cbn [bind fst snd].
  apply Nat.eqb_neq in Hrows. rewrite Hrows. reflexivity.
Qed.

End Reading.

Lemma read_samples_mismatch_witness :
  Loader.read_samples two_files ["a.mat"%string] = Ok ([[[1%Q]]], [[[1 # 2]]])
  /\ two_files "b.mat" = Ok ([[1%Q]; [2%Q]], [[1 # 2]])
  /\ List.length [[1%Q]; [2%Q]] <> List.length [[1 # 2]]
  /\ Loader.read_samples two_files (["a.mat"%string] ++ ["b.mat"%string])
     = Raise AssertionError.
Proof.
  assert (Hpre : Loader.read_samples two_files ["a.mat"%string]
                 = Ok ([[[1%Q]]], [[[1 # 2]]])) by reflexivity.
  assert (Hf : two_files "b.mat" = Ok ([[1%Q]; [2%Q]], [[1 # 2]]))
    by reflexivity.
  assert (Hrows : List.length [[1%Q]; [2%Q]] <> List.length [[1 # 2]])
    by (cbn; lia).
  split; [ exact Hpre | split; [ exact Hf | split; [ exact Hrows | ] ] ].
  apply (@read_samples_mismatch two_files ["a.mat"%string] [] "b.mat"
           _ _ _ _ Hpre Hf Hrows).
Defined.

(** * Further properties of [train.py]: how a run ends *)

Section RunOutcome.

Context {T : Torch}.

Variable a : Train.args.
Variable rnd : Train.oracle.
Variables X_train y_train : list (list (list Q)).
Variables w0 w1 : list Q.




End RunOutcome.

Section RunFiles.

Context {T : Torch}.

Lemma same_files_refl s : same_files s s.
Proof. reflexivity. Qed.

Lemma same_files_trans s1 s2 s3 :
  same_files s1 s2 -> same_files s2 s3 -> same_files s1 s3.
Proof. unfold same_files. congruence. Qed.

Variable a : Train.args.
Variable rnd : Train.oracle.
Variables X_train y_train : list (list (list Q)).
Variables w0 w1 : list Q.

Ltac files_frame :=
  repeat first
    [ assumption
    | match goal with
      | |- forall _, _ => intro
      | |- keeps _ (let '(_, _) := ?p in _) => destruct p
      | |- keeps _ (if ?b then _ else _) => destruct b
      end
    | apply keeps_bind_raise
    | apply keeps_bind
    | apply keeps_for_loop
    | apply keeps_ret
    | apply keeps_lift
    | apply keeps_get
    | apply keeps_modify; intros ?; reflexivity ].

Lemma keeps_files_epoch u i :
  keeps same_files (Train.epoch a rnd X_train y_train w0 w1 u i).
Proof.
  pose proof same_files_refl. pose proof same_files_trans.
  unfold Train.epoch, Train.train_pass, Train.eval_pass, Train.train_batch,
    Train.eval_batch, Train.save_checkpoint.
  rewrite load_save_dir.
  unfold Train.set_training, Train.set_hidden, Train.set_grads,
    Train.set_params_optimizer, Train.print, Train.mkdir, Train.path_exists.
  files_frame.
Qed.

(** X10.  The only change a run of the training loop makes to the files on
    disk is to create the loss log [<method_name>_loss.txt], empty, in place
    of any file of that name: nothing is ever written into the log, and no
    other file is written, however the run ends. *)
Theorem training_loop_files (s : Train.state) :
  let log := (Train.method_name a ++ "_loss.txt")%string in
  Train.files (snd (Train.training_loop a rnd X_train y_train w0 w1 s))
  = (log, Train.EmptyFile)
    :: filter (fun g => negb (String.eqb log (fst g))) (Train.files s).
Proof.
  intros log.
  pose proof same_files_refl as Hr. pose proof same_files_trans as Ht.
  assert (Hrest : keeps same_files
            (Train.mbind (Train.lift (range 0 (Train.num_epochs a) 1))
               (fun epochs =>
                  Train.mbind
                    (Train.for_loop epochs
                       (Train.epoch a rnd X_train y_train w0 w1) tt)
                    (fun _ => Train.print (Train.Text "DONE"))))).
  { pose proof keeps_files_epoch. unfold Train.print. files_frame. }
  unfold Train.training_loop.
  unfold Train.mbind at 1. cbn [Train.print Train.modify].
  unfold Train.mbind at 1. cbn [Train.write_file Train.modify].
  match goal with
  | |- Train.files (snd (?m ?s1)) = _ => rewrite (Hrest s1)
  end.
  reflexivity.
Qed.

(** X11.  With no epoch to run ([num_epochs <= 0]) the loop body never
    runs: the run ends normally, the model, its gradient buffers and the
    optimizer are untouched, no directory is made, and the output is the
    two lines of the start and of the end. *)
Theorem training_loop_no_epoch (s : Train.state)
    (Hep : (Train.num_epochs a <= 0)%Z) :
  exists s',
    Train.training_loop a rnd X_train y_train w0 w1 s = (Ok tt, s')
    /\ Train.model_params s' = Train.model_params s
    /\ Train.optimizer s' = Train.optimizer s
    /\ Train.model_grads s' = Train.model_grads s
    /\ Train.model_training s' = Train.model_training s
    /\ Train.dirs s' = Train.dirs s
    /\ Train.stdout s'
       = Train.stdout s
         ++ [Train.Text "Starting training ..."; Train.Text "DONE"].
Proof.
  assert (Hr : range 0 (Train.num_epochs a) 1 = Ok []).
  { unfold range, range_len. cbn [Z.eqb Z.ltb Z.compare].
    destruct (Z.ltb_spec 0 (Train.num_epochs a)); [ lia | reflexivity ]. }
  unfold Train.training_loop. rewrite Hr.
  eexists. split; [ reflexivity | ].
  cbn. rewrite <- app_assoc. repeat split.
Qed.

(** X12.  When the batch size is positive and the shuffle is a
    permutation, neither pass of an epoch raises, and each goes through
    exactly [floor(n / B)] minibatches, [n] being the number of samples. *)
Theorem passes_count_full_batches (i : Z) (s : Train.state)
    (HB : (0 < Train.batch_size a)%Z)
    (Hlen : List.length y_train = List.length X_train)
    (Hperm : forall j,
        Permutation (Train.shuffled rnd j (Np.arange (List.length X_train)))
                    (Np.arange (List.length X_train))) :
  let batches := (Z.of_nat (List.length X_train) / Train.batch_size a)%Z in
  (exists l s',
      Train.train_pass a rnd X_train y_train w0 w1 i s = (Ok (l, batches), s'))
  /\ (exists l s',
         Train.eval_pass a rnd X_train y_train w0 w1 i s = (Ok (l, batches), s')).
Proof.
  intros batches. split.
  - apply train_pass_ok; assumption.
  - apply eval_pass_ok; assumption.
Qed.

End RunFiles.

(** * Further properties of [train.py]: resuming from a checkpoint *)

Section Resuming.

Context {T : Torch}.

Variable load_error : exn.

(** X13.  A checkpoint path that names no file is not fatal: resuming
    returns normally without a start epoch, prints that no checkpoint was
    found, and leaves the model, the optimizer and the disk as they are. *)
Theorem resume_missing_checkpoint (a : Train.args) (s : Train.state)
    (Hpath : Train.checkpoint a <> ""%string)
    (Hmiss : forall f, In f (Train.files s) -> fst f <> Train.checkpoint a) :
  exists s',
    Resume.resume load_error a s = (Ok None, s')
    /\ Train.model_params s' = Train.model_params s
    /\ Train.optimizer s' = Train.optimizer s
    /\ Train.files s' = Train.files s
    /\ Train.dirs s' = Train.dirs s
    /\ Train.stdout s'
       = Train.stdout s
         ++ [Train.Text ("=> no checkpoint found at '"
                         ++ Train.checkpoint a ++ "'");
             Train.Text "DONE"].
Proof.
  assert (Hex : existsb (fun f => String.eqb (Train.checkpoint a) (fst f))
                        (Train.files s) = false).
  { destruct (existsb _ (Train.files s)) eqn:E; [ | reflexivity ].
    apply existsb_exists in E. destruct E as (f & Hin & Heq).
    apply String.eqb_eq in Heq. exfalso. apply (Hmiss f Hin). congruence. }
  apply String.eqb_neq in Hpath.
  unfold Resume.resume. rewrite Hpath.
  unfold Train.mbind, Resume.isfile, Train.get. rewrite Hex.
  eexists. split; [ reflexivity | ].
  cbn. rewrite <- app_assoc. repeat split.
Qed.

End Resuming.

(** * Further properties of [model.py]: construction and compilation *)

Section Construction.

Local Open Scope R_scope.

Context {L : Lasagne}.

Lemma layer_checks_pass (ls : list layer) :
  (forall l, In l ls -> layer_check l = Ok tt) ->
  Py.for_each ls (fun _ l => layer_check l) tt = Ok tt.
Proof.
  induction ls as [ | l ls IH ]; intros Hall; [ reflexivity | ].
  cbn [Py.for_each]. rewrite (Hall l (or_introl eq_refl)). cbn [bind].
  apply IH. intros l' Hin. apply Hall. right. exact Hin.
Qed.

(** What [__init__] returns when it returns a model. *)
Lemma init_ok_model (iv tv : option variable) (sl : option nat)
    (k depth width isz : Z)
    (gc rb dropout : R) (mode : string) (w0 w1 : option R) (verbose : bool)
    (m : SST.SSTSequenceEncoder) :
  SST.__init__ iv tv sl k depth width isz gc rb dropout mode w0 w1 verbose
  = Ok m ->
  m = {| SST.mode := mode; SST.input_var := iv; SST.target_var := tv;
         SST.w0 := w0; SST.w1 := w1;
         SST.seq_length := sl; SST.num_proposals := k;
         SST.depth := depth; SST.width := width; SST.input_size := isz;
         SST.grad_clip := gc; SST.reset_bias := rb;
         SST.dropout := dropout; SST.verbose := verbose;
         SST.train_fn := None; SST.test_fn := None;
         SST._network :=
           SST.network_layers sl isz depth width k gc dropout |}
  /\ (0 <= k)%Z /\ 0 <= dropout <= 1.
Proof.
  unfold SST.__init__.
  destruct (Z.ltb_spec k 0) as [ | Hk ]; [ discriminate | ].
  destruct (Rlt_dec dropout 0) as [ | H0 ]; [ discriminate | ].
  destruct (Rgt_dec dropout 1) as [ | H1 ]; [ discriminate | ].
  cbn [orb]. unfold SST._build_network.
  destruct (Py.for_each _ _ tt) as [[] | e]; cbn [bind]; [ | discriminate ].
  intros H. injection H as <-. split; [ reflexivity | split; [ exact Hk | lra ] ].
Qed.

(** X15.  The validation of the constructor, in its order: a negative
    number of proposals is rejected with the message that names it,
    whatever the other arguments; otherwise a dropout probability outside
    [0, 1] is rejected; otherwise, when the library accepts the layers, the
    model is built with the arguments as given, the layers of
    [_build_network], and no compiled function. *)
Theorem init_validation (iv tv : option variable) (sl : option nat)
    (k depth width isz : Z)
    (gc rb dropout : R) (mode : string) (w0 w1 : option R) (verbose : bool) :
  let built :=
    SST.__init__ iv tv sl k depth width isz gc rb dropout mode w0 w1 verbose in
  ((k < 0)%Z ->
   built = Raise (ValueError
     ("Must provide positive number of proposalanchors. (Provided: "
      ++ Py.str k ++ ")")))
  /\ ((0 <= k)%Z -> dropout < 0 \/ 1 < dropout ->
      built = Raise (ValueError "Invalid value for dropout"))
  /\ ((0 <= k)%Z -> 0 <= dropout <= 1 ->
      (forall l, In l (SST.network_layers sl isz depth width k gc dropout) ->
                 layer_check l = Ok tt) ->
      exists m,
        built = Ok m
        /\ SST.num_proposals m = k /\ SST.dropout m = dropout
        /\ SST.mode m = mode /\ SST.w0 m = w0 /\ SST.w1 m = w1
        /\ SST.input_size m = isz
        /\ SST.input_var m = iv /\ SST.target_var m = tv
        /\ SST._network m = SST.network_layers sl isz depth width k gc dropout
        /\ SST.train_fn m = None /\ SST.test_fn m = None).
Proof.
  intros built. subst built. split; [ | split ].
  - apply init_rejects_negative.
  - intros Hk Hd. unfold SST.__init__.
    destruct (Z.ltb_spec k 0); [ lia | ].
    destruct (Rlt_dec dropout 0); [ reflexivity | ].
    destruct (Rgt_dec dropout 1); [ reflexivity | lra ].
  - intros Hk Hd Hall. rewrite init_builds by assumption.
    unfold SST._build_network. rewrite (layer_checks_pass _ Hall). cbn [bind].
    eexists. split; [ reflexivity | ]. cbn. repeat split.
Qed.

(** X16.  A model that has been constructed and not compiled cannot be
    evaluated: [forward_eval] raises [ValueError("Model must be
    compiled.")] on every input, in every mode. *)
Theorem fresh_model_must_be_compiled (iv tv : option variable)
    (sl : option nat)
    (k depth width isz : Z) (gc rb dropout : R) (mode : string)
    (w0 w1 : option R) (verbose : bool) (m : SST.SSTSequenceEncoder)
    (sh : pvalues * velocity) (masks1 masks2 : nat -> list R) (x : tensor)
    (labels : option tensor)
    (Hm : SST.__init__ iv tv sl k depth width isz gc rb dropout mode w0 w1
            verbose
          = Ok m) :
  SST.forward_eval m sh masks1 masks2 x labels
  = Raise (ValueError "Model must be compiled.").
Proof.
  destruct (init_ok_model _ _ _ _ _ _ _ _ _ _ _ _ _ _ Hm) as [-> _].
  reflexivity.
Qed.

(** *** The layers of the network *)

Lemma filter_concat_repeat {A} (p : A -> bool) (block : list A) (n : nat) :
  List.length (filter p (List.concat (repeat block n)))
  = (n * List.length (filter p block))%nat.
Proof.
  induction n as [ | n IH ]; [ reflexivity | ].
  cbn [repeat List.concat]. rewrite filter_app, length_app, IH. lia.
Qed.

Lemma length_concat_repeat {A} (block : list A) (n : nat) :
  List.length (List.concat (repeat block n))
  = (List.length block * n)%nat.
Proof.
  induction n as [ | n IH ]; [ cbn; lia | ].
  cbn [repeat List.concat]. rewrite length_app, IH. lia.
Qed.

(** Block [i] of [n] repetitions of a block starts at [i] times its length. *)
Lemma nth_error_blocks {A} (block : list A) (n : nat) :
  forall i j, (i < n)%nat -> (j < List.length block)%nat ->
    nth_error (List.concat (repeat block n)) (List.length block * i + j)
    = nth_error block j.
Proof.
  induction n as [ | n IH ]; intros i j Hi Hj; [ lia | ].
  cbn [repeat List.concat]. destruct i as [ | i ].
  - rewrite Nat.mul_0_r, Nat.add_0_l. apply nth_error_app1. exact Hj.
  - rewrite nth_error_app2 by lia.
    replace (List.length block * S i + j - List.length block)%nat
      with (List.length block * i + j)%nat by lia.
    apply IH; lia.
Qed.

(** X17.  The layers of [_build_network], position by position: the input
    layer with the shape [(None, seq_length, input_size)]; then, for each
    of the [depth] rounds of the loop, a recurrent layer of [width] units
    and, directly after it, a dropout layer with the model's probability
    when that probability is positive (and nothing when it is not); then
    the reshape to rows of [width] elements, the dense layer of
    [num_proposals] sigmoid units and the reshape to the output shape.
    There are no other layers, so the recurrent layers are [depth] and
    the dropout layers [depth] or none. *)
Theorem network_layers_structure (sl : option nat) (isz depth width k : Z)
    (gc dropout : R) :
  let net := SST.network_layers sl isz depth width k gc dropout in
  let n := Z.to_nat depth in
  let stride := if Rgt_dec dropout 0 then 2%nat else 1%nat in
  List.length net = (stride * n + 4)%nat
  /\ nth_error net 0
     = Some (InputLayer [None; option_map Z.of_nat sl; Some isz])
  /\ (forall i, (i < n)%nat ->
        nth_error net (stride * i + 1) = Some (GRULayer width gc)
        /\ (dropout > 0 ->
            nth_error net (stride * i + 2) = Some (DropoutLayer dropout)))
  /\ nth_error net (stride * n + 1) = Some (ReshapeLayer [Infer; Fixed width])
  /\ nth_error net (stride * n + 2) = Some (DenseLayer k SST.sigmoid)
  /\ nth_error net (stride * n + 3)
     = Some (ReshapeLayer [InputDim 0; InputDim 1; Fixed k])
  /\ List.length (filter is_gru net) = n
  /\ List.length (filter is_dropout net)
     = (if Rgt_dec dropout 0 then n else 0%nat).
Proof.
  intros net n stride. subst net. unfold SST.network_layers. fold n.
  set (block := GRULayer width gc
                :: (if if Rgt_dec dropout 0 then true else false
                    then [DropoutLayer dropout] else [])).
  set (tail := [ReshapeLayer [Infer; Fixed width]; DenseLayer k SST.sigmoid;
                ReshapeLayer [InputDim 0; InputDim 1; Fixed k]]).
  assert (Hblock : List.length block = stride).
  { subst block stride. destruct (Rgt_dec dropout 0); reflexivity. }
  assert (Hlen : List.length (List.concat (repeat block n))
                 = (stride * n)%nat).
  { rewrite length_concat_repeat, Hblock. reflexivity. }
  assert (Htail : forall j,
    nth_error (InputLayer [None; option_map Z.of_nat sl; Some isz]
               :: List.concat (repeat block n) ++ tail) (stride * n + S j)
    = nth_error tail j).
  { intros j. rewrite Nat.add_succ_r. cbn [nth_error].
    rewrite nth_error_app2 by lia. f_equal. lia. }
  split; [ | split; [ | split; [ | split; [ | split; [ | split;
    [ | split ] ] ] ] ] ].
  - cbn [List.length]. rewrite length_app, Hlen. subst tail. cbn. lia.
  - reflexivity.
  - intros i Hi. split.
    + rewrite Nat.add_1_r. cbn [nth_error].
      rewrite nth_error_app1 by (rewrite Hlen; subst stride;
                                 destruct (Rgt_dec dropout 0); nia).
      rewrite <- Hblock, <- (Nat.add_0_r (List.length block * i)).
      rewrite nth_error_blocks by (rewrite ?Hblock; subst stride;
                                   destruct (Rgt_dec dropout 0); lia).
      reflexivity.
    + intros Hpos.
      assert (Hs : stride = 2%nat).
      { subst stride. destruct (Rgt_dec dropout 0); [ reflexivity | lra ]. }
      replace (stride * i + 2)%nat with (S (stride * i + 1)) by lia.
      cbn [nth_error].
      rewrite nth_error_app1 by (rewrite Hlen; lia).
      rewrite <- Hblock.
      rewrite nth_error_blocks by (rewrite ?Hblock; lia).
      subst block. destruct (Rgt_dec dropout 0); [ reflexivity | lra ].
  - apply (Htail 0%nat).
  - apply (Htail 1%nat).
  - apply (Htail 2%nat).
  - cbn [filter is_gru]. rewrite filter_app, length_app, filter_concat_repeat.
    subst block tail. destruct (Rgt_dec dropout 0); cbn; lia.
  - cbn [filter is_dropout].
    rewrite filter_app, length_app, filter_concat_repeat.
    subst block tail. destruct (Rgt_dec dropout 0); cbn; lia.
Qed.

End Construction.

(** * Further properties of [model.py]: the forward pass *)

Section ForwardPass.

Local Open Scope R_scope.

Context {L : Lasagne}.

Lemma run_layers_app (th : pvalues) (det : bool) (masks : nat -> list R)
    (x0 : tensor) (l1 l2 : list layer) :
  forall pos t,
    SST.run_layers th det masks x0 pos (l1 ++ l2) t
    = SST.run_layers th det masks x0 (pos + List.length l1) l2
        (SST.run_layers th det masks x0 pos l1 t).
Proof.
  induction l1 as [ | l l1 IH ]; intros pos t.
  - cbn. rewrite Nat.add_0_r. reflexivity.
  - cbn [app SST.run_layers List.length]. rewrite IH. f_equal. lia.
Qed.

Lemma zip_with_length (f : R -> R -> R) (xs ys : list R) :
  List.length (SST.zip_with f xs ys)
  = Nat.min (List.length xs) (List.length ys).
Proof.
  revert ys. induction xs as [ | x xs IH ]; intros [ | y ys ]; cbn;
    try reflexivity.
  rewrite IH. reflexivity.
Qed.

(** A dropout layer keeps the shape and the number of elements when its
    mask has an entry for every element. *)
Lemma dropout_output_well_shaped (p : R) (det : bool) (mask : list R)
    (t : tensor) (sh : list nat) :
  List.length mask = fold_right Nat.mul 1%nat sh ->
  well_shaped t sh -> well_shaped (SST.dropout_output p det mask t) sh.
Proof.
  intros Hmask [Hsh Hlen]. unfold SST.dropout_output.
  destruct det; [ split; assumption | ].
  destruct (Req_dec_T p 0); [ split; assumption | ].
  split; [ exact Hsh | ]. cbn [data].
  rewrite zip_with_length, length_map, Hlen, Hmask. apply Nat.min_id.
Qed.

Section Shapes.

Variables (th : pvalues) (det : bool) (masks : nat -> list R) (x0 : tensor).
Variables (width : Z) (gc dropout : R) (N T D : nat).

(** The library's recurrent layer of [width] units turns a batch of [N]
    sequences of [T] vectors into one of [N] sequences of [T] vectors of
    [width] elements; every dropout mask has the shape of what it masks. *)
Hypothesis Hgru : forall pos t d,
  d = D \/ d = Z.to_nat width ->
  well_shaped t [N; T; d] ->
  well_shaped (GRULayer_output th pos width t) [N; T; Z.to_nat width].
Hypothesis Hmasks : forall pos,
  List.length (masks pos) = (N * T * Z.to_nat width)%nat.

Lemma recurrent_layers_well_shaped (n : nat) :
  forall pos t d,
    d = D \/ d = Z.to_nat width ->
    well_shaped t [N; T; d] ->
    well_shaped
      (SST.run_layers th det masks x0 pos
         (List.concat
            (repeat (GRULayer width gc
                     :: (if if Rgt_dec dropout 0 then true else false
                         then [DropoutLayer dropout] else []))
                    n)) t)
      [N; T; match n with O => d | S _ => Z.to_nat width end].
Proof.
  induction n as [ | n IH ]; intros pos t d Hd Ht; [ exact Ht | ].
  cbn [repeat List.concat]. rewrite <- app_comm_cons.
  cbn [SST.run_layers SST.layer_output].
  pose proof (Hgru pos Hd Ht) as Hg.
  assert (Hblock : forall pos1,
    exists t1,
      SST.run_layers th det masks x0 pos1
        ((if if Rgt_dec dropout 0 then true else false
          then [DropoutLayer dropout] else [])
         ++ List.concat
              (repeat (GRULayer width gc
                       :: (if if Rgt_dec dropout 0 then true else false
                           then [DropoutLayer dropout] else []))
                      n))
        (GRULayer_output th pos width t)
      = SST.run_layers th det masks x0
          (pos1 + (if Rgt_dec dropout 0 then 1 else 0))
          (List.concat
             (repeat (GRULayer width gc
                      :: (if if Rgt_dec dropout 0 then true else false
                          then [DropoutLayer dropout] else []))
                     n)) t1
      /\ well_shaped t1 [N; T; Z.to_nat width]).
  { intros pos1. destruct (Rgt_dec dropout 0).
    - eexists. split.
      + cbn [app SST.run_layers SST.layer_output]. rewrite Nat.add_1_r.
        reflexivity.
      + apply dropout_output_well_shaped; [ | exact Hg ].
        rewrite Hmasks. cbn [fold_right]. lia.
    - eexists. split.
      + cbn [app]. rewrite Nat.add_0_r. reflexivity.
      + exact Hg. }
  destruct (Hblock (S pos)) as (t1 & -> & Ht1).
  pose proof (IH (S pos + (if Rgt_dec dropout 0 then 1 else 0))%nat t1
                (Z.to_nat width) (or_intror eq_refl) Ht1) as H.
  destruct n; exact H.
Qed.

End Shapes.

(** X18.  On a batch of [N] sequences of [T] feature vectors, with at
    least one recurrent layer of positive width, the output of the network
    is a tensor of shape [(N, T, num_proposals)] that holds
    [N * T * num_proposals] elements, in the deterministic pass and in the
    pass with dropout: the reshape to rows of [width] elements gets
    [N * T * width] elements and makes [N * T] rows of them, and the final
    reshape gets the [N * T * num_proposals] elements its shape asks for,
    so the element counts that Theano checks agree at both.  The recurrent
    and the dense layer of the library are taken to return tensors of
    their output shapes. *)
Theorem get_output_shape (sl : option nat) (isz depth width k : Z)
    (gc dropout : R) (th : pvalues) (det : bool) (masks : nat -> list R)
    (x : tensor) (N T D : nat)
    (Hdepth : (0 < depth)%Z) (Hwidth : (0 < width)%Z)
    (Hx : well_shaped x [N; T; D])
    (Hgru : forall pos t d,
        d = D \/ d = Z.to_nat width ->
        well_shaped t [N; T; d] ->
        well_shaped (GRULayer_output th pos width t) [N; T; Z.to_nat width])
    (Hdense : forall pos t,
        well_shaped t [(N * T)%nat; Z.to_nat width] ->
        well_shaped (DenseLayer_affine th pos k t) [(N * T)%nat; Z.to_nat k])
    (Hmasks : forall pos,
        List.length (masks pos) = (N * T * Z.to_nat width)%nat) :
  well_shaped
    (SST.get_output (SST.network_layers sl isz depth width k gc dropout)
       th det masks x)
    [N; T; Z.to_nat k].
Proof.
  unfold SST.get_output, SST.network_layers.
  cbn [SST.run_layers SST.layer_output]. rewrite run_layers_app.
  pose proof (@recurrent_layers_well_shaped th det masks x width gc dropout
                N T D Hgru Hmasks (Z.to_nat depth) 1%nat x D
                (or_introl eq_refl) Hx) as Hrec.
  destruct (Z.to_nat depth) as [ | n ] eqn:En; [ lia | ].
  set (t := SST.run_layers th det masks x 1 _ x) in *.
  destruct Hrec as [Hsh Hlen]. cbn [fold_right] in Hlen.
  assert (Hw : (0 < Z.to_nat width)%nat) by lia.
  cbn [SST.run_layers SST.layer_output].
  set (rows := SST.reshape_to (shape x) [Infer; Fixed width] t).
  assert (Hrows : well_shaped rows [(N * T)%nat; Z.to_nat width]).
  { subst rows. unfold SST.reshape_to, well_shaped.
    cbn [shape data map SST.known_dim fold_right]. rewrite Hlen.
    replace (N * (T * (Z.to_nat width * 1)))%nat
      with (N * T * (1 * (Z.to_nat width * 1)))%nat by lia.
    rewrite Nat.div_mul by lia. split; [ reflexivity | lia ]. }
  match goal with
  | |- context [ DenseLayer_affine th ?pos k rows ] =>
      destruct (Hdense pos rows Hrows) as [Hdsh Hdlen]
  end.
  destruct Hx as [Hxs _].
  unfold SST.reshape_to, well_shaped.
  cbn [shape data map SST.known_dim SST.tmap fold_right].
  rewrite Hxs. cbn [nth]. split; [ reflexivity | ].
  rewrite length_map, Hdlen. cbn [fold_right]. lia.
Qed.

Lemma layer_output_no_dropout (th : pvalues) (masks : nat -> list R)
    (x0 : tensor) (pos : nat) (l : layer) (t : tensor) :
  (forall p, l = DropoutLayer p -> p = 0) ->
  SST.layer_output th false masks x0 pos l t
  = SST.layer_output th true masks x0 pos l t.
Proof.
  intros Hl. destruct l as [ ish | n g | p | sh | n f ]; try reflexivity.
  cbn [SST.layer_output]. unfold SST.dropout_output.
  destruct (Req_dec_T p 0) as [ | Hp ]; [ reflexivity | ].
  exfalso. apply Hp, Hl. reflexivity.
Qed.

Lemma run_layers_no_dropout (th : pvalues) (masks : nat -> list R)
    (x0 : tensor) (ls : list layer) :
  Forall (fun l => forall p, l = DropoutLayer p -> p = 0) ls ->
  forall pos t,
    SST.run_layers th false masks x0 pos ls t
    = SST.run_layers th true masks x0 pos ls t.
Proof.
  induction 1 as [ | l ls Hl _ IH ]; intros pos t; [ reflexivity | ].
  cbn [SST.run_layers]. rewrite (layer_output_no_dropout _ _ _ _ _ Hl).
  apply IH.
Qed.

(** X19.  Without dropout ([dropout = 0]) the pass with
    [deterministic = False] and the deterministic pass of the network are
    the same function: the training prediction and the test prediction
    coincide, whatever the random draws. *)
Theorem passes_agree_without_dropout (sl : option nat)
    (isz depth width k : Z) (gc : R)
    (th : pvalues) (masks masks' : nat -> list R) (x : tensor) :
  let net := SST.network_layers sl isz depth width k gc 0 in
  SST.get_output net th false masks x = SST.get_output net th true masks' x
  /\ SST.train_prediction net th masks x = SST.test_prediction net th masks' x.
Proof.
  intros net.
  assert (H : SST.get_output net th false masks x
              = SST.get_output net th true masks' x).
  { rewrite (deterministic_pass_ignores_masks net th masks' masks x).
    unfold SST.get_output. apply run_layers_no_dropout.
    subst net. unfold SST.network_layers.
    destruct (Rgt_dec 0 0) as [ Hgt | _ ]; [ lra | ].
    constructor; [ intros p Hp; discriminate Hp | ].
    apply Forall_app. split.
    - apply Forall_concat. apply Forall_forall. intros block Hb.
      apply repeat_spec in Hb. subst block.
      repeat constructor; intros p Hp; discriminate Hp.
    - repeat constructor; intros p Hp; discriminate Hp. }
  split; [ exact H | ].
  unfold SST.train_prediction, SST.test_prediction. rewrite H. reflexivity.
Qed.

Lemma clip_range (v : R) : 0.001 <= SST.clip v 0.001 0.999 <= 0.999.
Proof.
  unfold SST.clip.
  destruct (Rlt_dec v 0.001); [ lra | ].
  destruct (Rgt_dec v 0.999); lra.
Qed.

(** X20.  The predictions handed to the loss are clipped: every element
    of the training prediction and of the test prediction lies in
    [0.001, 0.999], so that both logarithms of the loss are taken of
    positive numbers, whatever the network computes. *)
Theorem predictions_clipped (net : list layer) (th : pvalues)
    (masks : nat -> list R) (x : tensor) :
  Forall (fun p => 0.001 <= p <= 0.999 /\ 0 < p /\ 0 < 1 - p)
         (data (SST.train_prediction net th masks x))
  /\ Forall (fun p => 0.001 <= p <= 0.999 /\ 0 < p /\ 0 < 1 - p)
            (data (SST.test_prediction net th masks x)).
Proof.
  unfold SST.train_prediction, SST.test_prediction, SST.tmap. cbn [data].
  split; apply Forall_map, Forall_forall; intros v _;
    pose proof (clip_range v); lra.
Qed.

End ForwardPass.

(** * Further properties of [model.py]: compiled models *)

Section CompiledModels.

Local Open Scope R_scope.

Context {L : Lasagne}.

Lemma same_config_refl m : same_config m m.
Proof. repeat split. Qed.

Lemma compile_sets_test_fn (m0 m : SST.SSTSequenceEncoder) :
  SST.compile m0 = Ok m ->
  (exists f, SST.test_fn m = Some f) /\ same_config m0 m.
Proof.
  unfold SST.compile.
  destruct (SST.test_fn m0) as [f | ] eqn:Ete.
  - intros H. injection H as <-. split; [ eauto | apply same_config_refl ].
  - destruct (String.eqb (SST.mode m0) "train").
    + destruct (SST.w1 m0) eqn:E1; [ | discriminate ].
      destruct (SST.target_var m0) eqn:Et; [ | discriminate ].
      destruct (SST.w0 m0) eqn:E0; [ | discriminate ].
      destruct (SST.input_var m0) eqn:Ei; [ | discriminate ].
      intros H. injection H as <-.
      split; [ eexists; reflexivity | ].
      unfold same_config. cbn. rewrite E0, E1, Et, Ei. repeat split.
    + destruct (String.eqb (SST.mode m0) "test"); [ | discriminate ].
      destruct (SST.input_var m0) eqn:Ei; [ | discriminate ].
      intros H. injection H as <-.
      split; [ eexists; reflexivity | ].
      unfold same_config. cbn. rewrite Ei. repeat split.
Qed.

(** X21.  Compiling is done once: a successful [compile] returns a model
    with the same configuration and network whose [test_fn] is set, and
    compiling that model again returns it unchanged (the second call skips
    the compilation). *)
Theorem compile_once (m0 m : SST.SSTSequenceEncoder)
    (Hc : SST.compile m0 = Ok m) :
  (exists f, SST.test_fn m = Some f)
  /\ same_config m0 m
  /\ SST.compile m = Ok m.
Proof.
  destruct (@compile_sets_test_fn m0 m Hc) as [[f Hf] Hcfg].
  split; [ eauto | split; [ exact Hcfg | ] ].
  unfold SST.compile. rewrite Hf. reflexivity.
Qed.

(** X22.  Which models compile: a model that is not compiled yet compiles
    exactly when its [input_var] is given and either its mode is ['test'],
    or its mode is ['train'] and both class weights and [target_var] are
    given.  In those two modes every failure is a [TypeError]: of a
    product with [None] on lines 123-124, or of [theano.function] on an
    input that is [None], as with the defaults of the constructor.  With
    any other mode [compile] raises the [UnboundLocalError] of the variable
    [test_fn], which no branch has assigned. *)
Theorem compile_succeeds_iff (m0 : SST.SSTSequenceEncoder)
    (Hun : SST.test_fn m0 = None) :
  ((exists m, SST.compile m0 = Ok m)
   <-> (SST.input_var m0 <> None
        /\ (SST.mode m0 = "test"%string
            \/ (SST.mode m0 = "train"%string
                /\ SST.w0 m0 <> None /\ SST.w1 m0 <> None
                /\ SST.target_var m0 <> None))))
  /\ (SST.mode m0 = "train"%string \/ SST.mode m0 = "test"%string ->
      forall e, SST.compile m0 = Raise e -> exists msg, e = TypeError msg)
  /\ (SST.mode m0 <> "train"%string -> SST.mode m0 <> "test"%string ->
      SST.compile m0 = Raise (UnboundLocalError "test_fn")).
Proof.
  unfold SST.compile. rewrite Hun.
  destruct (String.eqb_spec (SST.mode m0) "train") as [Htr | Htr].
  - rewrite Htr. split; [ | split; [ | congruence ] ].
    + destruct (SST.w1 m0) as [c1 | ]; destruct (SST.target_var m0) as [tv | ];
        destruct (SST.w0 m0) as [c0 | ]; destruct (SST.input_var m0) as [iv | ];
        split;
        try (intros [m H]; discriminate H);
        try (intros _; eexists; reflexivity);
        try (intros _; split; [ | right; repeat split ]; discriminate);
        intros [Hi [H | (_ & H0 & H1 & Ht)]];
        try discriminate H; congruence.
    + intros _ e.
      destruct (SST.w1 m0) as [c1 | ]; destruct (SST.target_var m0) as [tv | ];
        destruct (SST.w0 m0) as [c0 | ]; destruct (SST.input_var m0) as [iv | ];
        intros H; try discriminate H; injection H as <-; eexists; reflexivity.
  - destruct (String.eqb_spec (SST.mode m0) "test") as [Hte | Hte].
    + split; [ | split; [ | congruence ] ].
      * destruct (SST.input_var m0) as [iv | ]; split.
        -- intros _. split; [ discriminate | left; exact Hte ].
        -- intros _. eexists. reflexivity.
        -- intros [m H]. discriminate H.
        -- intros [Hi _]. congruence.
      * intros _ e. destruct (SST.input_var m0) as [iv | ];
          intros H; [ discriminate H | ].
        injection H as <-. eexists. reflexivity.
    + split; [ | split; [ | reflexivity ] ].
      * split; [ intros [m H]; discriminate H | ].
        intros [_ [H | (H & _)]]; congruence.
      * intros [H | H]; congruence.
Qed.

(** X23.  Malformed input is refused before any compiled function runs: on
    a compiled model, an input that is not three-dimensional, or whose
    last dimension is not [input_size], makes [forward_eval] raise
    [ValueError], in train mode too, where a call would otherwise update
    the parameters. *)
Theorem forward_eval_rejects_malformed_input
    (m0 m : SST.SSTSequenceEncoder) (sh : pvalues * velocity)
    (masks1 masks2 : nat -> list R) (x : tensor) (labels : option tensor)
    (Hc : SST.compile m0 = Ok m) :
  (SST.ndim x <> 3%nat ->
   SST.forward_eval m sh masks1 masks2 x labels
   = Raise (ValueError "Input ndarray must be three dimensional."))
  /\ (SST.ndim x = 3%nat ->
      Z.of_nat (nth 2 (shape x) 0%nat) <> SST.input_size m0 ->
      SST.forward_eval m sh masks1 masks2 x labels
      = Raise (ValueError
          "Mismatch between input visual encoding size and network input size.")).
Proof.
  destruct (@compile_sets_test_fn m0 m Hc) as [[f Hf] Hcfg].
  assert (Hi : SST.input_size m = SST.input_size m0) by apply Hcfg.
  unfold SST.forward_eval. rewrite Hf, Hi. split.
  - intros Hnd. apply Nat.eqb_neq in Hnd. rewrite Hnd. reflexivity.
  - intros Hnd Hsz. rewrite Hnd. cbn [Nat.eqb negb].
    apply Z.eqb_neq in Hsz. rewrite Hsz. reflexivity.
Qed.

(** X24.  Inference is deterministic: on a model compiled in test mode,
    two calls of [forward_eval] on the same input with the same parameters
    return the same scores whatever the random draws and whatever labels
    are passed, also when the network has dropout layers. *)
Theorem forward_eval_test_mode_deterministic
    (m0 m : SST.SSTSequenceEncoder) (sh : pvalues * velocity)
    (masks1 masks2 masks1' masks2' : nat -> list R) (x : tensor)
    (labels labels' : option tensor)
    (Hun : SST.test_fn m0 = None)
    (Hmode : SST.mode m0 = "test"%string)
    (Hc : SST.compile m0 = Ok m) :
  SST.forward_eval m sh masks1 masks2 x labels
  = SST.forward_eval m sh masks1' masks2' x labels'.
Proof.
  destruct (compile_ok_variables m0 Hun Hc) as [Hiv _].
  destruct (compile_test m0 Hun Hmode Hiv)
    as (m' & test & Hc' & Hte & Hm & Hi & Htest).
  rewrite Hc in Hc'. injection Hc' as <-.
  unfold SST.forward_eval. rewrite Hte, Hm, Hmode.
  destruct (negb (Nat.eqb (SST.ndim x) 3)); [ reflexivity | ].
  destruct (negb (Z.eqb _ (SST.input_size m))); [ reflexivity | ].
  cbn [String.eqb Ascii.eqb Bool.eqb].
  rewrite !Htest.
  rewrite (deterministic_pass_ignores_masks _ _ masks1 masks1' x).
  reflexivity.
Qed.

Section Pretrained.

Variable P : Type.
Variable set_all_param_values : list layer -> P -> pvalues -> result pvalues.

(** X25.  Pre-trained parameters must be given before compiling: on a
    model that [compile] has returned, [initialize_pretrained] ignores the
    parameters it is given and leaves the shared variables as they are,
    without calling the library and without an error. *)
Theorem initialize_pretrained_after_compile
    (m0 m : SST.SSTSequenceEncoder) (sh : pvalues * velocity)
    (model_params : P) (Hc : SST.compile m0 = Ok m) :
  Pretrained.initialize_pretrained set_all_param_values m sh model_params
  = Ok (m, sh).
Proof.
  destruct (@compile_sets_test_fn m0 m Hc) as [[f Hf] _].
  unfold Pretrained.initialize_pretrained. rewrite Hf. reflexivity.
Qed.

End Pretrained.

End CompiledModels.

(** * Further properties of [model.py]: the loss *)

Section Loss.

Local Open Scope R_scope.

Lemma loss_of_elementwise (c0 c1 : R) (y p : tensor) :
  SST.loss_of c0 c1 y p
  = SST.mean (SST.zip_with (loss_element c0 c1) (data y) (data p)).
Proof.
  unfold SST.loss_of. f_equal.
  generalize (data p) as ps. induction (data y) as [ | v ys IH ]; intros ps.
  - reflexivity.
  - destruct ps as [ | q ps ]; [ reflexivity | ].
    cbn [map SST.zip_with]. rewrite IH. reflexivity.
Qed.

Lemma ln_nonpos (p : R) : 0 < p <= 1 -> ln p <= 0.
Proof.
  intros [H0 [H1 | ->]]; [ | rewrite ln_1; lra ].
  rewrite <- ln_1. left. apply ln_increasing; assumption.
Qed.

Lemma loss_element_nonneg (c0 c1 y p : R) :
  0 <= c1 -> c0 <= 1 -> 0 <= y <= 1 -> 0 < p < 1 ->
  0 <= loss_element c0 c1 y p.
Proof.
  intros Hc1 Hc0 Hy Hp. unfold loss_element.
  assert (H1 : ln p <= 0) by (apply ln_nonpos; lra).
  assert (H2 : ln (1 - p) <= 0) by (apply ln_nonpos; lra).
  assert (H3 : 0 <= c1 * y) by nra.
  assert (H4 : 0 <= 1 - c0 * (1 - y)) by nra.
  nra.
Qed.

Lemma rsum_zip_nonneg (f : R -> R -> R) (Py Pp : R -> Prop) (ys ps : list R) :
  (forall y p, Py y -> Pp p -> 0 <= f y p) ->
  Forall Py ys -> Forall Pp ps -> 0 <= SST.rsum (SST.zip_with f ys ps).
Proof.
  intros Hf Hys. revert ps.
  induction Hys as [ | y ys Hy _ IH ]; intros ps Hps; [ cbn; lra | ].
  destruct Hps as [ | p ps Hp Hps ]; [ cbn; lra | ].
  cbn [SST.zip_with SST.rsum fold_right].
  pose proof (Hf y p Hy Hp). pose proof (IH ps Hps) as IH'.
  unfold SST.rsum in IH'. lra.
Qed.

Lemma mean_nonneg_R (xs : list R) : 0 <= SST.rsum xs -> 0 <= SST.mean xs.
Proof.
  intros H. unfold SST.mean, Rdiv.
  apply Rmult_le_pos; [ exact H | ].
  destruct xs as [ | x xs ]; [ cbn; rewrite Rinv_0; lra | ].
  left. apply Rinv_0_lt_compat. apply lt_0_INR. cbn. lia.
Qed.

Lemma clip_inside (v : R) : 0 < SST.clip v 0.001 0.999 < 1.
Proof.
  unfold SST.clip.
  destruct (Rlt_dec v 0.001); [ lra | ].
  destruct (Rgt_dec v 0.999); lra.
Qed.

(** X26.  The loss of the code is never negative: for a weight [w1 >= 0],
    a weight [w0 <= 1] and targets between 0 and 1, the loss computed on
    the clipped predictions of any network, on any input, is at least 0. *)
Theorem training_loss_nonneg {L : Lasagne} (c0 c1 : R) (y : tensor)
    (net : list layer) (th : pvalues) (masks : nat -> list R) (x : tensor)
    (Hc1 : 0 <= c1) (Hc0 : c0 <= 1)
    (Hy : Forall (fun v => 0 <= v <= 1) (data y)) :
  0 <= SST.loss_of c0 c1 y (SST.train_prediction net th masks x).
Proof.
  rewrite loss_of_elementwise. apply mean_nonneg_R.
  apply (@rsum_zip_nonneg (loss_element c0 c1)
           (fun v => 0 <= v <= 1) (fun p => 0 < p < 1)).
  - intros v p Hv Hp. apply loss_element_nonneg; assumption.
  - exact Hy.
  - unfold SST.train_prediction, SST.tmap. cbn [data].
    apply Forall_map, Forall_forall. intros v _. apply clip_inside.
Qed.

Lemma ln_le_minus_1 (x : R) : 0 < x -> ln x <= x - 1.
Proof.
  intros Hx. destruct (Req_dec (ln x) 0) as [E | E].
  - assert (x = 1) by (apply ln_inv; [ lra | lra | rewrite ln_1; exact E ]).
    subst x. rewrite ln_1. lra.
  - pose proof (exp_ineq1 (ln x) E) as H. rewrite (exp_ln x Hx) in H. lra.
Qed.

Lemma ln_quotient (u v : R) : 0 < u -> 0 < v -> ln (u / v) = ln u - ln v.
Proof.
  intros Hu Hv. unfold Rdiv.
  rewrite ln_mult by (try apply Rinv_0_lt_compat; assumption).
  rewrite ln_Rinv by assumption. lra.
Qed.

(** X27.  For a positive target the loss of the code is smallest at the
    prediction [w1 / (1 + w1)], which is below 1: with [w1 > 0], no
    prediction in (0, 1) for a target of 1 has a smaller loss, whatever
    [w0] is. *)
Theorem positive_target_loss_minimum (c0 c1 p : R)
    (Hc1 : 0 < c1) (Hp : 0 < p < 1) :
  let q := c1 / (1 + c1) in
  0 < q < 1
  /\ SST.loss_of c0 c1 (single 1) (single q)
     <= SST.loss_of c0 c1 (single 1) (single p).
Proof.
  intros q.
  assert (Hq : 0 < q < 1).
  { subst q. split.
    - apply Rdiv_lt_0_compat; lra.
    - apply (Rmult_lt_reg_r (1 + c1)); [ lra | ].
      unfold Rdiv. rewrite Rmult_assoc, Rinv_l by lra. lra. }
  split; [ exact Hq | ].
  rewrite !loss_of_single.
  pose proof (@ln_le_minus_1 (p / q)) as H1.
  pose proof (@ln_le_minus_1 ((1 - p) / (1 - q))) as H2.
  rewrite ln_quotient in H1 by lra. rewrite ln_quotient in H2 by lra.
  assert (Hpq : 0 < p / q) by (apply Rdiv_lt_0_compat; lra).
  assert (Hpq' : 0 < (1 - p) / (1 - q)) by (apply Rdiv_lt_0_compat; lra).
  specialize (H1 Hpq). specialize (H2 Hpq').
  assert (Hz : c1 * (p / q - 1) + ((1 - p) / (1 - q) - 1) = 0).
  { subst q. field. lra. }
  assert (H3 : c1 * (ln p - ln q) <= c1 * (p / q - 1))
    by (apply Rmult_le_compat_l; lra).
  replace (1 - c0 * (1 - 1)) with 1 by lra.
  lra.
Qed.

End Loss.

(** * The further properties at concrete inputs *)


Lemma training_loop_no_epoch_witness :
  (Train.num_epochs no_epoch_args <= 0)%Z
  /\ exists s',
       Train.training_loop no_epoch_args plain_oracle [[[1 # 2]]] [[[1%Q]]]
         [1 # 8] [7 # 8] fresh_state = (Ok tt, s')
       /\ Train.model_params s' = Train.model_params fresh_state.
Proof.
  assert (Hep : (Train.num_epochs no_epoch_args <= 0)%Z) by (cbn; lia).
  split; [ exact Hep | ].
  destruct (@training_loop_no_epoch scalar_torch no_epoch_args plain_oracle
              [[[1 # 2]]] [[[1%Q]]] [1 # 8] [7 # 8] fresh_state Hep)
    as (s' & Hrun & Hp & _).
  exists s'. split; assumption.
Defined.

Lemma passes_count_full_batches_witness :
  (0 < Train.batch_size one_epoch_args)%Z
  /\ List.length [[[1%Q]]] = List.length [[[1 # 2]]]
  /\ (forall j,
        Permutation (Train.shuffled plain_oracle j
                       (Np.arange (List.length [[[1 # 2]]])))
                    (Np.arange (List.length [[[1 # 2]]])))
  /\ (exists l s',
        Train.train_pass one_epoch_args plain_oracle [[[1 # 2]]] [[[1%Q]]]
          [1 # 8] [7 # 8] 0 fresh_state = (Ok (l, 1%Z), s'))
  /\ (exists l s',
        Train.eval_pass one_epoch_args plain_oracle [[[1 # 2]]] [[[1%Q]]]
          [1 # 8] [7 # 8] 0 fresh_state = (Ok (l, 1%Z), s')).
Proof.
  assert (HB : (0 < Train.batch_size one_epoch_args)%Z) by (cbn; lia).
  assert (Hlen : List.length [[[1%Q]]] = List.length [[[1 # 2]]])
    by reflexivity.
  assert (Hperm : forall j,
    Permutation (Train.shuffled plain_oracle j
                   (Np.arange (List.length [[[1 # 2]]])))
                (Np.arange (List.length [[[1 # 2]]])))
    by (intros j; apply Permutation_refl).
  split; [ exact HB | split; [ exact Hlen | split; [ exact Hperm | ] ] ].
  apply (@passes_count_full_batches scalar_torch one_epoch_args plain_oracle
           [[[1 # 2]]] [[[1%Q]]] [1 # 8] [7 # 8] 0%Z fresh_state
           HB Hlen Hperm).
Defined.

Lemma resume_missing_checkpoint_witness :
  Train.checkpoint default_args <> ""%string
  /\ (forall f, In f (Train.files fresh_state) ->
                fst f <> Train.checkpoint default_args)
  /\ exists s',
       Resume.resume (ValueError "invalid load key") default_args fresh_state
       = (Ok None, s')
       /\ Train.model_params s' = Train.model_params fresh_state.
Proof.
  assert (Hpath : Train.checkpoint default_args <> ""%string)
    by discriminate.
  assert (Hmiss : forall f, In f (Train.files fresh_state) ->
                            fst f <> Train.checkpoint default_args)
    by (intros f []).
  split; [ exact Hpath | split; [ exact Hmiss | ] ].
  destruct (@resume_missing_checkpoint scalar_torch
              (ValueError "invalid load key") default_args fresh_state
              Hpath Hmiss) as (s' & Hrun & Hp & _).
  exists s'. split; assumption.
Defined.

Lemma init_validation_witness :
  (-1 < 0)%Z
  /\ SST.__init__ (L := scalar_lasagne) None None None (-1) 1 256 500 100 5
       0 "train" None None false
     = Raise (ValueError
         "Must provide positive number of proposalanchors. (Provided: -1)").
Proof.
  assert (Hk : (-1 < 0)%Z) by lia.
  split; [ exact Hk | ].
  apply (proj1 (@init_validation scalar_lasagne None None None (-1) 1 256 500
                  100%R 5%R 0%R "train" None None false) Hk).
Defined.

Lemma fresh_model_must_be_compiled_witness :
  SST.__init__ (L := scalar_lasagne) (Some (TensorVariable "input"))
    (Some (TensorVariable "target")) None 1 1 1 1 100 5 (1 / 2) "train"
    (Some 0%R) (Some 1%R) false = Ok one_unit
  /\ SST.forward_eval one_unit (1%R, 0%R) (fun _ => [1%R]) (fun _ => [1%R])
       (single 1) (Some (single 0))
     = Raise (ValueError "Model must be compiled.").
Proof.
  split; [ exact init_one_unit | ].
  apply (@fresh_model_must_be_compiled scalar_lasagne
           (Some (TensorVariable "input")) (Some (TensorVariable "target"))
           None 1 1 1 1 100%R 5%R
           (1 / 2)%R "train" (Some 0%R) (Some 1%R) false one_unit
           (1%R, 0%R) (fun _ => [1%R]) (fun _ => [1%R]) (single 1)
           (Some (single 0)) init_one_unit).
Defined.

Lemma network_layers_structure_witness :
  let net := SST.network_layers (Some 128%nat) 500 2 256 16 100 (1 / 2) in
  List.length net = 8%nat
  /\ nth_error net 1 = Some (GRULayer 256 100)
  /\ nth_error net 2 = Some (DropoutLayer (1 / 2))
  /\ nth_error net 3 = Some (GRULayer 256 100)
  /\ nth_error net 4 = Some (DropoutLayer (1 / 2))
  /\ nth_error net 5 = Some (ReshapeLayer [Infer; Fixed 256]).
Proof.
  intros net.
  destruct (network_layers_structure (Some 128%nat) 500 2 256 16 100 (1 / 2))
    as (Hlen & _ & Hrec & Hre & _).
  fold net in Hlen, Hrec, Hre.
  rewrite (@Rgt_dec_true (1 / 2) 0) in Hlen, Hrec, Hre by lra.
  assert (Hp : (1 / 2 > 0)%R) by lra.
  destruct (Hrec 0%nat) as [Hg0 Hd0]; [ cbn; lia | ].
  destruct (Hrec 1%nat) as [Hg1 Hd1]; [ cbn; lia | ].
  split; [ exact Hlen | ].
  split; [ exact Hg0 | split; [ exact (Hd0 Hp) | ] ].
  split; [ exact Hg1 | split; [ exact (Hd1 Hp) | exact Hre ] ].
Defined.

Lemma get_output_shape_witness :
  well_shaped (single 1) [1; 1; 1]%nat
  /\ well_shaped
       (SST.get_output (L := scalar_lasagne)
          (SST.network_layers None 1 1 1 1 100 (1 / 2)) 1%R false
          (fun _ => [1%R]) (single 1))
       [1; 1; 1]%nat.
Proof.
  assert (Hx : well_shaped (single 1) [1; 1; 1]%nat)
    by (split; reflexivity).
  split; [ exact Hx | ].
  apply (@get_output_shape scalar_lasagne None 1 1 1 1 100%R (1 / 2)%R 1%R
           false (fun _ => [1%R]) (single 1) 1 1 1).
  - lia.
  - lia.
  - exact Hx.
  - intros pos t d [-> | ->] Ht; exact Ht.
  - intros pos t [Hs Hl]. split; [ exact Hs | ].
    cbn [DenseLayer_affine scalar_lasagne SST.tmap data].
    rewrite length_map. exact Hl.
  - intros pos. reflexivity.
Defined.

Lemma compile_once_witness :
  exists m,
    SST.compile one_unit = Ok m
    /\ (exists f, SST.test_fn m = Some f)
    /\ SST.compile m = Ok m.
Proof.
  destruct (@compile_train scalar_lasagne one_unit 0%R 1%R
              eq_refl eq_refl eq_refl eq_refl (@given _ _) (@given _ _))
    as (m & train & test & Hc & _).
  exists m. split; [ exact Hc | ].
  destruct (@compile_once scalar_lasagne one_unit m Hc) as (H1 & _ & H3).
  split; assumption.
Defined.

Lemma compile_succeeds_iff_witness :
  SST.test_fn test_unit = None
  /\ exists m, SST.compile test_unit = Ok m.
Proof.
  assert (Hun : SST.test_fn test_unit = None) by reflexivity.
  split; [ exact Hun | ].
  apply (proj1 (@compile_succeeds_iff scalar_lasagne test_unit Hun)).
  split; [ discriminate | left; reflexivity ].
Defined.

Lemma forward_eval_rejects_malformed_input_witness :
  exists m,
    SST.compile test_unit = Ok m
    /\ SST.ndim {| shape := [1; 1]%nat; data := [1%R] |} <> 3%nat
    /\ SST.forward_eval m (1%R, 0%R) (fun _ => [1%R]) (fun _ => [1%R])
         {| shape := [1; 1]%nat; data := [1%R] |} None
       = Raise (ValueError "Input ndarray must be three dimensional.").
Proof.
  destruct (@compile_test scalar_lasagne test_unit eq_refl eq_refl (@given _ _))
    as (m & test & Hc & _).
  assert (Hnd : SST.ndim {| shape := [1; 1]%nat; data := [1%R] |} <> 3%nat)
    by (cbn; lia).
  exists m. split; [ exact Hc | split; [ exact Hnd | ] ].
  apply (proj1 (@forward_eval_rejects_malformed_input scalar_lasagne test_unit
                  m (1%R, 0%R) (fun _ => [1%R]) (fun _ => [1%R])
                  {| shape := [1; 1]%nat; data := [1%R] |} None Hc) Hnd).
Defined.

Lemma forward_eval_test_mode_deterministic_witness :
  exists m,
    SST.test_fn test_unit = None
    /\ SST.mode test_unit = "test"%string
    /\ SST.compile test_unit = Ok m
    /\ SST.forward_eval m (1%R, 0%R) (fun _ => [1%R]) (fun _ => [1%R])
         (single 1) None
       = SST.forward_eval m (1%R, 0%R) (fun _ => [0%R]) (fun _ => [0%R])
           (single 1) (Some (single 0)).
Proof.
  destruct (@compile_test scalar_lasagne test_unit eq_refl eq_refl (@given _ _))
    as (m & test & Hc & _).
  exists m.
  split; [ reflexivity | split; [ reflexivity | split; [ exact Hc | ] ] ].
  apply (@forward_eval_test_mode_deterministic scalar_lasagne test_unit m
           (1%R, 0%R) (fun _ => [1%R]) (fun _ => [1%R]) (fun _ => [0%R])
           (fun _ => [0%R]) (single 1) None (Some (single 0))
           eq_refl eq_refl Hc).
Defined.

Lemma initialize_pretrained_after_compile_witness :
  exists m,
    SST.compile test_unit = Ok m
    /\ Pretrained.initialize_pretrained (L := scalar_lasagne)
         (fun _ (p : R) _ => Ok p) m (1%R, 0%R) 2%R
       = Ok (m, (1%R, 0%R)).
Proof.
  destruct (@compile_test scalar_lasagne test_unit eq_refl eq_refl (@given _ _))
    as (m & test & Hc & _).
  exists m. split; [ exact Hc | ].
  apply (@initialize_pretrained_after_compile scalar_lasagne R
           (fun _ (p : R) _ => Ok p) test_unit m (1%R, 0%R) 2%R Hc).
Defined.

Lemma training_loss_nonneg_witness :
  (0 <= 7 / 8)%R /\ (1 / 8 <= 1)%R
  /\ Forall (fun v => (0 <= v <= 1)%R) (data (single 1))
  /\ (0 <= SST.loss_of (1 / 8) (7 / 8) (single 1)
             (SST.train_prediction (L := scalar_lasagne)
                (SST._network one_unit) 1%R (fun _ => [1%R]) (single 1)))%R.
Proof.
  assert (Hc1 : (0 <= 7 / 8)%R) by lra.
  assert (Hc0 : (1 / 8 <= 1)%R) by lra.
  assert (Hy : Forall (fun v => (0 <= v <= 1)%R) (data (single 1)))
    by (constructor; [ lra | constructor ]).
  split; [ exact Hc1 | split; [ exact Hc0 | split; [ exact Hy | ] ] ].
  apply (@training_loss_nonneg scalar_lasagne (1 / 8)%R (7 / 8)%R (single 1)
           (SST._network one_unit) 1%R (fun _ => [1%R]) (single 1)
           Hc1 Hc0 Hy).
Defined.

Lemma positive_target_loss_minimum_witness :
  (0 < 1)%R /\ (0 < 9 / 10 < 1)%R
  /\ (SST.loss_of 1 1 (single 1) (single (1 / (1 + 1)))
      <= SST.loss_of 1 1 (single 1) (single (9 / 10)))%R.
Proof.
  assert (Hc1 : (0 < 1)%R) by lra.
  assert (Hp : (0 < 9 / 10 < 1)%R) by lra.
  split; [ exact Hc1 | split; [ exact Hp | ] ].
  apply (proj2 (@positive_target_loss_minimum 1%R 1%R (9 / 10)%R Hc1 Hp)).
Defined.
